(** * Message conversion pipeline of cherry-studio-app

    A shallow embedding of [src/aiCore/prepareParams/messageConverter.ts]
    (module [Inline]) and of the two other revisions of that module kept
    in the repository: [unnamed/part_001], which gives at most one part
    per tool block and derives tool-call ids through a cache (module
    [OnePart]), and [unnamed/part_002], which replays recorded tool
    responses as messages of their own (module [Replay]).  The three
    revisions share the user path, the image materializer and the
    conversation compiler (module [Common]); they differ in how an
    assistant message and its tool blocks are compiled.

    Asynchronous calls are awaited one after the other in the source, so
    the embedding is sequential: a computation takes the module state and
    returns a value or an exception together with the new state. *)

From Stdlib Require Import ZArith String Ascii List Bool Lia DecimalString.
From stdpp Require Import base option list strings gmap.

Local Open Scope string_scope.
Local Open Scope list_scope.
Set Warnings "-register-all".

(** ** JavaScript values and the built-ins the module calls *)

Module JS.

(** [Number.MAX_SAFE_INTEGER], 2^53 - 1. *)
Definition MAX_SAFE_INTEGER : Z := 9007199254740991.

(** A safe integer: an integer between [-MAX_SAFE_INTEGER] and
    [MAX_SAFE_INTEGER].  Each of them is a JavaScript number, and
    JavaScript prints it with its decimal digits; larger integers are
    rounded to a double and, from 1e21, printed with an exponent. *)
Record SafeInteger : Type := mkSafeInteger {
  int_value : Z;
  int_safe : (Z.abs int_value <=? MAX_SAFE_INTEGER)%Z = true
}.

(** The JSON-shaped fragment of JavaScript values.  The numbers are the
    safe integers; the fields of an object are listed in the order
    JavaScript enumerates them, which is the order they were written in
    when no key is an array index. *)
Inductive value : Type :=
| Undefined
| Null
| Bool (b : bool)
| Num (n : SafeInteger)
| Str (s : string)
| Arr (items : list value)
| Obj (fields : list (string * value)).

Definition dquote : ascii := ascii_of_nat 34.
Definition backslash : ascii := ascii_of_nat 92.

Definition hex_digit (n : nat) : ascii :=
  if Nat.ltb n 10 then ascii_of_nat (48 + n) else ascii_of_nat (87 + n).

(** One character of [QuoteJSONString]: the two-character escapes, the
    [\u00xx] form for the other control characters, the character itself
    otherwise. *)
Definition escape_char (c : ascii) : string :=
  let n := nat_of_ascii c in
  if Nat.eqb n 34 then String backslash (String dquote EmptyString)
  else if Nat.eqb n 92 then String backslash (String backslash EmptyString)
  else if Nat.eqb n 8 then String backslash "b"
  else if Nat.eqb n 12 then String backslash "f"
  else if Nat.eqb n 10 then String backslash "n"
  else if Nat.eqb n 13 then String backslash "r"
  else if Nat.eqb n 9 then String backslash "t"
  else if Nat.ltb n 32 then
    String backslash
      ("u00" +:+ String (hex_digit (n / 16)) (String (hex_digit (n mod 16)) EmptyString))
  else String c EmptyString.

Fixpoint escape_chars (s : string) : string :=
  match s with
  | EmptyString => EmptyString
  | String c rest => escape_char c +:+ escape_chars rest
  end.

Definition QuoteJSONString (s : string) : string :=
  String dquote (escape_chars s +:+ String dquote EmptyString).

(** [Number.prototype.toString] on a safe integer: its decimal digits,
    after a minus sign when it is negative. *)
Definition Number_toString (n : SafeInteger) : string :=
  NilZero.string_of_int (Z.to_int (int_value n)).

Fixpoint join_comma (l : list string) : string :=
  match l with
  | [] => EmptyString
  | [x] => x
  | x :: rest => x +:+ "," +:+ join_comma rest
  end.

(** [JSON.stringify(v)] without replacer or indentation.  The result is
    [undefined] (here [None]) for [undefined]; inside an array
    [undefined] prints as [null], inside an object the key is left
    out. *)
Fixpoint JSON_stringify (v : value) : option string :=
  match v with
  | Undefined => None
  | Null => Some "null"
  | Bool b => Some (if b then "true" else "false")
  | Num n => Some (Number_toString n)
  | Str s => Some (QuoteJSONString s)
  | Arr items =>
      Some ("[" +:+
              join_comma
                (List.map (fun x => match JSON_stringify x with
                                    | Some s => s
                                    | None => "null"
                                    end) items)
              +:+ "]")
  | Obj fields =>
      Some ("{" +:+
              join_comma
                ((fix members (fs : list (string * value)) : list string :=
                    match fs with
                    | [] => []
                    | (k, x) :: rest =>
                        match JSON_stringify x with
                        | Some s => (QuoteJSONString k +:+ ":" +:+ s) :: members rest
                        | None => members rest
                        end
                    end) fields)
              +:+ "}")
  end.

(** [typeof v === 'string'] *)
Definition is_string (v : value) : bool :=
  match v with Str _ => true | _ => false end.

(** [v === undefined || v === null] *)
Definition is_nullish (v : value) : bool :=
  match v with Undefined | Null => true | _ => false end.

(** Truthiness of a string: every string but the empty one. *)
Definition truthy_string (s : string) : bool :=
  match s with EmptyString => false | _ => true end.

(** [s.startsWith(p)] *)
Definition startsWith (s p : string) : bool := String.prefix p s.

(** [s.substring(from, to)] for [from <= to]. *)
Definition substring (from to : nat) (s : string) : string :=
  String.substring from (to - from) s.

End JS.

(** ** Data model *)

Inductive Role : Type := user | system | assistant | tool.

Definition Role_eqb (a b : Role) : bool :=
  match a, b with
  | user, user | system, system | assistant, assistant | tool, tool => true
  | _, _ => false
  end.

(** A conversation message: the converter reads its [role] only; the
    blocks are reached through the block store. *)
Record Message : Type := mkMessage {
  msg_id : string;
  msg_role : Role;
  msg_blocks : list string
}.

(** Modelled from the spec: the [Model] type of [@/types/assistant] is
    not part of the sources; the converter hands a model to the capability
    lookups and to the native file conversion and never looks inside. *)
Record Model : Type := mkModel { model_id : string; model_provider : string }.

Record FileMetadata : Type := mkFile { path : string; origin_name : string }.

Record ImageMessageBlock : Type := mkImageBlock {
  img_file : option FileMetadata;
  img_url : option string
}.

Record FileMessageBlock : Type := mkFileBlock { fb_file : FileMetadata }.

Record ThinkingMessageBlock : Type := mkThinking { thinking_content : string }.

(** [tr.tool] of a recorded MCP tool response. *)
Record MCPTool : Type := mkTool { tool_type : string; tool_name : option string }.

(** [block.metadata.rawMcpToolResponse] *)
Record MCPToolResponse : Type := mkResponse {
  tr_id : string;
  tr_toolCallId : option string;
  tr_tool : option MCPTool;
  tr_toolName : option string;
  tr_arguments : JS.value;
  tr_status : string;
  tr_response : JS.value
}.

(** A tool block.  [toolId], [toolName] and [arguments] may be absent
    ([None]); [content] is [JS.Undefined] when absent. *)
Record ToolMessageBlock : Type := mkToolBlock {
  id : string;
  toolId : option string;
  toolName : option string;
  arguments : option (list (string * JS.value));
  content : JS.value;
  rawMcpToolResponse : option MCPToolResponse
}.

(** The [data] of a file part: a string (base64, URL or provider handle)
    or raw bytes. *)
Inductive FileData : Type :=
| DataString (s : string)
| DataBytes (bytes : list Byte.byte).

Record FilePartData : Type := mkFilePart {
  data : FileData;
  file_mediaType : string;
  filename : option string
}.

Inductive OutputTag : Type := tag_text | tag_json | tag_error_text.

(** The [output] of a tool-result part: a bare value in the one-part
    revision, a [{ type, value }] object in the other two. *)
Inductive ToolOutput : Type :=
| BareOutput (v : JS.value)
| TaggedOutput (type : OutputTag) (value : JS.value).

(** Request parts.  An identifier or a name the code reads from an absent
    field is [None] ([undefined]). *)
Inductive Part : Type :=
| PText (text : string)
| PImage (image : string) (mediaType : option string)
| PFile (f : FilePartData)
| PReasoning (text : string)
| PToolCall (toolCallId : option string) (toolName : option string) (input : JS.value)
| PToolResult (toolCallId : option string) (toolName : option string) (output : ToolOutput).

Inductive Content : Type :=
| ContentString (s : string)
| ContentParts (parts : list Part).

Record ModelMessage : Type := mkModelMessage {
  role : Role;
  mcontent : Content
}.

(** [ModelMessage | ModelMessage[]] *)
Inductive OneOrMany : Type :=
| One (m : ModelMessage)
| Many (ms : list ModelMessage).

(** [Array.isArray(x) ? x : [x]] *)
Definition toArray (x : OneOrMany) : list ModelMessage :=
  match x with One m => [m] | Many ms => ms end.

Definition is_image_part (p : Part) : bool :=
  match p with PImage _ _ => true | _ => false end.
Definition is_tool_call (p : Part) : bool :=
  match p with PToolCall _ _ _ => true | _ => false end.
Definition is_tool_result (p : Part) : bool :=
  match p with PToolResult _ _ _ => true | _ => false end.

(** ** Effects: diagnostics, the id cache, exceptions *)

Inductive LogEntry : Type :=
| Warn (msg : string)
| Debug (msg : string).

Inductive Exn : Type := TypeError (msg : string).

Inductive outcome (A : Type) : Type :=
| Ok (a : A)
| Throw (e : Exn).
Arguments Ok {A} a.
Arguments Throw {A} e.

(** The module-level state: the [toolCallIdCache] map, the diagnostics
    written so far (oldest first), and how many ids were generated (the
    index into the clock and random source of the environment). *)
Record World : Type := mkWorld {
  toolCallIdCache : gmap string string;
  generated : nat;
  logs : list LogEntry
}.

Definition M (A : Type) : Type := World -> outcome A * World.

Definition ret {A} (a : A) : M A := fun w => (Ok a, w).

Definition bind {A B} (m : M A) (k : A -> M B) : M B :=
  fun w => match m w with
           | (Ok a, w') => k a w'
           | (Throw e, w') => (Throw e, w')
           end.

Definition throw {A} (e : Exn) : M A := fun w => (Throw e, w).

(** [try { body } finally { cleanup }] for a cleanup that cannot throw. *)
Definition try_finally {A} (body : M A) (cleanup : World -> World) : M A :=
  fun w => let '(r, w') := body w in (r, cleanup w').

Definition log (e : LogEntry) : M unit :=
  fun w => (Ok tt, mkWorld (toolCallIdCache w) (generated w) (logs w ++ [e])).

Notation "'let!' x ':=' c1 'in' c2" := (bind c1 (fun x => c2))
  (at level 10, x name, c1 at level 100, c2 at level 200).
Notation "'do!' c1 'in' c2" := (bind c1 (fun _ => c2))
  (at level 10, c1 at level 100, c2 at level 200).

(** ** External collaborators *)

(** Everything the converter imports: the block store
    ([@/utils/messageUtils/find]), the capability lookups
    ([@/config/models]), the file processor ([./fileProcessor]), reading an
    image file ([expo-file-system]), [safeParseJSON] and the clock and
    random source behind generated ids. *)
Record Env : Type := mkEnv {
  getMainTextContent : Message -> string;
  findFileBlocks : Message -> list FileMessageBlock;
  findImageBlocks : Message -> list ImageMessageBlock;
  (** [findImageBlocks(undefined)], reached when the last two messages
      hold no assistant message *)
  findImageBlocks_undefined : outcome (list ImageMessageBlock);
  findThinkingBlocks : Message -> list ThinkingMessageBlock;
  findToolBlocks : Message -> list ToolMessageBlock;
  isVisionModel : Model -> bool;
  isImageEnhancementModel : Model -> bool;
  (** native file conversion: a file part, or nothing *)
  convertFileBlockToFilePart : FileMessageBlock -> Model -> option FilePartData;
  (** text extraction: the text of a text part, or nothing *)
  convertFileBlockToTextPart : FileMessageBlock -> option string;
  (** [new File(path)] then [base64()] and [type]; [None] when it throws *)
  File_load : string -> option (string * string);
  (** [safeParseJSON({ text })]: the parsed value when parsing succeeds *)
  safeParseJSON : string -> option JS.value;
  (** [Date.now()] at the n-th generated id *)
  Date_now : nat -> N;
  (** [Math.random().toString(36)] at the n-th generated id *)
  Math_random_base36 : nat -> string
}.

(** ** The two regular expressions of the image materializer *)

Fixpoint strip_prefix (p s : string) : option string :=
  match p with
  | EmptyString => Some s
  | String a p' =>
      match s with
      | String b s' => if Ascii.eqb a b then strip_prefix p' s' else None
      | EmptyString => None
      end
  end.

(** The longest prefix without [;], and the rest: what [[^;]*] consumes. *)
Fixpoint span_not_semicolon (s : string) : string * string :=
  match s with
  | EmptyString => (EmptyString, EmptyString)
  | String c rest =>
      if Ascii.eqb c ";" then (EmptyString, s)
      else let '(a, b) := span_not_semicolon rest in (String c a, b)
  end.

(** Whether a line terminator occurs: the characters [.] does not match
    (LF, CR, and U+2028 and U+2029 in their UTF-8 encoding). *)
Fixpoint has_line_terminator (s : string) : bool :=
  match s with
  | EmptyString => false
  | String c rest =>
      let n := nat_of_ascii c in
      if Nat.eqb n 10 || Nat.eqb n 13 then true
      else
        match rest with
        | String c1 (String c2 _) =>
            if Nat.eqb n 226 && Nat.eqb (nat_of_ascii c1) 128
               && (Nat.eqb (nat_of_ascii c2) 168 || Nat.eqb (nat_of_ascii c2) 169)
            then true else has_line_terminator rest
        | _ => has_line_terminator rest
        end
  end.

(** Group 1 of [url.match(/^data:[^;]*;base64,(.+)$/)], [None] when the
    match is [null].  [[^;]*] cannot give back characters to let
    [;base64,] match, so the match is decided by the first [;]. *)
Definition match_base64 (url : string) : option string :=
  match strip_prefix "data:" url with
  | None => None
  | Some after =>
      match strip_prefix ";base64," (snd (span_not_semicolon after)) with
      | None => None
      | Some payload =>
          if JS.truthy_string payload && negb (has_line_terminator payload)
          then Some payload else None
      end
  end.

(** Group 1 of [url.match(/^data:([^;]+)/)], [None] when the match is
    [null]. *)
Definition match_mime (url : string) : option string :=
  match strip_prefix "data:" url with
  | None => None
  | Some after =>
      let mime := fst (span_not_semicolon after) in
      if JS.truthy_string mime then Some mime else None
  end.

(** ** Code shared by the three revisions *)

Module Common.
Section WithEnv.
Context (E : Env).

(** One iteration of the loop of [convertImageBlockToImagePart]: the
    parts after the block was handled.  [match(...)![1]] on a [null]
    match is a [TypeError]. *)
Definition convertImageBlock (imageBlock : ImageMessageBlock) (parts : list Part)
  : M (list Part) :=
  match img_file imageBlock with
  | Some file =>
      match File_load E (path file) with
      | Some (base64, type) => ret (parts ++ [PImage base64 (Some type)])
      | None => do! log (Warn "Failed to load image:") in ret parts
      end
  | None =>
      match img_url imageBlock with
      | Some url =>
          if JS.truthy_string url then
            if JS.startsWith url "data:" then
              match match_base64 url with
              | None => throw (TypeError "Cannot read properties of null (reading '1')")
              | Some base64 =>
                  let mimeMatch := match_mime url in
                  ret (parts ++ [PImage base64
                                   (Some (match mimeMatch with
                                          | Some m => m
                                          | None => "image/png"
                                          end))])
              end
            else ret (parts ++ [PImage url None])
          else ret parts
      | None => ret parts
      end
  end.

Fixpoint convertImageBlockToImagePart_from
    (imageBlocks : list ImageMessageBlock) (parts : list Part) : M (list Part) :=
  match imageBlocks with
  | [] => ret parts
  | imageBlock :: rest =>
      let! parts' := convertImageBlock imageBlock parts in
      convertImageBlockToImagePart_from rest parts'
  end.

Definition convertImageBlockToImagePart (imageBlocks : list ImageMessageBlock)
  : M (list Part) :=
  convertImageBlockToImagePart_from imageBlocks [].

(** [typeof filePart.data === 'string' && filePart.data.startsWith('fileid://')] *)
Definition is_file_handle (filePart : FilePartData) : option string :=
  match data filePart with
  | DataString s => if JS.startsWith s "fileid://" then Some s else None
  | DataBytes _ => None
  end.

(** The text-extraction fallback of the user path. *)
Definition userTextFallback (fileBlock : FileMessageBlock) (parts : list Part)
  : M (list Part) :=
  match convertFileBlockToTextPart E fileBlock with
  | Some text =>
      do! log (Debug ("File " +:+ origin_name (fb_file fileBlock)
                        +:+ " processed as text content")) in
      ret (parts ++ [PText text])
  | None =>
      do! log (Warn ("File " +:+ origin_name (fb_file fileBlock)
                       +:+ " could not be processed in any format")) in
      ret parts
  end.

(** The loop over the file blocks of [convertMessageToUserModelMessage],
    with its early return on a provider file handle, and the final
    [return] after the loop. *)
Fixpoint userFileLoop (model : option Model) (fileBlocks : list FileMessageBlock)
    (parts : list Part) : M OneOrMany :=
  match fileBlocks with
  | [] => ret (One (mkModelMessage user (ContentParts parts)))
  | fileBlock :: rest =>
      match model with
      | Some m =>
          match convertFileBlockToFilePart E fileBlock m with
          | Some filePart =>
              match is_file_handle filePart with
              | Some handle =>
                  ret (Many [ mkModelMessage system (ContentString handle);
                              mkModelMessage user
                                (match parts with
                                 | [] => ContentString EmptyString
                                 | _ => ContentParts parts
                                 end) ])
              | None =>
                  do! log (Debug ("File " +:+ origin_name (fb_file fileBlock)
                                    +:+ " processed as native file format")) in
                  userFileLoop model rest (parts ++ [PFile filePart])
              end
          | None =>
              let! parts' := userTextFallback fileBlock parts in
              userFileLoop model rest parts'
          end
      | None =>
          let! parts' := userTextFallback fileBlock parts in
          userFileLoop model rest parts'
      end
  end.

Definition convertMessageToUserModelMessage
    (content : string) (fileBlocks : list FileMessageBlock)
    (imageBlocks : list ImageMessageBlock) (isVisionModel : bool)
    (model : option Model) : M OneOrMany :=
  let parts := if JS.truthy_string content then [PText content] else [] in
  let! parts :=
    (if isVisionModel
     then let! imageParts := convertImageBlockToImagePart imageBlocks in
          ret (parts ++ imageParts)
     else ret parts) in
  userFileLoop model fileBlocks parts.

(** The native-first file loop of the assistant path (no handle split). *)
Fixpoint assistantFileLoop (model : option Model) (fileBlocks : list FileMessageBlock)
    (parts : list Part) : list Part :=
  match fileBlocks with
  | [] => parts
  | fileBlock :: rest =>
      match match model with
            | Some m => convertFileBlockToFilePart E fileBlock m
            | None => None
            end with
      | Some filePart => assistantFileLoop model rest (parts ++ [PFile filePart])
      | None =>
          match convertFileBlockToTextPart E fileBlock with
          | Some text => assistantFileLoop model rest (parts ++ [PText text])
          | None => assistantFileLoop model rest parts
          end
      end
  end.

Definition thinkingParts (thinkingBlocks : list ThinkingMessageBlock) : list Part :=
  List.map (fun b => PReasoning (thinking_content b)) thinkingBlocks.

(** [filter(m => m.role === r)[0]] *)
Definition firstWithRole (r : Role) (ms : list ModelMessage) : option ModelMessage :=
  List.find (fun m => Role_eqb (role m) r) ms.

(** [xs.slice(-2)] *)
Definition lastTwo {A} (xs : list A) : list A :=
  List.skipn (length xs - 2) xs.

(** The image-enhancement post-pass of [convertMessagesToSdkMessages]:
    [messages] are the source messages and [sdkMessages] the compiled
    ones.  An array element that is [undefined] is [None]. *)
Definition enhancementOverride (messages : list Message)
    (sdkMessages : list ModelMessage) : M (list (option ModelMessage)) :=
  let needUpdatedMessages := lastTwo messages in
  let needUpdatedSdkMessages := lastTwo sdkMessages in
  let assistantMessage :=
    List.find (fun m => Role_eqb (msg_role m) assistant) needUpdatedMessages in
  let assistantSdkMessage := firstWithRole assistant needUpdatedSdkMessages in
  let userSdkMessage := firstWithRole user needUpdatedSdkMessages in
  let systemSdkMessages := List.filter (fun m => Role_eqb (role m) system) sdkMessages in
  let! imageBlocks :=
    (match assistantMessage with
     | Some m => ret (findImageBlocks E m)
     | None => fun w => (findImageBlocks_undefined E, w)
     end) in
  let! imageParts := convertImageBlockToImagePart imageBlocks in
  match userSdkMessage with
  | None => throw (TypeError "Cannot read properties of undefined (reading 'content')")
  | Some userSdk =>
      let userSdkMessage' :=
        match mcontent userSdk with
        | ContentString s =>
            mkModelMessage (role userSdk) (ContentParts ([PText s] ++ imageParts))
        | ContentParts ps =>
            mkModelMessage (role userSdk) (ContentParts (ps ++ imageParts))
        end in
      match systemSdkMessages with
      | sys :: _ => ret [Some sys; assistantSdkMessage; Some userSdkMessage']
      | [] => ret [assistantSdkMessage; Some userSdkMessage']
      end
  end.

(** The loop of [convertMessagesToSdkMessages] over the source messages,
    for the [convertMessageToSdkParam] of a revision. *)
Fixpoint convertAll (convert : Message -> bool -> option Model -> M OneOrMany)
    (messages : list Message) (isVision : bool) (model : Model)
    (sdkMessages : list ModelMessage) : M (list ModelMessage) :=
  match messages with
  | [] => ret sdkMessages
  | message :: rest =>
      let! sdkMessage := convert message isVision (Some model) in
      convertAll convert rest isVision model (sdkMessages ++ toArray sdkMessage)
  end.

(** The body of [convertMessagesToSdkMessages], the same in the three
    revisions up to the [convertMessageToSdkParam] it calls. *)
Definition convertMessagesToSdkMessages_with
    (convert : Message -> bool -> option Model -> M OneOrMany)
    (messages : list Message) (model : Model) : M (list (option ModelMessage)) :=
  let isVision := isVisionModel E model in
  let! sdkMessages := convertAll convert messages isVision model [] in
  if isImageEnhancementModel E model && (3 <=? length messages)%nat
  then enhancementOverride messages sdkMessages
  else ret (List.map Some sdkMessages).

End WithEnv.
End Common.

(** [name || fallback] on an optional string *)
Definition or_default (name : option string) (fallback : string) : string :=
  match name with
  | Some s => if JS.truthy_string s then s else fallback
  | None => fallback
  end.

(** ** [messageConverter.ts]: a call part for every tool block, and a
    result part next to it when the block has a result *)

Module Inline.
Section WithEnv.
Context (E : Env).

Definition convertToolBlockToToolCallPart (toolBlock : ToolMessageBlock) : Part :=
  PToolCall (toolId toolBlock)
            (Some (or_default (toolName toolBlock) "unknown"))
            (match arguments toolBlock with
             | Some fields => JS.Obj fields
             | None => JS.Obj []
             end).

Definition convertToolBlockToToolResultPart (toolBlock : ToolMessageBlock) : Part :=
  let output :=
    match content toolBlock with
    | JS.Undefined | JS.Null => TaggedOutput tag_text (JS.Str EmptyString)
    | JS.Str s => TaggedOutput tag_text (JS.Str s)
    | other => TaggedOutput tag_json other
    end in
  PToolResult (toolId toolBlock)
              (Some (or_default (toolName toolBlock) "unknown"))
              output.

Definition hasToolResult (toolBlock : ToolMessageBlock) : bool :=
  negb (JS.is_nullish (content toolBlock)).

(** The loop over the tool blocks. *)
Fixpoint toolLoop (toolBlocks : list ToolMessageBlock) (assistantParts : list Part)
  : list Part :=
  match toolBlocks with
  | [] => assistantParts
  | toolBlock :: rest =>
      let withCall := assistantParts ++ [convertToolBlockToToolCallPart toolBlock] in
      if hasToolResult toolBlock
      then toolLoop rest (withCall ++ [convertToolBlockToToolResultPart toolBlock])
      else toolLoop rest withCall
  end.

Definition convertMessageToAssistantAndToolMessages
    (content : string) (fileBlocks : list FileMessageBlock)
    (toolBlocks : list ToolMessageBlock) (thinkingBlocks : list ThinkingMessageBlock)
    (model : option Model) : M OneOrMany :=
  let assistantParts := if JS.truthy_string content then [PText content] else [] in
  let assistantParts := assistantParts ++ Common.thinkingParts thinkingBlocks in
  let assistantParts := Common.assistantFileLoop E model fileBlocks assistantParts in
  match toolBlocks with
  | [] => ret (One (mkModelMessage assistant (ContentParts assistantParts)))
  | _ => ret (One (mkModelMessage assistant
                     (ContentParts (toolLoop toolBlocks assistantParts))))
  end.

Definition convertMessageToSdkParam (message : Message) (isVisionModel : bool)
    (model : option Model) : M OneOrMany :=
  let content := getMainTextContent E message in
  let fileBlocks := findFileBlocks E message in
  let imageBlocks := findImageBlocks E message in
  let reasoningBlocks := findThinkingBlocks E message in
  let toolBlocks := findToolBlocks E message in
  match msg_role message with
  | user | system =>
      Common.convertMessageToUserModelMessage E content fileBlocks imageBlocks
        isVisionModel model
  | _ =>
      convertMessageToAssistantAndToolMessages content fileBlocks toolBlocks
        reasoningBlocks model
  end.

Definition convertMessagesToSdkMessages (messages : list Message) (model : Model)
  : M (list (option ModelMessage)) :=
  Common.convertMessagesToSdkMessages_with E convertMessageToSdkParam messages model.

End WithEnv.
End Inline.

(** ** The one-part revision ([unnamed/part_001]): at most one part per
    tool block, ids from [getToolCallId] and its cache, and a tool-role
    path *)

Module OnePart.
Section WithEnv.
Context (E : Env).

Definition generateToolCallId : M string :=
  fun w =>
    let n := generated w in
    (Ok ("tool_" +:+ NilZero.string_of_uint (N.to_uint (Date_now E n)) +:+ "_"
           +:+ JS.substring 2 11 (Math_random_base36 E n)),
     mkWorld (toolCallIdCache w) (S n) (logs w)).

Definition cache_get (key : string) : M (option string) :=
  fun w => (Ok (toolCallIdCache w !! key), w).

Definition cache_set (key v : string) : M unit :=
  fun w => (Ok tt, mkWorld (<[key := v]> (toolCallIdCache w)) (generated w) (logs w)).

Definition getToolCallId (toolBlock : ToolMessageBlock) : M string :=
  match toolId toolBlock with
  | Some t =>
      if JS.truthy_string t then ret t
      else
        let! cached := cache_get (id toolBlock) in
        match cached with
        | Some c => ret c
        | None =>
            let! newId := generateToolCallId in
            do! cache_set (id toolBlock) newId in
            ret newId
        end
  | None =>
      let! cached := cache_get (id toolBlock) in
      match cached with
      | Some c => ret c
      | None =>
          let! newId := generateToolCallId in
          do! cache_set (id toolBlock) newId in
          ret newId
      end
  end.

Definition clearToolCallIdCache (w : World) : World :=
  mkWorld ∅ (generated w) (logs w).

(** [typeof c === 'string' ? c : JSON.stringify(c)] as a JavaScript value *)
Definition stringOrJSON (c : JS.value) : JS.value :=
  match c with
  | JS.Str s => JS.Str s
  | other =>
      match JS.JSON_stringify other with
      | Some s => JS.Str s
      | None => JS.Undefined
      end
  end.

(** [toolBlock.arguments && Object.keys(toolBlock.arguments).length > 0] *)
Definition hasArguments (toolBlock : ToolMessageBlock) : bool :=
  match arguments toolBlock with
  | Some (_ :: _) => true
  | _ => false
  end.

Definition convertToolBlockToToolPart (toolBlock : ToolMessageBlock) : M (option Part) :=
  let! toolCallId := getToolCallId toolBlock in
  let toolName := or_default (toolName toolBlock) "unknown_tool" in
  if negb (JS.is_nullish (content toolBlock)) then
    let output := stringOrJSON (content toolBlock) in
    ret (Some (PToolResult (Some toolCallId) (Some toolName) (BareOutput output)))
  else if hasArguments toolBlock then
    ret (Some (PToolCall (Some toolCallId) (Some toolName)
                 (match arguments toolBlock with
                  | Some fields => JS.Obj fields
                  | None => JS.Undefined
                  end)))
  else ret None.

Definition convertToolBlockToToolResultPart (toolBlock : ToolMessageBlock)
  : M (option Part) :=
  if JS.is_nullish (content toolBlock) then ret None
  else
    let! toolCallId := getToolCallId toolBlock in
    let toolName := or_default (toolName toolBlock) "unknown_tool" in
    let output := stringOrJSON (content toolBlock) in
    ret (Some (PToolResult (Some toolCallId) (Some toolName) (BareOutput output))).

(** The loop of [convertMessageToToolModelMessage]. *)
Fixpoint toolContentLoop (toolBlocks : list ToolMessageBlock) (toolContent : list Part)
  : M (list Part) :=
  match toolBlocks with
  | [] => ret toolContent
  | toolBlock :: rest =>
      if JS.is_nullish (content toolBlock) then
        do! log (Warn ("Tool block " +:+ id toolBlock
                         +:+ " has no content, skipping in tool role message")) in
        toolContentLoop rest toolContent
      else
        let! toolResultPart := convertToolBlockToToolResultPart toolBlock in
        match toolResultPart with
        | Some p => toolContentLoop rest (toolContent ++ [p])
        | None => toolContentLoop rest toolContent
        end
  end.

Definition convertMessageToToolModelMessage (toolBlocks : list ToolMessageBlock)
  : M ModelMessage :=
  let! content := toolContentLoop toolBlocks [] in
  ret (mkModelMessage tool (ContentParts content)).

(** The loop over the tool blocks of the assistant path. *)
Fixpoint toolPartLoop (toolBlocks : list ToolMessageBlock) (parts : list Part)
  : M (list Part) :=
  match toolBlocks with
  | [] => ret parts
  | toolBlock :: rest =>
      let! toolPart := convertToolBlockToToolPart toolBlock in
      match toolPart with
      | Some p => toolPartLoop rest (parts ++ [p])
      | None => toolPartLoop rest parts
      end
  end.

Definition convertMessageToAssistantModelMessage
    (content : string) (fileBlocks : list FileMessageBlock)
    (thinkingBlocks : list ThinkingMessageBlock) (toolBlocks : list ToolMessageBlock)
    (model : option Model) : M ModelMessage :=
  let parts := if JS.truthy_string content then [PText content] else [] in
  let parts := parts ++ Common.thinkingParts thinkingBlocks in
  let! parts := toolPartLoop toolBlocks parts in
  let parts := Common.assistantFileLoop E model fileBlocks parts in
  ret (mkModelMessage assistant (ContentParts parts)).

Definition convertMessageToSdkParam (message : Message) (isVisionModel : bool)
    (model : option Model) : M OneOrMany :=
  let content := getMainTextContent E message in
  let fileBlocks := findFileBlocks E message in
  let imageBlocks := findImageBlocks E message in
  let reasoningBlocks := findThinkingBlocks E message in
  let toolBlocks := findToolBlocks E message in
  match msg_role message with
  | user | system =>
      Common.convertMessageToUserModelMessage E content fileBlocks imageBlocks
        isVisionModel model
  | assistant =>
      let! m := convertMessageToAssistantModelMessage content fileBlocks
                  reasoningBlocks toolBlocks model in
      ret (One m)
  | tool =>
      let! m := convertMessageToToolModelMessage toolBlocks in
      ret (One m)
  end.

Definition convertMessagesToSdkMessages (messages : list Message) (model : Model)
  : M (list (option ModelMessage)) :=
  try_finally
    (Common.convertMessagesToSdkMessages_with E convertMessageToSdkParam messages model)
    clearToolCallIdCache.

End WithEnv.
End OnePart.

(** ** The replay revision ([unnamed/part_002]): the recorded tool
    responses of an assistant message become an assistant message of calls
    and a tool message of results, ahead of the assistant message itself *)

Module Replay.
Section WithEnv.
Context (E : Env).

(** [stringifyToolOutput]: [JSON.stringify] cannot throw on the values
    of [JS.value], so the [catch] branch is never taken. *)
Definition stringifyToolOutput (value : JS.value) : JS.value :=
  match value with
  | JS.Str s => JS.Str s
  | other =>
      match JS.JSON_stringify other with
      | Some s => JS.Str s
      | None => JS.Undefined
      end
  end.

(** [tr?.tool?.type !== 'provider'] *)
Definition notProvider (tr : MCPToolResponse) : bool :=
  match tr_tool tr with
  | Some t => negb (String.eqb (tool_type t) "provider")
  | None => true
  end.

(** [status === 'done' || status === 'error' || status === 'cancelled'] *)
Definition isTerminal (tr : MCPToolResponse) : bool :=
  String.eqb (tr_status tr) "done" || String.eqb (tr_status tr) "error"
  || String.eqb (tr_status tr) "cancelled".

Definition parseToolCallInput (value : JS.value) : JS.value :=
  match value with
  | JS.Str text =>
      match safeParseJSON E text with
      | Some parsed => parsed
      | None => value
      end
  | _ => value
  end.

(** [tr.toolCallId ?? tr.id] *)
Definition responseCallId (tr : MCPToolResponse) : option string :=
  match tr_toolCallId tr with
  | Some c => Some c
  | None => Some (tr_id tr)
  end.

(** [tr.tool?.name ?? tr.toolName] *)
Definition responseToolName (tr : MCPToolResponse) : option string :=
  match tr_tool tr with
  | Some t =>
      match tool_name t with
      | Some n => Some n
      | None => tr_toolName tr
      end
  | None => tr_toolName tr
  end.

Definition toolCallPartOf (tr : MCPToolResponse) : Part :=
  PToolCall (responseCallId tr) (responseToolName tr)
            (parseToolCallInput (tr_arguments tr)).

Definition toolResultPartOf (tr : MCPToolResponse) : Part :=
  PToolResult (responseCallId tr) (responseToolName tr)
    (TaggedOutput
       (if String.eqb (tr_status tr) "error" || String.eqb (tr_status tr) "cancelled"
        then tag_error_text else tag_text)
       (if String.eqb (tr_status tr) "cancelled" && JS.is_nullish (tr_response tr)
        then JS.Str "cancelled"
        else stringifyToolOutput (tr_response tr))).

Definition buildToolHistoryMessages (toolBlocks : list ToolMessageBlock)
  : list ModelMessage :=
  let toolResponses := omap rawMcpToolResponse toolBlocks in
  let replayable := List.filter notProvider toolResponses in
  match replayable with
  | [] => []
  | _ =>
      let toolCallParts := List.map toolCallPartOf replayable in
      let toolResultParts := List.map toolResultPartOf (List.filter isTerminal replayable) in
      let messages := [] in
      let messages :=
        match toolCallParts with
        | [] => messages
        | _ => messages ++ [mkModelMessage assistant (ContentParts toolCallParts)]
        end in
      let messages :=
        match toolResultParts with
        | [] => messages
        | _ => messages ++ [mkModelMessage tool (ContentParts toolResultParts)]
        end in
      messages
  end.

Definition convertMessageToAssistantModelMessage (message : Message)
    (content : string) (fileBlocks : list FileMessageBlock)
    (thinkingBlocks : list ThinkingMessageBlock) (model : option Model) : M OneOrMany :=
  let toolBlocks := findToolBlocks E message in
  let toolHistoryMessages := buildToolHistoryMessages toolBlocks in
  let parts := if JS.truthy_string content then [PText content] else [] in
  let parts := parts ++ Common.thinkingParts thinkingBlocks in
  let parts := Common.assistantFileLoop E model fileBlocks parts in
  let assistantMessage := mkModelMessage assistant (ContentParts parts) in
  let hasAssistantContent := match parts with [] => false | _ => true end in
  match toolHistoryMessages with
  | [] => ret (One assistantMessage)
  | _ =>
      if hasAssistantContent
      then ret (Many (toolHistoryMessages ++ [assistantMessage]))
      else ret (Many toolHistoryMessages)
  end.

Definition convertMessageToSdkParam (message : Message) (isVisionModel : bool)
    (model : option Model) : M OneOrMany :=
  let content := getMainTextContent E message in
  let fileBlocks := findFileBlocks E message in
  let imageBlocks := findImageBlocks E message in
  let reasoningBlocks := findThinkingBlocks E message in
  match msg_role message with
  | user | system =>
      Common.convertMessageToUserModelMessage E content fileBlocks imageBlocks
        isVisionModel model
  | _ =>
      convertMessageToAssistantModelMessage message content fileBlocks
        reasoningBlocks model
  end.

Definition convertMessagesToSdkMessages (messages : list Message) (model : Model)
  : M (list (option ModelMessage)) :=
  Common.convertMessagesToSdkMessages_with E convertMessageToSdkParam messages model.

End WithEnv.
End Replay.

(** ** Vocabulary of the properties *)

(** A block lacks a usable [toolId] when the field is absent or empty:
    [if (toolBlock.toolId)] tests truthiness. *)
Definition lacksToolId (toolBlock : ToolMessageBlock) : bool :=
  match toolId toolBlock with
  | Some t => negb (JS.truthy_string t)
  | None => true
  end.

(** Every entry of the cache of [w] is still there in [w']. *)
Definition cache_le (w w' : World) : Prop :=
  forall k v, toolCallIdCache w !! k = Some v -> toolCallIdCache w' !! k = Some v.

(** A computation that never drops or overwrites a cache entry. *)
Definition keeps_cache {A} (m : M A) : Prop :=
  forall w r w', m w = (r, w') -> cache_le w w'.

(** The warning written for a skipped block. *)
Definition skippedWarning (toolBlock : ToolMessageBlock) : LogEntry :=
  Warn ("Tool block " +:+ id toolBlock
          +:+ " has no content, skipping in tool role message").

(** The result part of a block, up to its derived id. *)
Definition resultPartOf (toolBlock : ToolMessageBlock) (p : Part) : Prop :=
  exists i, p = PToolResult (Some i)
                  (Some (or_default (toolName toolBlock) "unknown_tool"))
                  (BareOutput (OnePart.stringOrJSON (content toolBlock))).

(** The provider handle the native conversion of a file block answers
    with, if it answers with one. *)
Definition nativeHandle (E : Env) (m : Model) (fileBlock : FileMessageBlock)
  : option string :=
  match convertFileBlockToFilePart E fileBlock m with
  | Some filePart => Common.is_file_handle filePart
  | None => None
  end.

(** The parts a file block adds when it is not a handle: the native file
    part, else the extracted text, else nothing. *)
Definition filePartsOf (E : Env) (m : Model) (fileBlock : FileMessageBlock) : list Part :=
  match convertFileBlockToFilePart E fileBlock m with
  | Some filePart => [PFile filePart]
  | None =>
      match convertFileBlockToTextPart E fileBlock with
      | Some text => [PText text]
      | None => []
      end
  end.

Definition textPartOf (content : string) : list Part :=
  if JS.truthy_string content then [PText content] else [].

(** [parts.length > 0 ? parts : ''] *)
Definition partsOrEmptyString (parts : list Part) : Content :=
  match parts with
  | [] => ContentString EmptyString
  | _ => ContentParts parts
  end.

(** The image parts of the user path: materialized for a vision model,
    none otherwise. *)
Definition visionImageParts (E : Env) (isVision : bool)
    (imageBlocks : list ImageMessageBlock) : M (list Part) :=
  if isVision then Common.convertImageBlockToImagePart E imageBlocks else ret [].

(** [role] message of [parts], or no message when there are no parts. *)
Definition messageIfAny (r : Role) (parts : list Part) : list ModelMessage :=
  match parts with
  | [] => []
  | _ => [mkModelMessage r (ContentParts parts)]
  end.

(** The recorded responses of the tool blocks of a message that were not
    executed by the provider, in block order. *)
Definition clientResponses (toolBlocks : list ToolMessageBlock) : list MCPToolResponse :=
  List.filter Replay.notProvider (omap rawMcpToolResponse toolBlocks).

Definition providerExecuted (tr : MCPToolResponse) : Prop :=
  exists t, tr_tool tr = Some t /\ tool_type t = "provider".

Definition terminalStatus (tr : MCPToolResponse) : Prop :=
  tr_status tr = "done" \/ tr_status tr = "error" \/ tr_status tr = "cancelled".

(** [kept] holds the elements of [l] that satisfy [P], each one, in the
    order of [l], and nothing else. *)
Inductive keptBy {A : Type} (P : A -> Prop) : list A -> list A -> Prop :=
| keptBy_nil : keptBy P [] []
| keptBy_keep x l kept : P x -> keptBy P l kept -> keptBy P (x :: l) (x :: kept)
| keptBy_drop x l kept : ~ P x -> keptBy P l kept -> keptBy P (x :: l) kept.

(** [p] is the tool-call part of the response [tr]. *)
Definition callPartOf (tr : MCPToolResponse) (p : Part) : Prop :=
  exists input,
    p = PToolCall (Replay.responseCallId tr) (Replay.responseToolName tr) input.

(** [p] is the tool-result part of the response [tr]: tagged as an error
    text for the statuses [error] and [cancelled] and as text otherwise,
    and of value [cancelled] for a cancelled response that recorded
    nothing. *)
Definition replayResultPartOf (tr : MCPToolResponse) (p : Part) : Prop :=
  exists tag value,
    p = PToolResult (Replay.responseCallId tr) (Replay.responseToolName tr)
          (TaggedOutput tag value)
    /\ (tr_status tr = "error" \/ tr_status tr = "cancelled" -> tag = tag_error_text)
    /\ (tr_status tr <> "error" -> tr_status tr <> "cancelled" -> tag = tag_text)
    /\ (tr_status tr = "cancelled" -> JS.is_nullish (tr_response tr) = true ->
        value = JS.Str "cancelled")
    /\ (tr_status tr <> "cancelled" \/ JS.is_nullish (tr_response tr) = false ->
        value = Replay.stringifyToolOutput (tr_response tr)).

(** An image block the materializer handles without an exception: it has
    a file, or its URL is not a data URL, or the data URL carries a base64
    payload. *)
Definition materializable (imageBlock : ImageMessageBlock) : Prop :=
  img_file imageBlock = None ->
  forall url, img_url imageBlock = Some url ->
              JS.startsWith url "data:" = true ->
              match_base64 url <> None.

(** The first system message of the compiled messages, as a list. *)
Definition firstSystem (sdkMessages : list ModelMessage) : list (option ModelMessage) :=
  match List.filter (fun m => Role_eqb (role m) system) sdkMessages with
  | sys :: _ => [Some sys]
  | [] => []
  end.

(** ** Concrete collaborators and blocks, for running the converter *)

Module Fixtures.

(** What the block store holds for one message. *)
Record Stored : Type := mkStored {
  st_text : string;
  st_files : list FileMessageBlock;
  st_images : list ImageMessageBlock;
  st_thinking : list ThinkingMessageBlock;
  st_tools : list ToolMessageBlock
}.

Definition emptyStored : Stored := mkStored EmptyString [] [] [] [].

(** An environment over a block store indexed by message id.  The native
    file conversion uploads [report.pdf] and answers with a provider
    handle, inlines [scan.pdf], and declines every other file; text
    extraction succeeds on [notes.txt] only; one image file is readable. *)
Definition env (store : string -> Stored) : Env :=
  mkEnv
    (fun m => st_text (store (msg_id m)))
    (fun m => st_files (store (msg_id m)))
    (fun m => st_images (store (msg_id m)))
    (Throw (TypeError "Cannot read properties of undefined (reading 'blocks')"))
    (fun m => st_thinking (store (msg_id m)))
    (fun m => st_tools (store (msg_id m)))
    (fun m => String.eqb (model_id m) "gpt-4o" || String.eqb (model_id m) "image-edit")
    (fun m => String.eqb (model_id m) "image-edit")
    (fun fb _ =>
       if String.eqb (origin_name (fb_file fb)) "report.pdf"
       then Some (mkFilePart (DataString "fileid://file-42") "application/pdf" None)
       else if String.eqb (origin_name (fb_file fb)) "scan.pdf"
       then Some (mkFilePart (DataString "JVBERi0xLjQ=") "application/pdf" (Some "scan.pdf"))
       else None)
    (fun fb =>
       if String.eqb (origin_name (fb_file fb)) "notes.txt"
       then Some "extracted notes" else None)
    (fun p =>
       if String.eqb p "/images/cat.png" then Some ("iVBORw0KGgo=", "image/png") else None)
    (fun text => if String.eqb text "{}" then Some (JS.Obj []) else None)
    (fun n => (1700000000000 + N.of_nat n)%N)
    (fun n => if Nat.even n then "0.4fzyo82mvyr" else "0.9k2j5h7d1qx").

Definition world0 : World := mkWorld ∅ 0 [].

Definition gpt4o : Model := mkModel "gpt-4o" "openai".
Definition imageEdit : Model := mkModel "image-edit" "openai".
Definition textOnly : Model := mkModel "text-only" "openai".

(** The block of [createMockToolBlock] in the tests, with its overrides. *)
Definition mockToolBlock (toolId : option string)
    (arguments : option (list (string * JS.value))) (content : JS.value)
  : ToolMessageBlock :=
  mkToolBlock "tool-1" toolId (Some "test_tool") arguments content None.

Definition msg1 : Message := mkMessage "msg-1" assistant ["tool-1"].

(** A store whose only message is [msg-1], holding the given tool blocks. *)
Definition toolStore (blocks : list ToolMessageBlock) : string -> Stored :=
  fun _ => mkStored EmptyString [] [] [] blocks.

Definition objectContent : JS.value :=
  JS.Obj [("data", JS.Str "value"); ("number", JS.Num (JS.mkSafeInteger 42 eq_refl))].

(** The text [{"data":"value","number":42}], written without quote
    characters in the source. *)
Definition objectContentText : string :=
  let q := String JS.dquote EmptyString in
  "{" +:+ q +:+ "data" +:+ q +:+ ":" +:+ q +:+ "value" +:+ q +:+ ","
      +:+ q +:+ "number" +:+ q +:+ ":42}".

Definition badDataUrl : ImageMessageBlock :=
  mkImageBlock None (Some "data:image/png,AAAA").
Definition goodDataUrl : ImageMessageBlock :=
  mkImageBlock None (Some "data:image/jpeg;base64,AAAA").
Definition noMimeDataUrl : ImageMessageBlock :=
  mkImageBlock None (Some "data:;base64,AAAA").
Definition remoteUrl : ImageMessageBlock :=
  mkImageBlock None (Some "https://example.com/cat.png").
Definition localImage : ImageMessageBlock :=
  mkImageBlock (Some (mkFile "/images/cat.png" "cat.png")) None.
Definition missingImage : ImageMessageBlock :=
  mkImageBlock (Some (mkFile "/images/gone.png" "gone.png")) None.

Definition reportPdf : FileMessageBlock := mkFileBlock (mkFile "/docs/report.pdf" "report.pdf").
Definition notesTxt : FileMessageBlock := mkFileBlock (mkFile "/docs/notes.txt" "notes.txt").

(** A block store with a short conversation: a request, an assistant
    answer with two images, and several possible follow-ups. *)
Definition conversation (messageId : string) : Stored :=
  if String.eqb messageId "msg-a" then mkStored "draw a cat" [] [] [] []
  else if String.eqb messageId "msg-b"
  then mkStored EmptyString [] [goodDataUrl; remoteUrl] [] []
  else if String.eqb messageId "msg-c"
  then mkStored "make it blue" [notesTxt; reportPdf] [] [] []
  else if String.eqb messageId "msg-d" then mkStored "what is this?" [] [badDataUrl] [] []
  else if String.eqb messageId "msg-e" then mkStored "make it blue" [] [] [] []
  else if String.eqb messageId "msg-f" then mkStored EmptyString [reportPdf] [] [] []
  else emptyStored.

Definition msgA : Message := mkMessage "msg-a" user [].
Definition msgB : Message := mkMessage "msg-b" assistant [].
Definition msgC : Message := mkMessage "msg-c" user [].
Definition msgD : Message := mkMessage "msg-d" user [].
Definition msgE : Message := mkMessage "msg-e" user [].
Definition msgF : Message := mkMessage "msg-f" user [].

(** The conversation with one more follow-up: a user message with a
    text, an image given as a data URL without base64 payload, and the
    file [report.pdf], which the native conversion answers with a
    handle. *)
Definition conversationWithUpload (messageId : string) : Stored :=
  if String.eqb messageId "msg-g"
  then mkStored "describe these" [reportPdf] [badDataUrl] [] []
  else conversation messageId.

Definition msgG : Message := mkMessage "msg-g" user [].

(** Tool blocks with recorded responses: a finished client tool, a
    provider tool, a cancelled call that recorded nothing, a pending call,
    and a block without a recorded response. *)
Definition replayBlocks : list ToolMessageBlock :=
  [ mkToolBlock "b1" None None None JS.Undefined
      (Some (mkResponse "call_1" None (Some (mkTool "mcp" (Some "search"))) None
               (JS.Str "{}") "done" (JS.Str "found")));
    mkToolBlock "b2" None None None JS.Undefined
      (Some (mkResponse "call_2" None (Some (mkTool "provider" (Some "web_search"))) None
               (JS.Str "{}") "done" (JS.Str "hidden")));
    mkToolBlock "b3" None None None JS.Undefined
      (Some (mkResponse "call_3" (Some "tc_3") None (Some "fetch")
               (JS.Obj [("url", JS.Str "x")]) "cancelled" JS.Null));
    mkToolBlock "b4" None None None JS.Undefined
      (Some (mkResponse "call_4" None (Some (mkTool "mcp" (Some "search"))) None
               (JS.Str "not json") "pending" JS.Undefined));
    mkToolBlock "b5" None None None JS.Undefined None ].

End Fixtures.

(** ** Vocabulary of the further properties *)

(** The parts of a content in part-list form; none for a string. *)
Definition partsOf (c : Content) : list Part :=
  match c with
  | ContentParts parts => parts
  | ContentString _ => []
  end.

(** The text part text extraction gives for a file block, if any. *)
Definition textFallbackOf (E : Env) (fileBlock : FileMessageBlock) : list Part :=
  match convertFileBlockToTextPart E fileBlock with
  | Some text => [PText text]
  | None => []
  end.

(** The parts a file block adds on the assistant path, and on the user
    path when it is not a handle: native first when a model is given. *)
Definition filePartsWith (E : Env) (model : option Model) (fileBlock : FileMessageBlock)
  : list Part :=
  match model with
  | Some m => filePartsOf E m fileBlock
  | None => textFallbackOf E fileBlock
  end.

(** The diagnostic the user path writes for a file block that is not a
    handle. *)
Definition userFileLog (E : Env) (model : option Model) (fileBlock : FileMessageBlock)
  : LogEntry :=
  match match model with
        | Some m => convertFileBlockToFilePart E fileBlock m
        | None => None
        end with
  | Some _ =>
      Debug ("File " +:+ origin_name (fb_file fileBlock)
               +:+ " processed as native file format")
  | None =>
      match convertFileBlockToTextPart E fileBlock with
      | Some _ =>
          Debug ("File " +:+ origin_name (fb_file fileBlock)
                   +:+ " processed as text content")
      | None =>
          Warn ("File " +:+ origin_name (fb_file fileBlock)
                  +:+ " could not be processed in any format")
      end
  end.

(** No file block is answered with a handle: always so without a model. *)
Definition noHandle (E : Env) (model : option Model) (fileBlocks : list FileMessageBlock)
  : Prop :=
  match model with
  | Some m => Forall (fun b => nativeHandle E m b = None) fileBlocks
  | None => True
  end.

(** A system message that carries a provider file handle. *)
Definition handleMessage (m : ModelMessage) : Prop :=
  role m = system
  /\ exists handle, mcontent m = ContentString handle
                    /\ JS.startsWith handle "fileid://" = true.

(** The image part of one image block, when the materializer does not
    raise on it. *)
Definition imagePartsOf (E : Env) (imageBlock : ImageMessageBlock) : list Part :=
  match img_file imageBlock with
  | Some file =>
      match File_load E (path file) with
      | Some (base64, type) => [PImage base64 (Some type)]
      | None => []
      end
  | None =>
      match img_url imageBlock with
      | Some url =>
          if JS.truthy_string url then
            if JS.startsWith url "data:" then
              match match_base64 url with
              | Some base64 =>
                  [PImage base64 (Some (match match_mime url with
                                        | Some m => m
                                        | None => "image/png"
                                        end))]
              | None => []
              end
            else [PImage url None]
          else []
      | None => []
      end
  end.

(** The warning for an image file that cannot be read. *)
Definition imageWarningsOf (E : Env) (imageBlock : ImageMessageBlock) : list LogEntry :=
  match img_file imageBlock with
  | Some file =>
      match File_load E (path file) with
      | Some _ => []
      | None => [Warn "Failed to load image:"]
      end
  | None => []
  end.

(** The parts [messageConverter.ts] adds for one tool block. *)
Definition inlinePartsOf (toolBlock : ToolMessageBlock) : list Part :=
  Inline.convertToolBlockToToolCallPart toolBlock
    :: (if Inline.hasToolResult toolBlock
        then [Inline.convertToolBlockToToolResultPart toolBlock]
        else []).

(** Every tool-result part comes right after a tool-call part with the
    same id and name; [prev] is the part before the list. *)
Fixpoint resultsFollowCalls (prev : option Part) (parts : list Part) : Prop :=
  match parts with
  | [] => True
  | p :: rest =>
      match p with
      | PToolResult i n _ => exists input, prev = Some (PToolCall i n input)
      | _ => True
      end
      /\ resultsFollowCalls (Some p) rest
  end.

(** A tool part carries a tool name that is a non-empty string. *)
Definition namedToolPart (p : Part) : Prop :=
  match p with
  | PToolCall _ n _ | PToolResult _ n _ => exists s, n = Some s /\ s <> EmptyString
  | _ => True
  end.

Definition is_tool_part (p : Part) : bool := is_tool_call p || is_tool_result p.

(** The [toolCallId] of a tool part. *)
Definition partCallId (p : Part) : option string :=
  match p with
  | PToolCall i _ _ | PToolResult i _ _ => i
  | _ => None
  end.

(** The id [generateToolCallId] builds at the n-th generation. *)
Definition newToolCallId (E : Env) (n : nat) : string :=
  "tool_" +:+ NilZero.string_of_uint (N.to_uint (Date_now E n)) +:+ "_"
    +:+ JS.substring 2 11 (Math_random_base36 E n).

(** The cache holds generated ids only, each under one key: every key
    of the cache has the number of the generation that built its id, below
    the count of generations, and no two keys have the same number. *)
Definition cacheInv (E : Env) (w : World) : Prop :=
  exists generation : string -> nat,
    (forall k v, toolCallIdCache w !! k = Some v ->
                 generation k < generated w /\ v = newToolCallId E (generation k))
    /\ (forall k1 k2 v1 v2,
          toolCallIdCache w !! k1 = Some v1 ->
          toolCallIdCache w !! k2 = Some v2 ->
          generation k1 = generation k2 -> k1 = k2).

(** The ids built so far are pairwise different. *)
Definition noRepeatBelow (E : Env) (bound : nat) : Prop :=
  forall n m, n < bound -> m < bound -> n <> m ->
              newToolCallId E n <> newToolCallId E m.

(** A computation that keeps [cacheInv]. *)
Definition keeps_inv (E : Env) {A} (m : M A) : Prop :=
  forall w r w', cacheInv E w -> m w = (r, w') -> cacheInv E w'.

(** The conversation compiler leaves the compiled messages as they are:
    the model is no image-enhancement model, or there are fewer than three
    messages. *)
Definition noOverride (E : Env) (model : Model) (messages : list Message) : Prop :=
  isImageEnhancementModel E model = false \/ length messages < 3.

(** The world after more diagnostics were written. *)
Definition withLogs (w : World) (entries : list LogEntry) : World :=
  mkWorld (toolCallIdCache w) (generated w) (logs w ++ entries).

(** A part the file loops add: a file part or an extracted text. *)
Definition fileOrText (p : Part) : Prop :=
  match p with
  | PFile _ | PText _ => True
  | _ => False
  end.

(** What the user path returns for the parts it collected: one user
    message, or a handle message and the user message. *)
Definition userPathResult (parts : list Part) (r : OneOrMany) : Prop :=
  r = One (mkModelMessage user (ContentParts parts))
  \/ exists handle,
      JS.startsWith handle "fileid://" = true
      /\ r = Many [ mkModelMessage system (ContentString handle);
                    mkModelMessage user (partsOrEmptyString parts) ].

(** No [;] occurs in the string. *)
Fixpoint no_semicolon (s : string) : bool :=
  match s with
  | EmptyString => true
  | String c rest => negb (Ascii.eqb c ";") && no_semicolon rest
  end.

(** The data URL of a base64 payload with a mime segment. *)
Definition dataUrl (mime payload : string) : string :=
  "data:" +:+ mime +:+ ";base64," +:+ payload.

(** The one-part revision gives a part for the block: it has a content
    or non-empty arguments. *)
Definition emitsPart (toolBlock : ToolMessageBlock) : bool :=
  negb (JS.is_nullish (content toolBlock)) || OnePart.hasArguments toolBlock.

(** [p] is the part of the one-part revision for a block that has one,
    up to its derived id: the result when there is a content, the call
    with the arguments as input otherwise. *)
Definition onePartOf (toolBlock : ToolMessageBlock) (p : Part) : Prop :=
  exists i,
    p = if negb (JS.is_nullish (content toolBlock))
        then PToolResult (Some i)
               (Some (or_default (toolName toolBlock) "unknown_tool"))
               (BareOutput (OnePart.stringOrJSON (content toolBlock)))
        else PToolCall (Some i)
               (Some (or_default (toolName toolBlock) "unknown_tool"))
               (match arguments toolBlock with
                | Some fields => JS.Obj fields
                | None => JS.Undefined
                end).

(** ** [services/ApiService.ts]: topic names, provider checks, tools of
    an assistant *)

Module Api.

(** A JavaScript string as its UTF-16 code units: the topic names hold
    Chinese text and full-width punctuation, and [length], [trim] and the
    regular expressions all count code units. *)
Definition ustring : Type := list N.

(** The characters [trim] removes and [\s] matches: the white space and
    line terminator code points of ECMAScript. *)
Definition isWhiteSpace (c : N) : bool :=
  ((9 <=? c) && (c <=? 13) || (c =? 32) || (c =? 160) || (c =? 5760)
   || (8192 <=? c) && (c <=? 8202) || (c =? 8232) || (c =? 8233) || (c =? 8239)
   || (c =? 8287) || (c =? 12288) || (c =? 65279))%N.

(** The character class of the first [replace] of [validateTopicName]:
    ASCII and full-width punctuation, quotes, brackets and symbols. *)
Definition strippedChars : list N :=
  [ 46; 44; 65292; 65306; 58; 34; 39; 12304; 12305; 91; 93; 123; 125; 40; 41;
    65288; 65289; 60; 62; 126; 33; 64; 35; 36; 37; 94; 38; 42; 43; 61; 124; 45 ]%N.

Definition isStripped (c : N) : bool := List.existsb (N.eqb c) strippedChars.

Fixpoint trimStart (s : ustring) : ustring :=
  match s with
  | [] => []
  | c :: rest => if isWhiteSpace c then trimStart rest else s
  end.

(** [s.trim()] *)
Definition trim (s : ustring) : ustring :=
  List.rev (trimStart (List.rev (trimStart s))).

(** [s.replace(/\s+/g, ' ')]: [inRun] tells that the character before was
    white space, so that a run gives one space. *)
Fixpoint collapseFrom (inRun : bool) (s : ustring) : ustring :=
  match s with
  | [] => []
  | c :: rest =>
      if isWhiteSpace c
      then if inRun then collapseFrom true rest else 32%N :: collapseFrom true rest
      else c :: collapseFrom false rest
  end.

(** [/[\u4e00-\u9fa5]/.test(s)] *)
Definition isChinese (s : ustring) : bool :=
  List.existsb (fun c => (19968 <=? c) && (c <=? 40869))%N s.

(** [validateTopicName]: [None] is [null]; a [null] or [undefined] name
    is [None].  The second parameter is not read. *)
Definition validateTopicName (name : option ustring) (currentName : ustring)
  : option ustring :=
  match name with
  | None | Some [] => None
  | Some name =>
      let trimmed := trim name in
      if (length trimmed =? 0)%nat then None
      else
        let cleaned :=
          collapseFrom false (List.filter (fun c => negb (isStripped c)) trimmed) in
        let maxLength := if isChinese cleaned then 20 else 30 in
        if (maxLength <? length cleaned)%nat then None else Some cleaned
  end.

(** A call that returns a value or throws an [Error] with a message. *)
Inductive completion (A : Type) : Type :=
| Returns (a : A)
| Throws (message : string).
Arguments Returns {A} a.
Arguments Throws {A} message.

Record MCPServer : Type := mkServer { server_id : string; server_name : string }.

(** [mcpService]: the active servers, and the tools of a server; either
    call can fail. *)
Record McpService : Type := mkMcpService {
  getActiveMcpServers : completion (list MCPServer);
  getMcpTools : string -> completion (list MCPTool)
}.

(** [assistantMcpServers.some(s => s.id === server.id)] *)
Definition assignedTo (assistantMcpServers : list MCPServer) (server : MCPServer) : bool :=
  List.existsb (fun s => String.eqb (server_id s) (server_id server)) assistantMcpServers.

(** The tools one enabled server contributes: its tools, or none when
    fetching them fails. *)
Definition toolsOrNone (service : McpService) (server : MCPServer) : list MCPTool :=
  match getMcpTools service (server_id server) with
  | Returns tools => tools
  | Throws _ => []
  end.

(** [fetchAssistantMcpTools]: the tools, and the errors logged for the
    servers whose tools could not be fetched (listed in server order).
    Every promise handed to [Promise.allSettled] catches its own error, so
    all of them are fulfilled and the outer [catch] is never entered. *)
Definition fetchAssistantMcpTools (service : McpService)
    (mcpServers : option (list MCPServer)) : completion (list MCPTool) * list string :=
  match getActiveMcpServers service with
  | Throws message => (Throws message, [])
  | Returns activedMcpServers =>
      let assistantMcpServers :=
        match mcpServers with Some servers => servers | None => [] end in
      let enabledMCPs := List.filter (assignedTo assistantMcpServers) activedMcpServers in
      match enabledMCPs with
      | [] => (Returns [], [])
      | _ =>
          (Returns (List.concat (List.map (toolsOrNone service) enabledMCPs)),
           flat_map (fun server =>
                       match getMcpTools service (server_id server) with
                       | Returns _ => []
                       | Throws _ =>
                           ["Error fetching tools from MCP server "
                              +:+ server_name server +:+ ":"]
                       end) enabledMCPs)
      end
  end.

End Api.

(** A string without two spaces in a row. *)
Fixpoint noAdjacentSpaces (s : Api.ustring) : Prop :=
  match s with
  | a :: (b :: _) as rest => ~ (a = 32%N /\ b = 32%N) /\ noAdjacentSpaces rest
  | _ => True
  end.

(** An MCP service with three active servers: the first returns two
    tools, the fetch of the second fails, the third returns one tool. *)
Module ApiFixtures.

Definition filesServer : Api.MCPServer := Api.mkServer "srv-files" "files".
Definition searchServer : Api.MCPServer := Api.mkServer "srv-search" "search".
Definition mapsServer : Api.MCPServer := Api.mkServer "srv-maps" "maps".

Definition readFile : MCPTool := mkTool "mcp" (Some "read_file").
Definition writeFile : MCPTool := mkTool "mcp" (Some "write_file").
Definition route : MCPTool := mkTool "mcp" (Some "route").

Definition service : Api.McpService :=
  Api.mkMcpService
    (Api.Returns [filesServer; searchServer; mapsServer])
    (fun id =>
       if String.eqb id "srv-files" then Api.Returns [readFile; writeFile]
       else if String.eqb id "srv-maps" then Api.Returns [route]
       else Api.Throws "connection refused").

End ApiFixtures.

(** * Properties *)

(** ** The monad *)

Lemma bind_run {A B} (m : M A) (k : A -> M B) (w : World) :
  bind m k w = match m w with
               | (Ok a, w') => k a w'
               | (Throw e, w') => (Throw e, w')
               end.
Proof. reflexivity. Qed.

Lemma bind_ok {A B} (m : M A) (k : A -> M B) (w w' : World) (a : A) :
  m w = (Ok a, w') -> bind m k w = k a w'.
Proof. intros H. unfold bind. now rewrite H. Qed.

Lemma bind_throw {A B} (m : M A) (k : A -> M B) (w w' : World) (e : Exn) :
  m w = (Throw e, w') -> bind m k w = (Throw e, w').
Proof. intros H. unfold bind. now rewrite H. Qed.

(** ** JSON.stringify *)

Lemma stringify_defined (v : JS.value) :
  v <> JS.Undefined -> exists s, JS.JSON_stringify v = Some s.
Proof. destruct v; intros H; try congruence; simpl; eauto. Qed.

Example stringify_object :
  JS.JSON_stringify Fixtures.objectContent = Some Fixtures.objectContentText.
Proof. reflexivity. Qed.

Example stringify_nested :
  JS.JSON_stringify
    (JS.Obj [("a", JS.Arr [JS.Num (JS.mkSafeInteger (-1) eq_refl); JS.Undefined; JS.Bool true]);
             ("skipped", JS.Undefined); ("n", JS.Null)])
  = Some ("{" +:+ JS.QuoteJSONString "a" +:+ ":[-1,null,true],"
              +:+ JS.QuoteJSONString "n" +:+ ":null}").
Proof. reflexivity. Qed.

(** ** The image materializer *)

Example match_base64_examples :
  match_base64 "data:image/jpeg;base64,AAAA" = Some "AAAA"
  /\ match_base64 "data:;base64,AAAA" = Some "AAAA"
  /\ match_base64 "data:image/png,AAAA" = None
  /\ match_base64 "data:image/png;base64," = None
  /\ match_base64 "data:image/png;charset=utf-8;base64,AAAA" = None
  /\ match_mime "data:image/jpeg;base64,AAAA" = Some "image/jpeg"
  /\ match_mime "data:;base64,AAAA" = None.
Proof. repeat split; reflexivity. Qed.

Section ImageMaterializer.
Context (E : Env).

(** A block handled without an exception adds nothing or one image part. *)
Lemma convertImageBlock_at_most_one imageBlock parts w parts' w' :
  Common.convertImageBlock E imageBlock parts w = (Ok parts', w') ->
  parts' = parts \/ exists image mediaType, parts' = parts ++ [PImage image mediaType].
Proof.
  unfold Common.convertImageBlock.
  destruct (img_file imageBlock) as [file|].
  - destruct (File_load E (path file)) as [[base64 type]|]; cbn; intros H;
      inversion H; subst; eauto.
  - destruct (img_url imageBlock) as [url|]; cbn; [|intros H; inversion H; auto].
    destruct (JS.truthy_string url); [|intros H; inversion H; auto].
    destruct (JS.startsWith url "data:").
    + destruct (match_base64 url); cbn; intros H; inversion H; subst; eauto.
    + cbn; intros H; inversion H; subst; eauto.
Qed.

(** A local file that cannot be read: the block is dropped and a warning
    is written. *)
Lemma convertImageBlock_unreadable imageBlock file parts w :
  img_file imageBlock = Some file ->
  File_load E (path file) = None ->
  Common.convertImageBlock E imageBlock parts w
  = (Ok parts, mkWorld (toolCallIdCache w) (generated w)
                 (logs w ++ [Warn "Failed to load image:"])).
Proof.
  intros Hf Hl. unfold Common.convertImageBlock. now rewrite Hf, Hl.
Qed.

(** A data URL the first pattern matches: the payload after [;base64,]
    with the mime segment, or [image/png] when there is none. *)
Lemma convertImageBlock_data_url imageBlock url payload parts w :
  img_file imageBlock = None ->
  img_url imageBlock = Some url ->
  JS.startsWith url "data:" = true ->
  match_base64 url = Some payload ->
  Common.convertImageBlock E imageBlock parts w
  = (Ok (parts ++ [PImage payload
                     (Some (match match_mime url with
                            | Some m => m
                            | None => "image/png"
                            end))]), w).
Proof.
  intros Hf Hu Hd Hm. unfold Common.convertImageBlock. rewrite Hf, Hu, Hd, Hm.
  destruct url; [discriminate | reflexivity].
Qed.

(** Any other non-empty URL is the image payload as it is. *)
Lemma convertImageBlock_remote_url imageBlock url parts w :
  img_file imageBlock = None ->
  img_url imageBlock = Some url ->
  JS.truthy_string url = true ->
  JS.startsWith url "data:" = false ->
  Common.convertImageBlock E imageBlock parts w = (Ok (parts ++ [PImage url None]), w).
Proof.
  intros Hf Hu Ht Hd. unfold Common.convertImageBlock. now rewrite Hf, Hu, Ht, Hd.
Qed.

(** A data URL the first pattern does not match raises. *)
Lemma convertImageBlock_unmatched_data_url imageBlock url parts w :
  img_file imageBlock = None ->
  img_url imageBlock = Some url ->
  JS.startsWith url "data:" = true ->
  match_base64 url = None ->
  exists e, Common.convertImageBlock E imageBlock parts w = (Throw e, w).
Proof.
  intros Hf Hu Hd Hm. unfold Common.convertImageBlock. rewrite Hf, Hu, Hd, Hm.
  destruct url; [discriminate | eexists; reflexivity].
Qed.

(** A block is handled the same way whatever was collected before it. *)
Lemma convertImageBlock_frame imageBlock parts w :
  Common.convertImageBlock E imageBlock parts w
  = match Common.convertImageBlock E imageBlock [] w with
    | (Ok added, w') => (Ok (parts ++ added), w')
    | (Throw e, w') => (Throw e, w')
    end.
Proof.
  unfold Common.convertImageBlock.
  repeat (match goal with
          | |- context [match ?x with _ => _ end] => destruct x
          end; cbn);
    rewrite ?app_nil_r; reflexivity.
Qed.

(** The loop appends to the parts it is given. *)
Lemma convertImageBlockToImagePart_from_app imageBlocks : forall parts w,
  Common.convertImageBlockToImagePart_from E imageBlocks parts w
  = match Common.convertImageBlockToImagePart E imageBlocks w with
    | (Ok imageParts, w') => (Ok (parts ++ imageParts), w')
    | (Throw e, w') => (Throw e, w')
    end.
Proof.
  unfold Common.convertImageBlockToImagePart.
  induction imageBlocks as [|b rest IH]; intros parts w; cbn.
  - now rewrite app_nil_r.
  - rewrite !bind_run, (convertImageBlock_frame b parts).
    destruct (Common.convertImageBlock E b [] w) as [[added|e] w0]; [|reflexivity].
    rewrite (IH (parts ++ added)), (IH ([] ++ added)).
    destruct (Common.convertImageBlockToImagePart_from E rest [] w0) as [[r|e] w2];
      [now rewrite app_assoc | reflexivity].
Qed.

(** Without an exception, the materializer returns image parts only, at
    most one per block. *)
Lemma convertImageBlockToImagePart_images imageBlocks : forall w imageParts w',
  Common.convertImageBlockToImagePart E imageBlocks w = (Ok imageParts, w') ->
  Forall (fun p => is_image_part p = true) imageParts
  /\ length imageParts <= length imageBlocks.
Proof.
  unfold Common.convertImageBlockToImagePart.
  induction imageBlocks as [|b rest IH]; intros w imageParts w'; cbn.
  - intros H; inversion H; subst. split; [constructor | cbn; lia].
  - rewrite bind_run.
    destruct (Common.convertImageBlock E b [] w) as [[ps|e] w1] eqn:Hb; [|discriminate].
    rewrite convertImageBlockToImagePart_from_app.
    destruct (Common.convertImageBlockToImagePart E rest w1) as [[r|e] w2] eqn:Hr;
      [|discriminate].
    intros H; inversion H; subst.
    destruct (IH _ _ _ Hr) as [Hall Hlen].
    destruct (convertImageBlock_at_most_one _ _ _ _ _ Hb) as [->|(image & mt & ->)].
    + split; [exact Hall | cbn; lia].
    + split; [constructor; [reflexivity | exact Hall] | cbn; lia].
Qed.

(** What the materializer returns does not depend on the world it runs
    in; only the diagnostics are added to it. *)
Lemma convertImageBlock_world imageBlock parts w w0 :
  fst (Common.convertImageBlock E imageBlock parts w)
  = fst (Common.convertImageBlock E imageBlock parts w0).
Proof.
  unfold Common.convertImageBlock.
  repeat (match goal with
          | |- context [match ?x with _ => _ end] => destruct x
          end; cbn);
    reflexivity.
Qed.

Lemma convertImageBlockToImagePart_from_world imageBlocks : forall parts w w0,
  fst (Common.convertImageBlockToImagePart_from E imageBlocks parts w)
  = fst (Common.convertImageBlockToImagePart_from E imageBlocks parts w0).
Proof.
  induction imageBlocks as [|b rest IH]; intros parts w w0; cbn; [reflexivity|].
  rewrite !bind_run.
  pose proof (convertImageBlock_world b parts w w0) as Hb.
  destruct (Common.convertImageBlock E b parts w) as [[ps|e] w1];
    destruct (Common.convertImageBlock E b parts w0) as [[ps0|e0] w2];
    cbn in Hb; inversion Hb; subst; [apply IH | reflexivity].
Qed.

Lemma convertImageBlockToImagePart_world imageBlocks w w0 imageParts :
  fst (Common.convertImageBlockToImagePart E imageBlocks w0) = Ok imageParts ->
  exists w', Common.convertImageBlockToImagePart E imageBlocks w = (Ok imageParts, w').
Proof.
  unfold Common.convertImageBlockToImagePart.
  rewrite (convertImageBlockToImagePart_from_world imageBlocks [] w0 w).
  destruct (Common.convertImageBlockToImagePart_from E imageBlocks [] w) as [r w'].
  cbn. intros ->. eauto.
Qed.

(** The materializer returns when every block is materializable. *)
Lemma convertImageBlockToImagePart_returns imageBlocks : forall parts w,
  Forall materializable imageBlocks ->
  exists imageParts w',
    Common.convertImageBlockToImagePart_from E imageBlocks parts w = (Ok imageParts, w').
Proof.
  induction imageBlocks as [|b rest IH]; intros parts w Hall; cbn; [eauto|].
  inversion Hall as [|? ? Hb Hrest]; subst. rewrite bind_run.
  destruct (Common.convertImageBlock E b parts w) as [[ps|e] w1] eqn:Hrun;
    [apply IH, Hrest|].
  exfalso. revert Hrun. unfold Common.convertImageBlock, materializable in *.
  destruct (img_file b) as [file|].
  - destruct (File_load E (path file)) as [[base64 type]|]; cbn; discriminate.
  - destruct (img_url b) as [url|]; [|discriminate].
    destruct (JS.truthy_string url); [|discriminate].
    destruct (JS.startsWith url "data:") eqn:Hd; [|discriminate].
    specialize (Hb eq_refl url eq_refl Hd).
    destruct (match_base64 url); [discriminate | congruence].
Qed.

End ImageMaterializer.

(** ** The tool-call id cache of the one-part revision *)

Lemma cache_le_refl w : cache_le w w.
Proof. intros k v H; exact H. Qed.

Lemma cache_le_trans w1 w2 w3 : cache_le w1 w2 -> cache_le w2 w3 -> cache_le w1 w3.
Proof. intros H12 H23 k v H. apply H23, H12, H. Qed.

Lemma keeps_ret {A} (a : A) : keeps_cache (ret a).
Proof. intros w r w' H. inversion H; subst. apply cache_le_refl. Qed.

Lemma keeps_throw {A} (e : Exn) : keeps_cache (@throw A e).
Proof. intros w r w' H. inversion H; subst. apply cache_le_refl. Qed.

Lemma keeps_log (e : LogEntry) : keeps_cache (log e).
Proof. intros w r w' H. inversion H; subst. intros k v Hk. exact Hk. Qed.

Lemma keeps_bind {A B} (m : M A) (k : A -> M B) :
  keeps_cache m -> (forall a, keeps_cache (k a)) -> keeps_cache (bind m k).
Proof.
  intros Hm Hk w r w'. rewrite bind_run.
  destruct (m w) as [[a|e] w1] eqn:Hmw; intros H.
  - eapply cache_le_trans; [eapply Hm, Hmw | eapply Hk, H].
  - inversion H; subst. eapply Hm, Hmw.
Qed.

Create HintDb keeps.
#[local] Hint Resolve keeps_ret keeps_throw keeps_log : keeps.
#[local] Hint Extern 2 (keeps_cache (bind _ _)) => (apply keeps_bind; [|intros ?]) : keeps.
#[local] Hint Extern 3 (keeps_cache (match ?x with _ => _ end)) => (destruct x) : keeps.
#[local] Hint Extern 3 (keeps_cache (if ?x then _ else _)) => (destruct x) : keeps.

Section IdCache.
Context (E : Env).

Lemma getToolCallId_passthrough toolBlock t w :
  toolId toolBlock = Some t -> JS.truthy_string t = true ->
  OnePart.getToolCallId E toolBlock w = (Ok t, w).
Proof.
  intros Ht Htr. unfold OnePart.getToolCallId. now rewrite Ht, Htr.
Qed.

(** Without a usable [toolId], the id is looked up under the block's own
    [id], and generated and stored when the lookup fails. *)
Lemma getToolCallId_lookup toolBlock w :
  lacksToolId toolBlock = true ->
  OnePart.getToolCallId E toolBlock w
  = match toolCallIdCache w !! id toolBlock with
    | Some c => (Ok c, w)
    | None =>
        let newId := "tool_"
                     +:+ NilZero.string_of_uint (N.to_uint (Date_now E (generated w)))
                     +:+ "_" +:+ JS.substring 2 11 (Math_random_base36 E (generated w)) in
        (Ok newId, mkWorld (<[id toolBlock := newId]> (toolCallIdCache w))
                     (S (generated w)) (logs w))
    end.
Proof.
  unfold lacksToolId, OnePart.getToolCallId. intros H.
  destruct (toolId toolBlock) as [t|].
  - destruct (JS.truthy_string t); [discriminate|].
    rewrite bind_run. cbn. destruct (toolCallIdCache w !! id toolBlock); reflexivity.
  - rewrite bind_run. cbn. destruct (toolCallIdCache w !! id toolBlock); reflexivity.
Qed.

Lemma getToolCallId_total toolBlock w :
  exists i w', OnePart.getToolCallId E toolBlock w = (Ok i, w').
Proof.
  destruct (lacksToolId toolBlock) eqn:Hl.
  - rewrite getToolCallId_lookup by exact Hl.
    destruct (toolCallIdCache w !! id toolBlock); eauto.
  - unfold lacksToolId in Hl. destruct (toolId toolBlock) as [t|] eqn:Ht; [|discriminate].
    apply negb_false_iff in Hl. rewrite (getToolCallId_passthrough _ t) by assumption. eauto.
Qed.

(** After a derivation the id sits in the cache under the block's [id]. *)
Lemma getToolCallId_cached toolBlock w i w' :
  lacksToolId toolBlock = true ->
  OnePart.getToolCallId E toolBlock w = (Ok i, w') ->
  toolCallIdCache w' !! id toolBlock = Some i.
Proof.
  intros Hl. rewrite getToolCallId_lookup by exact Hl.
  destruct (toolCallIdCache w !! id toolBlock) as [c|] eqn:Hc; cbn; intros H;
    inversion H; subst; cbn.
  - exact Hc.
  - apply lookup_insert_eq.
Qed.

Lemma keeps_getToolCallId toolBlock : keeps_cache (OnePart.getToolCallId E toolBlock).
Proof.
  intros w r w' H.
  destruct (lacksToolId toolBlock) eqn:Hl.
  - rewrite getToolCallId_lookup in H by exact Hl.
    destruct (toolCallIdCache w !! id toolBlock) as [c|] eqn:Hc; cbn in H;
      inversion H; subst.
    + apply cache_le_refl.
    + intros k v Hk. cbn. rewrite lookup_insert_ne; [exact Hk | congruence].
  - unfold lacksToolId in Hl. destruct (toolId toolBlock) as [t|] eqn:Ht; [|discriminate].
    apply negb_false_iff in Hl.
    rewrite (getToolCallId_passthrough _ t) in H by assumption.
    inversion H; subst. apply cache_le_refl.
Qed.

(** Once derived, the id of a block stays the same in every later world
    of the compilation. *)
Lemma getToolCallId_stable toolBlock w i w1 w2 :
  lacksToolId toolBlock = true ->
  OnePart.getToolCallId E toolBlock w = (Ok i, w1) ->
  cache_le w1 w2 ->
  OnePart.getToolCallId E toolBlock w2 = (Ok i, w2).
Proof.
  intros Hl H1 Hle.
  pose proof (getToolCallId_cached _ _ _ _ Hl H1) as Hc.
  rewrite getToolCallId_lookup by exact Hl.
  now rewrite (Hle _ _ Hc).
Qed.

#[local] Hint Resolve keeps_getToolCallId : keeps.

Lemma keeps_convertImageBlock b parts : keeps_cache (Common.convertImageBlock E b parts).
Proof. unfold Common.convertImageBlock. auto 20 with keeps. Qed.
#[local] Hint Resolve keeps_convertImageBlock : keeps.

Lemma keeps_convertImageBlockToImagePart_from bs : forall parts,
  keeps_cache (Common.convertImageBlockToImagePart_from E bs parts).
Proof. induction bs; intros parts; cbn; auto with keeps. Qed.
#[local] Hint Resolve keeps_convertImageBlockToImagePart_from : keeps.

Lemma keeps_userTextFallback fb parts : keeps_cache (Common.userTextFallback E fb parts).
Proof. unfold Common.userTextFallback. auto 10 with keeps. Qed.
#[local] Hint Resolve keeps_userTextFallback : keeps.

Lemma keeps_userFileLoop model fbs : forall parts,
  keeps_cache (Common.userFileLoop E model fbs parts).
Proof. induction fbs; intros parts; cbn; auto 20 with keeps. Qed.
#[local] Hint Resolve keeps_userFileLoop : keeps.

Lemma keeps_convertMessageToUserModelMessage content fbs ibs vision model :
  keeps_cache (Common.convertMessageToUserModelMessage E content fbs ibs vision model).
Proof.
  unfold Common.convertMessageToUserModelMessage, Common.convertImageBlockToImagePart.
  auto 20 with keeps.
Qed.
#[local] Hint Resolve keeps_convertMessageToUserModelMessage : keeps.

Lemma keeps_convertToolBlockToToolPart tb :
  keeps_cache (OnePart.convertToolBlockToToolPart E tb).
Proof. unfold OnePart.convertToolBlockToToolPart. auto 20 with keeps. Qed.
#[local] Hint Resolve keeps_convertToolBlockToToolPart : keeps.

Lemma keeps_convertToolBlockToToolResultPart tb :
  keeps_cache (OnePart.convertToolBlockToToolResultPart E tb).
Proof. unfold OnePart.convertToolBlockToToolResultPart. auto 20 with keeps. Qed.
#[local] Hint Resolve keeps_convertToolBlockToToolResultPart : keeps.

Lemma keeps_toolPartLoop tbs : forall parts,
  keeps_cache (OnePart.toolPartLoop E tbs parts).
Proof. induction tbs; intros parts; cbn; auto 20 with keeps. Qed.
#[local] Hint Resolve keeps_toolPartLoop : keeps.

Lemma keeps_toolContentLoop tbs : forall parts,
  keeps_cache (OnePart.toolContentLoop E tbs parts).
Proof. induction tbs; intros parts; cbn; auto 20 with keeps. Qed.
#[local] Hint Resolve keeps_toolContentLoop : keeps.

(** Compiling a message never drops or overwrites a cache entry. *)
Lemma keeps_convertMessageToSdkParam message vision model :
  keeps_cache (OnePart.convertMessageToSdkParam E message vision model).
Proof.
  unfold OnePart.convertMessageToSdkParam, OnePart.convertMessageToAssistantModelMessage,
    OnePart.convertMessageToToolModelMessage.
  auto 20 with keeps.
Qed.

Lemma keeps_convertAll messages vision model : forall sdk,
  keeps_cache (Common.convertAll (OnePart.convertMessageToSdkParam E)
                 messages vision model sdk).
Proof.
  induction messages; intros sdk; cbn; auto with keeps.
  apply keeps_bind; [apply keeps_convertMessageToSdkParam | auto].
Qed.

Lemma keeps_enhancementOverride messages sdk :
  keeps_cache (Common.enhancementOverride E messages sdk).
Proof.
  unfold Common.enhancementOverride, Common.convertImageBlockToImagePart.
  apply keeps_bind.
  - destruct (List.find _ (Common.lastTwo messages)); [apply keeps_ret|].
    intros w r w' H. inversion H; subst. apply cache_le_refl.
  - intros imageBlocks. auto 20 with keeps.
Qed.

(** The body of the conversation compiler, before its [finally], never
    drops or overwrites a cache entry. *)
Lemma keeps_convertMessagesToSdkMessages_with messages model :
  keeps_cache (Common.convertMessagesToSdkMessages_with E
                 (OnePart.convertMessageToSdkParam E) messages model).
Proof.
  unfold Common.convertMessagesToSdkMessages_with.
  apply keeps_bind; [apply keeps_convertAll | intros sdk].
  destruct (isImageEnhancementModel E model && (3 <=? length messages)%nat);
    [apply keeps_enhancementOverride | apply keeps_ret].
Qed.

(** The conversation compiler leaves the cache empty, whether it returns
    or raises. *)
Lemma convertMessagesToSdkMessages_clears messages model w :
  toolCallIdCache (snd (OnePart.convertMessagesToSdkMessages E messages model w)) = ∅.
Proof.
  unfold OnePart.convertMessagesToSdkMessages, try_finally.
  destruct (Common.convertMessagesToSdkMessages_with _ _ _ _ w). reflexivity.
Qed.

End IdCache.

(** ** Tool pairing *)

Section ToolPairing.
Context (E : Env).

(** The output of a result part of the one-part revision is a string: the
    content itself, or its JSON text. *)
Lemma stringOrJSON_string (c : JS.value) :
  JS.is_nullish c = false ->
  exists s, OnePart.stringOrJSON c = JS.Str s
            /\ (forall t, c = JS.Str t -> s = t)
            /\ (JS.is_string c = false -> JS.JSON_stringify c = Some s).
Proof.
  destruct c; cbn; try discriminate; intros _; eexists; (split; [reflexivity|]);
    split; intros; try congruence; try discriminate; reflexivity.
Qed.

(** One-part revision: a block with neither a result nor arguments gives
    no part, in the assistant loop too. *)
Lemma one_part_skips_empty_block toolBlock rest parts w :
  JS.is_nullish (content toolBlock) = true ->
  OnePart.hasArguments toolBlock = false ->
  exists w', OnePart.convertToolBlockToToolPart E toolBlock w = (Ok None, w')
             /\ OnePart.toolPartLoop E (toolBlock :: rest) parts w
                = OnePart.toolPartLoop E rest parts w'.
Proof.
  intros Hc Ha.
  destruct (getToolCallId_total E toolBlock w) as (i & w' & Hi).
  assert (OnePart.convertToolBlockToToolPart E toolBlock w = (Ok None, w')) as Hp.
  { unfold OnePart.convertToolBlockToToolPart.
    rewrite (bind_ok _ _ _ _ _ Hi), Hc, Ha. reflexivity. }
  exists w'. split; [exact Hp|]. cbn. now rewrite (bind_ok _ _ _ _ _ Hp).
Qed.

(** One-part revision: a block with a result gives the result part and
    nothing else, whatever its arguments. *)
Lemma one_part_result toolBlock rest parts w :
  JS.is_nullish (content toolBlock) = false ->
  exists i w',
    OnePart.getToolCallId E toolBlock w = (Ok i, w')
    /\ OnePart.convertToolBlockToToolPart E toolBlock w
       = (Ok (Some (PToolResult (Some i)
                      (Some (or_default (toolName toolBlock) "unknown_tool"))
                      (BareOutput (OnePart.stringOrJSON (content toolBlock))))), w')
    /\ OnePart.toolPartLoop E (toolBlock :: rest) parts w
       = OnePart.toolPartLoop E rest
           (parts ++ [PToolResult (Some i)
                        (Some (or_default (toolName toolBlock) "unknown_tool"))
                        (BareOutput (OnePart.stringOrJSON (content toolBlock)))]) w'.
Proof.
  intros Hc.
  destruct (getToolCallId_total E toolBlock w) as (i & w' & Hi).
  exists i, w'. split; [exact Hi|].
  assert (OnePart.convertToolBlockToToolPart E toolBlock w
          = (Ok (Some (PToolResult (Some i)
                         (Some (or_default (toolName toolBlock) "unknown_tool"))
                         (BareOutput (OnePart.stringOrJSON (content toolBlock))))), w'))
    as Hp.
  { unfold OnePart.convertToolBlockToToolPart.
    rewrite (bind_ok _ _ _ _ _ Hi), Hc. reflexivity. }
  split; [exact Hp|]. cbn. now rewrite (bind_ok _ _ _ _ _ Hp).
Qed.

(** The tool-role conversion of a block with a result is the same result
    part. *)
Lemma one_part_tool_role_result toolBlock w :
  JS.is_nullish (content toolBlock) = false ->
  exists i w',
    OnePart.getToolCallId E toolBlock w = (Ok i, w')
    /\ OnePart.convertToolBlockToToolResultPart E toolBlock w
       = (Ok (Some (PToolResult (Some i)
                      (Some (or_default (toolName toolBlock) "unknown_tool"))
                      (BareOutput (OnePart.stringOrJSON (content toolBlock))))), w').
Proof.
  intros Hc.
  destruct (getToolCallId_total E toolBlock w) as (i & w' & Hi).
  exists i, w'. split; [exact Hi|].
  unfold OnePart.convertToolBlockToToolResultPart.
  rewrite Hc, (bind_ok _ _ _ _ _ Hi). reflexivity.
Qed.

(** [messageConverter.ts]: every block adds its call part, and its result
    part after it when [hasToolResult] holds. *)
Lemma inline_toolLoop_step toolBlock rest parts :
  Inline.toolLoop (toolBlock :: rest) parts
  = Inline.toolLoop rest
      (parts ++ Inline.convertToolBlockToToolCallPart toolBlock
             :: (if Inline.hasToolResult toolBlock
                 then [Inline.convertToolBlockToToolResultPart toolBlock]
                 else [])).
Proof.
  cbn. destruct (Inline.hasToolResult toolBlock).
  - now rewrite <- app_assoc.
  - reflexivity.
Qed.

End ToolPairing.

(** C1, on [messageConverter.ts]: the block of the test "should skip tool
    blocks without content and arguments" (no content, no arguments) still
    puts one tool-call part, with the empty object as input, into the
    compiled assistant message; the claim asks for no tool part at all,
    which is what the one-part revision does
    ([one_part_skips_empty_block]). *)
Theorem inline_emits_call_for_block_without_content_and_arguments :
  let toolBlock := Fixtures.mockToolBlock (Some "call_123") None JS.Undefined in
  let E := Fixtures.env (Fixtures.toolStore [toolBlock]) in
  JS.is_nullish (content toolBlock) = true
  /\ OnePart.hasArguments toolBlock = false
  /\ fst (Inline.convertMessageToSdkParam E Fixtures.msg1 false None Fixtures.world0)
     = Ok (One (mkModelMessage assistant
                  (ContentParts
                     [PToolCall (Some "call_123") (Some "test_tool") (JS.Obj [])])))
  /\ fst (OnePart.convertMessageToSdkParam E Fixtures.msg1 false None Fixtures.world0)
     = Ok (One (mkModelMessage assistant (ContentParts []))).
Proof. repeat split; reflexivity. Qed.

(** C2: in the one-part revision a tool block with a content that is
    neither [undefined] nor [null] and with non-empty arguments gives
    exactly one part, a tool-result, and no tool-call: the conversion
    returns that result part, and the assistant loop appends it and goes
    on with the next block. *)
Theorem one_part_result_wins (E : Env) (toolBlock : ToolMessageBlock)
    (rest : list ToolMessageBlock) (parts : list Part) (w : World) :
  JS.is_nullish (content toolBlock) = false ->
  OnePart.hasArguments toolBlock = true ->
  exists p w',
    OnePart.convertToolBlockToToolPart E toolBlock w = (Ok (Some p), w')
    /\ is_tool_result p = true
    /\ is_tool_call p = false
    /\ OnePart.toolPartLoop E (toolBlock :: rest) parts w
       = OnePart.toolPartLoop E rest (parts ++ [p]) w'.
Proof.
  intros Hc _.
  destruct (one_part_result E toolBlock rest parts w Hc) as (i & w' & _ & Hp & Hl).
  eexists _, w'. split; [exact Hp|].
  split; [reflexivity|]. split; [reflexivity | exact Hl].
Qed.

Lemma one_part_result_wins_witness :
  let toolBlock :=
    Fixtures.mockToolBlock (Some "call_123") (Some [("query", JS.Str "test")])
      (JS.Str "result") in
  exists p w',
    OnePart.convertToolBlockToToolPart (Fixtures.env (Fixtures.toolStore [toolBlock]))
      toolBlock Fixtures.world0 = (Ok (Some p), w')
    /\ is_tool_result p = true
    /\ is_tool_call p = false
    /\ OnePart.toolPartLoop (Fixtures.env (Fixtures.toolStore [toolBlock]))
         (toolBlock :: []) [] Fixtures.world0
       = OnePart.toolPartLoop (Fixtures.env (Fixtures.toolStore [toolBlock]))
           [] ([] ++ [p]) w'.
Proof.
  intro toolBlock.
  apply (one_part_result_wins (Fixtures.env (Fixtures.toolStore [toolBlock]))
           toolBlock [] [] Fixtures.world0); reflexivity.
Defined.

(** C3, on [messageConverter.ts]: for the object content of the test
    "should convert object content to JSON string in tool-result" the
    output of the result part is the object itself under the [json] tag,
    not the string the claim and the test ask for; a string content is
    wrapped under the [text] tag.  The one-part revision returns the
    string ([one_part_result], [stringOrJSON_string]). *)
Theorem inline_result_output_is_not_serialized :
  let toolBlock := Fixtures.mockToolBlock (Some "call_123") None Fixtures.objectContent in
  let E := Fixtures.env (Fixtures.toolStore [toolBlock]) in
  fst (Inline.convertMessageToSdkParam E Fixtures.msg1 false None Fixtures.world0)
  = Ok (One (mkModelMessage assistant
               (ContentParts
                  [ PToolCall (Some "call_123") (Some "test_tool") (JS.Obj []);
                    PToolResult (Some "call_123") (Some "test_tool")
                      (TaggedOutput tag_json Fixtures.objectContent) ])))
  /\ TaggedOutput tag_json Fixtures.objectContent
     <> BareOutput (JS.Str Fixtures.objectContentText)
  /\ JS.JSON_stringify Fixtures.objectContent = Some Fixtures.objectContentText
  /\ fst (OnePart.convertMessageToSdkParam E Fixtures.msg1 false None Fixtures.world0)
     = Ok (One (mkModelMessage assistant
                  (ContentParts
                     [ PToolResult (Some "call_123") (Some "test_tool")
                         (BareOutput (JS.Str Fixtures.objectContentText)) ]))).
Proof.
  intros toolBlock E. split; [reflexivity|]. split; [discriminate|].
  split; reflexivity.
Qed.

(** C10: a tool block whose content is the empty string has a result.  In
    the one-part revision the conversion returns a tool-result part whose
    output is the empty string, whatever the arguments, so no tool-call
    part; in [messageConverter.ts], [hasToolResult] holds and the result
    part, of value the empty string, follows the call part. *)
Theorem empty_string_content_is_a_result (E : Env) (toolBlock : ToolMessageBlock)
    (rest : list ToolMessageBlock) (parts : list Part) (w : World) :
  content toolBlock = JS.Str EmptyString ->
  (exists i w',
     OnePart.convertToolBlockToToolPart E toolBlock w
     = (Ok (Some (PToolResult (Some i)
                    (Some (or_default (toolName toolBlock) "unknown_tool"))
                    (BareOutput (JS.Str EmptyString)))), w')
     /\ OnePart.toolPartLoop E (toolBlock :: rest) parts w
        = OnePart.toolPartLoop E rest
            (parts ++ [PToolResult (Some i)
                         (Some (or_default (toolName toolBlock) "unknown_tool"))
                         (BareOutput (JS.Str EmptyString))]) w')
  /\ Inline.hasToolResult toolBlock = true
  /\ Inline.convertToolBlockToToolResultPart toolBlock
     = PToolResult (toolId toolBlock)
         (Some (or_default (toolName toolBlock) "unknown"))
         (TaggedOutput tag_text (JS.Str EmptyString))
  /\ Inline.toolLoop (toolBlock :: rest) parts
     = Inline.toolLoop rest
         (parts ++ [Inline.convertToolBlockToToolCallPart toolBlock;
                    PToolResult (toolId toolBlock)
                      (Some (or_default (toolName toolBlock) "unknown"))
                      (TaggedOutput tag_text (JS.Str EmptyString))]).
Proof.
  intros Hc.
  assert (JS.is_nullish (content toolBlock) = false) as Hn by now rewrite Hc.
  split.
  - destruct (one_part_result E toolBlock rest parts w Hn) as (i & w' & _ & Hp & Hl).
    rewrite Hc in Hp, Hl. cbn in Hp, Hl. eauto.
  - assert (Inline.hasToolResult toolBlock = true) as Hh
        by (unfold Inline.hasToolResult; now rewrite Hn).
    assert (Inline.convertToolBlockToToolResultPart toolBlock
            = PToolResult (toolId toolBlock)
                (Some (or_default (toolName toolBlock) "unknown"))
                (TaggedOutput tag_text (JS.Str EmptyString))) as Hr
        by (unfold Inline.convertToolBlockToToolResultPart; now rewrite Hc).
    split; [exact Hh|]. split; [exact Hr|].
    rewrite inline_toolLoop_step, Hh, Hr. reflexivity.
Qed.

Lemma empty_string_content_is_a_result_witness :
  let toolBlock :=
    Fixtures.mockToolBlock None (Some [("query", JS.Str "test")]) (JS.Str EmptyString) in
  (exists i w',
     OnePart.convertToolBlockToToolPart (Fixtures.env (Fixtures.toolStore [toolBlock]))
       toolBlock Fixtures.world0
     = (Ok (Some (PToolResult (Some i) (Some "test_tool")
                    (BareOutput (JS.Str EmptyString)))), w'))
  /\ Inline.hasToolResult toolBlock = true.
Proof.
  intro toolBlock.
  destruct (empty_string_content_is_a_result
              (Fixtures.env (Fixtures.toolStore [toolBlock])) toolBlock [] []
              Fixtures.world0 eq_refl) as [(i & w' & Hp & _) [Hh _]].
  split; [exists i, w'; exact Hp | exact Hh].
Defined.

(** ** The tool-role path of the one-part revision *)

Section ToolRole.
Context (E : Env).

Lemma getToolCallId_logs toolBlock w i w' :
  OnePart.getToolCallId E toolBlock w = (Ok i, w') -> logs w' = logs w.
Proof.
  destruct (lacksToolId toolBlock) eqn:Hl.
  - rewrite getToolCallId_lookup by exact Hl.
    destruct (toolCallIdCache w !! id toolBlock); cbn; intros H; inversion H; reflexivity.
  - unfold lacksToolId in Hl. destruct (toolId toolBlock) as [t|] eqn:Ht; [|discriminate].
    apply negb_false_iff in Hl.
    rewrite (getToolCallId_passthrough _ _ t) by assumption.
    intros H; inversion H; reflexivity.
Qed.

(** The loop returns, keeps what it was given, adds one result part for
    each block with a content, in block order, and one warning for each
    block without. *)
Lemma toolContentLoop_spec toolBlocks : forall toolContent w,
  exists added w',
    OnePart.toolContentLoop E toolBlocks toolContent w = (Ok (toolContent ++ added), w')
    /\ Forall2 resultPartOf
         (List.filter (fun b => negb (JS.is_nullish (content b))) toolBlocks) added
    /\ logs w' = logs w
                 ++ List.map skippedWarning
                      (List.filter (fun b => JS.is_nullish (content b)) toolBlocks).
Proof.
  induction toolBlocks as [|b rest IH]; intros toolContent w.
  - exists [], w. cbn. rewrite !app_nil_r. repeat split. constructor.
  - cbn [OnePart.toolContentLoop List.filter].
    destruct (JS.is_nullish (content b)) eqn:Hn; cbn [negb].
    + rewrite bind_run. cbn.
      destruct (IH toolContent
                  (mkWorld (toolCallIdCache w) (generated w)
                     (logs w ++ [Warn ("Tool block " +:+ id b
                                         +:+ " has no content, skipping in tool role message")])))
        as (added & w' & Hrun & Hparts & Hlogs).
      exists added, w'. split; [exact Hrun|]. split; [exact Hparts|].
      rewrite Hlogs. cbn. now rewrite <- app_assoc.
    + destruct (one_part_tool_role_result E b w Hn) as (i & w1 & Hi & Hp).
      rewrite (bind_ok _ _ _ _ _ Hp).
      destruct (IH (toolContent
                      ++ [PToolResult (Some i)
                            (Some (or_default (toolName b) "unknown_tool"))
                            (BareOutput (OnePart.stringOrJSON (content b)))]) w1)
        as (added & w' & Hrun & Hparts & Hlogs).
      eexists (_ :: added), w'. split; [rewrite Hrun, <- app_assoc; reflexivity|].
      split.
      * constructor; [exists i; reflexivity | exact Hparts].
      * rewrite Hlogs. now rewrite (getToolCallId_logs _ _ _ _ Hi).
Qed.

End ToolRole.

(** C8: in the one-part revision a tool-role message compiles, without an
    exception, to one message of role tool; its parts are tool-result
    parts, one for each tool block with a content and in block order;
    every block whose content is [undefined] or [null] is skipped with a
    warning; when no block has a content the part list is empty. *)
Theorem tool_role_message_holds_results_only (E : Env) (message : Message)
    (isVision : bool) (model : option Model) (w : World) :
  msg_role message = tool ->
  exists parts w',
    OnePart.convertMessageToSdkParam E message isVision model w
    = (Ok (One (mkModelMessage tool (ContentParts parts))), w')
    /\ Forall (fun p => is_tool_result p = true) parts
    /\ Forall2 resultPartOf
         (List.filter (fun b => negb (JS.is_nullish (content b))) (findToolBlocks E message))
         parts
    /\ logs w' = logs w
                 ++ List.map skippedWarning
                      (List.filter (fun b => JS.is_nullish (content b))
                         (findToolBlocks E message))
    /\ (Forall (fun b => JS.is_nullish (content b) = true) (findToolBlocks E message) ->
        parts = []).
Proof.
  intros Hrole.
  destruct (toolContentLoop_spec E (findToolBlocks E message) [] w)
    as (added & w' & Hrun & Hparts & Hlogs).
  exists added, w'. split.
  { unfold OnePart.convertMessageToSdkParam, OnePart.convertMessageToToolModelMessage.
    rewrite Hrole, !bind_run, Hrun. reflexivity. }
  split.
  { clear Hrun Hlogs. induction Hparts as [|b p bs ps [i ->] _ IH]; constructor; auto. }
  split; [exact Hparts|]. split; [exact Hlogs|].
  intros Hall.
  assert (List.filter (fun b => negb (JS.is_nullish (content b))) (findToolBlocks E message) = [])
    as Hnone.
  { clear Hparts Hrun Hlogs.
    induction Hall as [|b bs Hb _ IH]; [reflexivity|]. cbn. now rewrite Hb. }
  rewrite Hnone in Hparts. now inversion Hparts.
Qed.

Lemma tool_role_message_holds_results_only_witness :
  let blocks :=
    [ Fixtures.mockToolBlock (Some "call_1") None (JS.Str "42");
      Fixtures.mockToolBlock (Some "call_2") None JS.Null ] in
  exists parts w',
    OnePart.convertMessageToSdkParam (Fixtures.env (Fixtures.toolStore blocks))
      (mkMessage "msg-1" tool ["tool-1"; "tool-1"]) false None Fixtures.world0
    = (Ok (One (mkModelMessage tool (ContentParts parts))), w')
    /\ Forall (fun p => is_tool_result p = true) parts.
Proof.
  intro blocks.
  destruct (tool_role_message_holds_results_only
              (Fixtures.env (Fixtures.toolStore blocks))
              (mkMessage "msg-1" tool ["tool-1"; "tool-1"]) false None Fixtures.world0
              eq_refl) as (parts & w' & Hrun & Hall & _).
  exists parts, w'. split; [exact Hrun | exact Hall].
Defined.

Example tool_role_example :
  let blocks :=
    [ Fixtures.mockToolBlock (Some "call_1") None (JS.Str "42");
      Fixtures.mockToolBlock (Some "call_2") None JS.Null;
      Fixtures.mockToolBlock None None Fixtures.objectContent ] in
  let r := OnePart.convertMessageToSdkParam (Fixtures.env (Fixtures.toolStore blocks))
             (mkMessage "msg-1" tool []) false None Fixtures.world0 in
  fst r = Ok (One (mkModelMessage tool
                     (ContentParts
                        [ PToolResult (Some "call_1") (Some "test_tool")
                            (BareOutput (JS.Str "42"));
                          PToolResult (Some "tool_1700000000000_4fzyo82mv") (Some "test_tool")
                            (BareOutput (JS.Str Fixtures.objectContentText)) ])))
  /\ logs (snd r)
     = [Warn "Tool block tool-1 has no content, skipping in tool role message"].
Proof. split; reflexivity. Qed.

(** ** Derived tool-call ids *)

(** C9 as stated fails: a [toolId] that is set to the empty string is not
    the derived id, because the test on [toolId] is a truthiness test; the
    id is generated instead. *)
Lemma empty_toolId_is_not_passed_through :
  ~ (forall (E : Env) (toolBlock : ToolMessageBlock) (w : World) (t : string),
        toolId toolBlock = Some t ->
        fst (OnePart.getToolCallId E toolBlock w) = Ok t).
Proof.
  intros H.
  specialize (H (Fixtures.env (Fixtures.toolStore []))
                (Fixtures.mockToolBlock (Some EmptyString) None (JS.Str "result"))
                Fixtures.world0 EmptyString eq_refl).
  vm_compute in H. discriminate H.
Qed.

(** C9, amended: a [toolId] that is a non-empty string is the derived id,
    and deriving it changes nothing; for a block whose [toolId] is absent
    or empty, an id derived once is derived again in every later world of
    the same compilation (every world whose cache still holds the entries
    of the first, which compiling a message, and the whole body of the
    conversation compiler before its [finally], preserve); when a
    conversation compilation ends the cache is empty, so the next
    derivation for the block generates an id from the next clock and
    random values instead of reusing the old one.  In
    [messageConverter.ts] the parts of a block carry its [toolId] as it
    is, set or not. *)
Theorem tool_call_id_derivation (E : Env) (toolBlock : ToolMessageBlock) (w : World) :
  (forall t, toolId toolBlock = Some t -> t <> EmptyString ->
             OnePart.getToolCallId E toolBlock w = (Ok t, w))
  /\ (lacksToolId toolBlock = true ->
      forall i w1 w2,
        OnePart.getToolCallId E toolBlock w = (Ok i, w1) ->
        cache_le w1 w2 ->
        OnePart.getToolCallId E toolBlock w2 = (Ok i, w2))
  /\ (forall message isVision model,
        keeps_cache (OnePart.convertMessageToSdkParam E message isVision model))
  /\ (forall messages model,
        keeps_cache (Common.convertMessagesToSdkMessages_with E
                       (OnePart.convertMessageToSdkParam E) messages model))
  /\ (lacksToolId toolBlock = true ->
      forall messages model,
        let w' := snd (OnePart.convertMessagesToSdkMessages E messages model w) in
        fst (OnePart.getToolCallId E toolBlock w')
        = Ok ("tool_" +:+ NilZero.string_of_uint (N.to_uint (Date_now E (generated w')))
                +:+ "_" +:+ JS.substring 2 11 (Math_random_base36 E (generated w'))))
  /\ (exists name input output,
        Inline.convertToolBlockToToolCallPart toolBlock
        = PToolCall (toolId toolBlock) name input
        /\ Inline.convertToolBlockToToolResultPart toolBlock
           = PToolResult (toolId toolBlock) name output).
Proof.
  split; [|split; [|split; [|split; [|split]]]];
    [| | | | |eexists _, _, _; split; reflexivity].
  - intros t Ht Hne. apply getToolCallId_passthrough; [exact Ht|].
    destruct t; [congruence | reflexivity].
  - intros Hl i w1 w2 H1 Hle. eapply getToolCallId_stable; eauto.
  - intros message isVision model. apply keeps_convertMessageToSdkParam.
  - intros messages model. apply keeps_convertMessagesToSdkMessages_with.
  - intros Hl messages model w'.
    rewrite getToolCallId_lookup by exact Hl.
    subst w'. rewrite convertMessagesToSdkMessages_clears, lookup_empty. reflexivity.
Qed.

Lemma tool_call_id_derivation_witness :
  OnePart.getToolCallId (Fixtures.env (Fixtures.toolStore []))
    (Fixtures.mockToolBlock (Some "call_abc123") None (JS.Str "result")) Fixtures.world0
  = (Ok "call_abc123", Fixtures.world0)
  /\ forall i w1,
      OnePart.getToolCallId (Fixtures.env (Fixtures.toolStore []))
        (Fixtures.mockToolBlock None None (JS.Str "result")) Fixtures.world0 = (Ok i, w1) ->
      OnePart.getToolCallId (Fixtures.env (Fixtures.toolStore []))
        (Fixtures.mockToolBlock None None (JS.Str "result")) w1 = (Ok i, w1).
Proof.
  split.
  - apply (proj1 (tool_call_id_derivation (Fixtures.env (Fixtures.toolStore []))
                    (Fixtures.mockToolBlock (Some "call_abc123") None (JS.Str "result"))
                    Fixtures.world0) "call_abc123" eq_refl).
    discriminate.
  - intros i w1 H.
    apply (proj1 (proj2 (tool_call_id_derivation (Fixtures.env (Fixtures.toolStore []))
                           (Fixtures.mockToolBlock None None (JS.Str "result"))
                           Fixtures.world0)) eq_refl i w1 w1 H).
    intros k v Hk. exact Hk.
Defined.

(** Two compilations of the same tool-role message give its block, which
    has no [toolId], two different ids. *)
Example ids_differ_across_compilations :
  let blocks := [Fixtures.mockToolBlock None None (JS.Str "result")] in
  let E := Fixtures.env (Fixtures.toolStore blocks) in
  let message := mkMessage "msg-1" tool ["tool-1"] in
  let first := OnePart.convertMessagesToSdkMessages E [message] Fixtures.gpt4o
                 Fixtures.world0 in
  let second := OnePart.convertMessagesToSdkMessages E [message] Fixtures.gpt4o
                  (snd first) in
  fst first
  = Ok [Some (mkModelMessage tool
                (ContentParts [PToolResult (Some "tool_1700000000000_4fzyo82mv")
                                 (Some "test_tool") (BareOutput (JS.Str "result"))]))]
  /\ fst second
     = Ok [Some (mkModelMessage tool
                   (ContentParts [PToolResult (Some "tool_1700000000001_9k2j5h7d1")
                                    (Some "test_tool") (BareOutput (JS.Str "result"))]))].
Proof. split; reflexivity. Qed.

(** ** The handle split of the user path *)

Section UserPath.
Context (E : Env).

Lemma convertMessageToUserModelMessage_unfold content fileBlocks imageBlocks isVision model w :
  Common.convertMessageToUserModelMessage E content fileBlocks imageBlocks isVision model w
  = match visionImageParts E isVision imageBlocks w with
    | (Ok imageParts, w') =>
        Common.userFileLoop E model fileBlocks (textPartOf content ++ imageParts) w'
    | (Throw e, w') => (Throw e, w')
    end.
Proof.
  unfold Common.convertMessageToUserModelMessage, visionImageParts, textPartOf.
  rewrite bind_run. destruct isVision.
  - rewrite bind_run.
    destruct (Common.convertImageBlockToImagePart E imageBlocks w) as [[ps|e] w']; reflexivity.
  - cbn. destruct (JS.truthy_string content); reflexivity.
Qed.

(** File blocks that are not handles add their parts and the loop goes
    on. *)
Lemma userFileLoop_prefix m pre : forall rest parts w,
  Forall (fun b => nativeHandle E m b = None) pre ->
  exists w', Common.userFileLoop E (Some m) (pre ++ rest) parts w
             = Common.userFileLoop E (Some m) rest
                 (parts ++ flat_map (filePartsOf E m) pre) w'.
Proof.
  induction pre as [|b pre IH]; intros rest parts w Hpre.
  - exists w. cbn. now rewrite app_nil_r.
  - inversion Hpre as [|? ? Hb Hrest]; subst.
    cbn [app Common.userFileLoop flat_map].
    unfold nativeHandle in Hb. unfold filePartsOf at 1.
    destruct (convertFileBlockToFilePart E b m) as [fp|].
    + rewrite Hb, bind_run. cbn.
      destruct (IH rest (parts ++ [PFile fp])
                  (mkWorld (toolCallIdCache w) (generated w)
                     (logs w ++ [Debug ("File " +:+ origin_name (fb_file b)
                                          +:+ " processed as native file format")])) Hrest)
        as (w' & Hrun).
      exists w'. rewrite Hrun. now rewrite <- app_assoc.
    + rewrite bind_run. unfold Common.userTextFallback.
      destruct (convertFileBlockToTextPart E b) as [text|]; rewrite bind_run; cbn.
      * edestruct (IH rest (parts ++ [PText text])) as (w' & Hrun); [exact Hrest|].
        exists w'. rewrite Hrun. now rewrite <- app_assoc.
      * edestruct (IH rest parts) as (w' & Hrun); [exact Hrest|].
        exists w'. rewrite Hrun. reflexivity.
Qed.

(** The loop stops at a handle with the two messages of the split. *)
Lemma userFileLoop_handle m fileBlock rest parts handle w :
  nativeHandle E m fileBlock = Some handle ->
  Common.userFileLoop E (Some m) (fileBlock :: rest) parts w
  = (Ok (Many [ mkModelMessage system (ContentString handle);
                mkModelMessage user (partsOrEmptyString parts) ]), w).
Proof.
  unfold nativeHandle. cbn.
  destruct (convertFileBlockToFilePart E fileBlock m) as [fp|]; [|discriminate].
  intros ->. reflexivity.
Qed.

(** A list with a handle block splits at its first handle block. *)
Lemma first_handle m (fileBlocks : list FileMessageBlock) :
  (exists fileBlock, In fileBlock fileBlocks /\ nativeHandle E m fileBlock <> None) ->
  exists pre fileBlock post handle,
    fileBlocks = pre ++ fileBlock :: post
    /\ Forall (fun b => nativeHandle E m b = None) pre
    /\ nativeHandle E m fileBlock = Some handle.
Proof.
  induction fileBlocks as [|b rest IH]; intros (fb & Hin & Hh); [destruct Hin|].
  destruct (nativeHandle E m b) as [h|] eqn:Hb.
  - exists [], b, rest, h. repeat split; [constructor | exact Hb].
  - destruct Hin as [->|Hin]; [congruence|].
    destruct IH as (pre & fb' & post & h & -> & Hpre & Hfb); [eauto|].
    exists (b :: pre), fb', post, h. repeat split; [constructor; assumption | exact Hfb].
Qed.

(** Without a handle among the file blocks the user path returns one
    user message, in part-list form. *)
Lemma userFileLoop_no_handle m fileBlocks parts w :
  Forall (fun b => nativeHandle E m b = None) fileBlocks ->
  exists w', Common.userFileLoop E (Some m) fileBlocks parts w
             = (Ok (One (mkModelMessage user
                           (ContentParts (parts ++ flat_map (filePartsOf E m) fileBlocks)))),
                w').
Proof.
  intros Hall.
  destruct (userFileLoop_prefix m fileBlocks [] parts w Hall) as (w' & Hrun).
  exists w'. rewrite app_nil_r in Hrun. exact Hrun.
Qed.

End UserPath.

(** The handle split, when the image parts are materialized without an
    exception: a user-role or system-role message with a file block whose
    native conversion, for the model in use, answers with a string
    starting with [fileid://] compiles to a list of exactly two messages:
    a system message whose content is the handle of the first such block,
    then a user message with the parts accumulated up to that block (the
    text, the image parts as materialized for a vision model, the parts of
    the file blocks before it), or with the empty string as content when
    there are none. *)
Theorem handle_splits_user_message (E : Env) (message : Message) (isVision : bool)
    (m : Model) (w w1 : World) (imageParts : list Part) :
  msg_role message = user \/ msg_role message = system ->
  visionImageParts E isVision (findImageBlocks E message) w = (Ok imageParts, w1) ->
  (exists fileBlock,
      In fileBlock (findFileBlocks E message) /\ nativeHandle E m fileBlock <> None) ->
  exists pre fileBlock post handle w2,
    findFileBlocks E message = pre ++ fileBlock :: post
    /\ Forall (fun b => nativeHandle E m b = None) pre
    /\ nativeHandle E m fileBlock = Some handle
    /\ JS.startsWith handle "fileid://" = true
    /\ Inline.convertMessageToSdkParam E message isVision (Some m) w
       = (Ok (Many [ mkModelMessage system (ContentString handle);
                     mkModelMessage user
                       (partsOrEmptyString
                          (textPartOf (getMainTextContent E message) ++ imageParts
                             ++ flat_map (filePartsOf E m) pre)) ]), w2).
Proof.
  intros Hrole Himg Hex.
  destruct (first_handle E m _ Hex) as (pre & fb & post & handle & Hsplit & Hpre & Hfb).
  destruct (userFileLoop_prefix E m pre (fb :: post)
              (textPartOf (getMainTextContent E message) ++ imageParts) w1 Hpre)
    as (w2 & Hloop).
  exists pre, fb, post, handle, w2.
  split; [exact Hsplit|]. split; [exact Hpre|]. split; [exact Hfb|]. split.
  { unfold nativeHandle, Common.is_file_handle in Hfb.
    destruct (convertFileBlockToFilePart E fb m) as [fp|]; [|discriminate].
    destruct (data fp) as [s|]; [|discriminate].
    destruct (JS.startsWith s "fileid://") eqn:Hs; [|discriminate].
    inversion Hfb; subst. exact Hs. }
  assert (Inline.convertMessageToSdkParam E message isVision (Some m) w
          = Common.convertMessageToUserModelMessage E (getMainTextContent E message)
              (findFileBlocks E message) (findImageBlocks E message) isVision (Some m) w)
    as -> by (unfold Inline.convertMessageToSdkParam; destruct Hrole as [-> | ->]; reflexivity).
  rewrite convertMessageToUserModelMessage_unfold, Himg, Hsplit, Hloop.
  rewrite (userFileLoop_handle E m fb post _ handle w2 Hfb).
  now rewrite <- app_assoc.
Qed.

Lemma handle_splits_user_message_witness :
  exists w2,
    Inline.convertMessageToSdkParam (Fixtures.env Fixtures.conversation) Fixtures.msgC
      true (Some Fixtures.gpt4o) Fixtures.world0
    = (Ok (Many [ mkModelMessage system (ContentString "fileid://file-42");
                  mkModelMessage user
                    (ContentParts [PText "make it blue"; PText "extracted notes"]) ]), w2).
Proof.
  edestruct (handle_splits_user_message (Fixtures.env Fixtures.conversation) Fixtures.msgC
               true Fixtures.gpt4o Fixtures.world0)
    as (pre & fb & post & handle & w2 & Hsplit & Hpre & Hfb & _ & Hrun).
  { left; reflexivity. }
  { reflexivity. }
  { exists Fixtures.reportPdf. split; [right; left; reflexivity | discriminate]. }
  exists w2. rewrite Hrun.
  destruct pre as [|b0 [|b1 pre]].
  - inversion Hsplit; subst. vm_compute in Hfb. discriminate Hfb.
  - inversion Hsplit; subst. vm_compute in Hfb. inversion Hfb; subst. reflexivity.
  - exfalso. inversion Hsplit as [[H0 H1 Hrest]].
    destruct pre; discriminate Hrest.
Defined.

Example handle_split_without_parts :
  fst (Inline.convertMessageToSdkParam (Fixtures.env Fixtures.conversation) Fixtures.msgF
         true (Some Fixtures.gpt4o) Fixtures.world0)
  = Ok (Many [ mkModelMessage system (ContentString "fileid://file-42");
               mkModelMessage user (ContentString EmptyString) ]).
Proof. reflexivity. Qed.

(** C5, the defect: a user message with a file block that the native
    conversion answers with a handle does not compile to the system
    message and the user message of the split when one of its image
    blocks is a data URL without [;base64,] payload and the model is a
    vision model.  The image parts are materialized before the file loop
    is entered, the materializer raises a [TypeError] there, and neither
    message is returned: the compilation of the message, and of a
    conversation that holds it, ends with that exception.  The same
    message compiles to the two messages of the split when the images are
    not materialized. *)
Theorem handle_split_aborted_by_image_exception :
  let E := Fixtures.env Fixtures.conversationWithUpload in
  msg_role Fixtures.msgG = user
  /\ findFileBlocks E Fixtures.msgG = [Fixtures.reportPdf]
  /\ nativeHandle E Fixtures.gpt4o Fixtures.reportPdf = Some "fileid://file-42"
  /\ fst (Inline.convertMessageToSdkParam E Fixtures.msgG true (Some Fixtures.gpt4o)
            Fixtures.world0)
     = Throw (TypeError "Cannot read properties of null (reading '1')")
  /\ fst (Inline.convertMessagesToSdkMessages E [Fixtures.msgG] Fixtures.gpt4o
            Fixtures.world0)
     = Throw (TypeError "Cannot read properties of null (reading '1')")
  /\ fst (Inline.convertMessageToSdkParam E Fixtures.msgG false (Some Fixtures.textOnly)
            Fixtures.world0)
     = Ok (Many [ mkModelMessage system (ContentString "fileid://file-42");
                  mkModelMessage user (ContentParts [PText "describe these"]) ]).
Proof. repeat split. Qed.

(** ** Tool history replay *)

Section ReplayHistory.
Context (E : Env).

Lemma notProvider_spec tr :
  Replay.notProvider tr = true <-> ~ providerExecuted tr.
Proof.
  unfold Replay.notProvider, providerExecuted. destruct (tr_tool tr) as [t|].
  - rewrite negb_true_iff. split.
    + intros Hne (t' & Ht & Hp). inversion Ht; subst.
      apply String.eqb_neq in Hne. contradiction.
    + intros Hn. apply String.eqb_neq. intros Hp. apply Hn. eauto.
  - split; [intros _ (t & Ht & _); discriminate | reflexivity].
Qed.

Lemma isTerminal_spec tr : Replay.isTerminal tr = true <-> terminalStatus tr.
Proof.
  unfold Replay.isTerminal, terminalStatus.
  rewrite !orb_true_iff, !String.eqb_eq. tauto.
Qed.

Lemma toolResultPartOf_spec tr : replayResultPartOf tr (Replay.toolResultPartOf tr).
Proof.
  unfold replayResultPartOf, Replay.toolResultPartOf.
  eexists _, _. split; [reflexivity|]. repeat split.
  - intros [H|H]; rewrite H; reflexivity.
  - intros He Hc. apply String.eqb_neq in He, Hc. now rewrite He, Hc.
  - intros H Hn; rewrite H, Hn; reflexivity.
  - intros [Hc|Hn].
    + apply String.eqb_neq in Hc. now rewrite Hc.
    + now rewrite Hn, andb_false_r.
Qed.

(** The history is the message of the calls, then the message of the
    results. *)
Lemma buildToolHistoryMessages_shape toolBlocks :
  Replay.buildToolHistoryMessages E toolBlocks
  = messageIfAny assistant (List.map (Replay.toolCallPartOf E) (clientResponses toolBlocks))
    ++ messageIfAny tool
         (List.map Replay.toolResultPartOf
            (List.filter Replay.isTerminal (clientResponses toolBlocks))).
Proof.
  unfold Replay.buildToolHistoryMessages, clientResponses.
  destruct (List.filter Replay.notProvider (omap rawMcpToolResponse toolBlocks))
    as [|tr rest]; [reflexivity|].
  cbn [List.map messageIfAny app].
  destruct (List.map Replay.toolResultPartOf (List.filter Replay.isTerminal (tr :: rest)));
    reflexivity.
Qed.

End ReplayHistory.

(** What a boolean filter keeps, when the test decides [P]. *)
Lemma keptBy_filter {A : Type} (P : A -> Prop) (test : A -> bool) (l : list A) :
  (forall x, test x = true <-> P x) -> keptBy P l (List.filter test l).
Proof.
  intros Hdec. induction l as [|x l IH]; cbn [List.filter]; [constructor|].
  destruct (test x) eqn:Hx.
  - apply keptBy_keep; [now apply Hdec | exact IH].
  - apply keptBy_drop; [|exact IH]. intros HP. apply Hdec in HP. congruence.
Qed.

(** [keptBy] leaves no choice. *)
Lemma keptBy_unique {A : Type} (P : A -> Prop) (l kept kept' : list A) :
  keptBy P l kept -> keptBy P l kept' -> kept = kept'.
Proof.
  intros H. revert kept'.
  induction H as [|x l kept Hx _ IH|x l kept Hx _ IH]; intros kept' H';
    inversion H'; subst; try contradiction; [reflexivity | f_equal; auto | auto].
Qed.

(** C4: in the replay revision an assistant message compiles to its tool
    history followed by the assistant message itself (left out when it has
    no part and there is a history).  The history is at most one
    assistant message, holding one tool-call part for each recorded
    response that was not executed by the provider and for no other, then
    at most one tool-role message, holding one tool-result part for each
    of those responses whose status is [done], [error] or [cancelled] and
    for no other; a result is tagged as an error text for [error] and
    [cancelled], and its value is the text [cancelled] for a cancelled
    response that recorded nothing.  There is no tool-role message
    without the assistant message of the calls. *)
Theorem replay_groups_calls_then_results (E : Env) (message : Message)
    (isVision : bool) (model : option Model) (w : World) :
  msg_role message = assistant ->
  exists client terminal calls results own,
    let history := messageIfAny assistant calls ++ messageIfAny tool results in
    keptBy (fun tr => ~ providerExecuted tr)
      (omap rawMcpToolResponse (findToolBlocks E message)) client
    /\ keptBy terminalStatus client terminal
    /\ Replay.buildToolHistoryMessages E (findToolBlocks E message) = history
    /\ Forall2 callPartOf client calls
    /\ Forall2 replayResultPartOf terminal results
    /\ (calls = [] -> results = [])
    /\ Replay.convertMessageToSdkParam E message isVision model w
       = (Ok (match history with
              | [] => One (mkModelMessage assistant (ContentParts own))
              | _ => Many (history ++ messageIfAny assistant own)
              end), w).
Proof.
  intros Hrole.
  set (client := clientResponses (findToolBlocks E message)).
  exists client, (List.filter Replay.isTerminal client),
         (List.map (Replay.toolCallPartOf E) client),
         (List.map Replay.toolResultPartOf (List.filter Replay.isTerminal client)),
         (Common.assistantFileLoop E model (findFileBlocks E message)
            ((if JS.truthy_string (getMainTextContent E message)
              then [PText (getMainTextContent E message)] else [])
               ++ Common.thinkingParts (findThinkingBlocks E message))).
  cbv zeta. split; [apply keptBy_filter, notProvider_spec|].
  split; [apply keptBy_filter, isTerminal_spec|].
  split; [apply buildToolHistoryMessages_shape|]. split.
  { induction client as [|tr rest IH]; constructor; [|exact IH].
    eexists; reflexivity. }
  split.
  { induction (List.filter Replay.isTerminal client) as [|tr rest IH]; constructor;
      [apply toolResultPartOf_spec | exact IH]. }
  split.
  { destruct client; [reflexivity | discriminate]. }
  unfold Replay.convertMessageToSdkParam, Replay.convertMessageToAssistantModelMessage.
  rewrite Hrole, buildToolHistoryMessages_shape. fold client.
  destruct (messageIfAny assistant (List.map (Replay.toolCallPartOf E) client)
            ++ messageIfAny tool
                 (List.map Replay.toolResultPartOf (List.filter Replay.isTerminal client)))
    as [|h hs]; [reflexivity|].
  destruct (Common.assistantFileLoop E model (findFileBlocks E message) _) as [|p ps];
    cbn [messageIfAny]; [now rewrite app_nil_r | reflexivity].
Qed.

Lemma replay_groups_calls_then_results_witness :
  exists client terminal calls results own,
    keptBy (fun tr => ~ providerExecuted tr)
      (omap rawMcpToolResponse Fixtures.replayBlocks) client
    /\ keptBy terminalStatus client terminal
    /\ Replay.buildToolHistoryMessages (Fixtures.env (Fixtures.toolStore Fixtures.replayBlocks))
         Fixtures.replayBlocks
       = messageIfAny assistant calls ++ messageIfAny tool results
    /\ Forall2 callPartOf client calls
    /\ Forall2 replayResultPartOf terminal results
    /\ (calls = [] -> results = [])
    /\ Replay.convertMessageToSdkParam (Fixtures.env (Fixtures.toolStore Fixtures.replayBlocks))
         Fixtures.msg1 false None Fixtures.world0
       = (Ok (match messageIfAny assistant calls ++ messageIfAny tool results with
              | [] => One (mkModelMessage assistant (ContentParts own))
              | _ => Many ((messageIfAny assistant calls ++ messageIfAny tool results)
                             ++ messageIfAny assistant own)
              end), Fixtures.world0).
Proof.
  exact (replay_groups_calls_then_results
           (Fixtures.env (Fixtures.toolStore Fixtures.replayBlocks))
           Fixtures.msg1 false None Fixtures.world0 eq_refl).
Defined.

Example replay_example :
  fst (Replay.convertMessageToSdkParam (Fixtures.env (Fixtures.toolStore Fixtures.replayBlocks))
         Fixtures.msg1 false None Fixtures.world0)
  = Ok (Many
          [ mkModelMessage assistant
              (ContentParts
                 [ PToolCall (Some "call_1") (Some "search") (JS.Obj []);
                   PToolCall (Some "tc_3") (Some "fetch") (JS.Obj [("url", JS.Str "x")]);
                   PToolCall (Some "call_4") (Some "search") (JS.Str "not json") ]);
            mkModelMessage tool
              (ContentParts
                 [ PToolResult (Some "call_1") (Some "search")
                     (TaggedOutput tag_text (JS.Str "found"));
                   PToolResult (Some "tc_3") (Some "fetch")
                     (TaggedOutput tag_error_text (JS.Str "cancelled")) ]) ]).
Proof. reflexivity. Qed.

(** ** Exceptions of the image materializer *)

(** C7, the defect: an image block whose URL starts with [data:] but has
    no [;base64,] payload makes the materializer raise a [TypeError]
    (the non-null assertion on the first pattern's match), and the
    exception aborts the compilation of the conversation; the claim asks
    for the block to be dropped or converted, never for an exception.  The
    other cases of the claim hold ([convertImageBlock_unreadable],
    [convertImageBlock_data_url], [convertImageBlock_remote_url],
    [convertImageBlock_at_most_one]). *)
Theorem image_materializer_raises_on_data_url_without_base64 :
  let E := Fixtures.env Fixtures.conversation in
  fst (Common.convertImageBlockToImagePart E [Fixtures.badDataUrl] Fixtures.world0)
  = Throw (TypeError "Cannot read properties of null (reading '1')")
  /\ fst (Inline.convertMessagesToSdkMessages E [Fixtures.msgD] Fixtures.gpt4o Fixtures.world0)
     = Throw (TypeError "Cannot read properties of null (reading '1')").
Proof. split; reflexivity. Qed.

Example image_materializer_example :
  let E := Fixtures.env Fixtures.conversation in
  let r := Common.convertImageBlockToImagePart E
             [ Fixtures.localImage; Fixtures.missingImage; Fixtures.goodDataUrl;
               Fixtures.noMimeDataUrl; Fixtures.remoteUrl; mkImageBlock None None ]
             Fixtures.world0 in
  fst r = Ok [ PImage "iVBORw0KGgo=" (Some "image/png");
               PImage "AAAA" (Some "image/jpeg");
               PImage "AAAA" (Some "image/png");
               PImage "https://example.com/cat.png" None ]
  /\ logs (snd r) = [Warn "Failed to load image:"].
Proof. split; reflexivity. Qed.

(** ** The image-enhancement override *)

Section Enhancement.
Context (E : Env).

(** The compiled messages end with the assistant message and the user
    message, in part-list form: the override returns them, the user
    message with the image parts of the source assistant message appended,
    after the first system message when there is one. *)
Lemma enhancementOverride_pair messages init a u sdkInit assistantSdk userParts imageParts w w' :
  messages = init ++ [a; u] ->
  msg_role a = assistant ->
  role assistantSdk = assistant ->
  Common.convertImageBlockToImagePart E (findImageBlocks E a) w = (Ok imageParts, w') ->
  Common.enhancementOverride E messages
    (sdkInit ++ [assistantSdk; mkModelMessage user (ContentParts userParts)]) w
  = (Ok (firstSystem sdkInit
           ++ [ Some assistantSdk;
                Some (mkModelMessage user (ContentParts (userParts ++ imageParts))) ]), w').
Proof.
  intros -> Ha Hsdk Himg.
  unfold Common.enhancementOverride, Common.lastTwo.
  rewrite !length_app. cbn [length].
  replace (length init + 2 - 2) with (length init) by lia.
  replace (length sdkInit + 2 - 2) with (length sdkInit) by lia.
  rewrite !List.skipn_app, !Nat.sub_diag, !List.skipn_all. cbn [app List.skipn].
  cbn [List.find Common.firstWithRole]. rewrite Ha, Hsdk. cbn [Role_eqb].
  cbn [role]. destruct (role assistantSdk) eqn:Hr; try discriminate. cbn [Role_eqb].
  rewrite bind_run. cbn [ret]. rewrite bind_run, Himg. cbn [mcontent role].
  rewrite List.filter_app. cbn [List.filter role Role_eqb]. rewrite Hr. cbn [Role_eqb].
  rewrite app_nil_r. unfold firstSystem.
  destruct (List.filter (fun m => Role_eqb (role m) system) sdkInit); reflexivity.
Qed.

(** The defect behind C6: when the compiled messages end with the two
    messages of a handle split, the last two of them hold no assistant
    message, and the override returns an undefined element in its place. *)
Lemma enhancementOverride_after_split messages init a u sdkInit handle userContent
    imageParts w w' :
  messages = init ++ [a; u] ->
  msg_role a = assistant ->
  Common.convertImageBlockToImagePart E (findImageBlocks E a) w = (Ok imageParts, w') ->
  exists sys userSdk,
    Common.enhancementOverride E messages
      (sdkInit ++ [ mkModelMessage system (ContentString handle);
                    mkModelMessage user userContent ]) w
    = (Ok [Some sys; None; Some userSdk], w').
Proof.
  intros -> Ha Himg.
  unfold Common.enhancementOverride, Common.lastTwo.
  rewrite !length_app. cbn [length].
  replace (length init + 2 - 2) with (length init) by lia.
  replace (length sdkInit + 2 - 2) with (length sdkInit) by lia.
  rewrite !List.skipn_app, !Nat.sub_diag, !List.skipn_all. cbn [app List.skipn].
  cbn [List.find Common.firstWithRole]. rewrite Ha. cbn [Role_eqb role].
  rewrite bind_run. cbn [ret]. rewrite bind_run, Himg. cbn [mcontent role].
  rewrite List.filter_app. cbn [List.filter role Role_eqb].
  destruct (List.filter (fun m => Role_eqb (role m) system) sdkInit) as [|s ss];
    cbn [app]; eexists _, _; reflexivity.
Qed.

(** The loop over the messages appends to the compiled messages it is
    given. *)
Lemma convertAll_acc convert messages isVision model : forall sdk w,
  Common.convertAll convert messages isVision model sdk w
  = match Common.convertAll convert messages isVision model [] w with
    | (Ok compiled, w') => (Ok (sdk ++ compiled), w')
    | (Throw e, w') => (Throw e, w')
    end.
Proof.
  induction messages as [|message rest IH]; intros sdk w; cbn.
  - now rewrite app_nil_r.
  - rewrite !bind_run.
    destruct (convert message isVision (Some model) w) as [[r|e] w1]; [|reflexivity].
    rewrite (IH (sdk ++ toArray r)), (IH ([] ++ toArray r)).
    destruct (Common.convertAll convert rest isVision model [] w1) as [[c|e] w2];
      [now rewrite app_assoc | reflexivity].
Qed.

Lemma convertAll_app convert init rest isVision model : forall sdk w,
  Common.convertAll convert (init ++ rest) isVision model sdk w
  = match Common.convertAll convert init isVision model sdk w with
    | (Ok compiled, w') => Common.convertAll convert rest isVision model compiled w'
    | (Throw e, w') => (Throw e, w')
    end.
Proof.
  induction init as [|message init IH]; intros sdk w; cbn; [reflexivity|].
  rewrite !bind_run.
  destruct (convert message isVision (Some model) w) as [[r|e] w1]; [apply IH | reflexivity].
Qed.

(** In [messageConverter.ts] an assistant message compiles to one
    assistant message and leaves the world as it is. *)
Lemma inline_assistant_One message isVision model w :
  msg_role message = assistant ->
  exists parts,
    Inline.convertMessageToSdkParam E message isVision model w
    = (Ok (One (mkModelMessage assistant (ContentParts parts))), w).
Proof.
  intros Hrole.
  unfold Inline.convertMessageToSdkParam, Inline.convertMessageToAssistantAndToolMessages.
  rewrite Hrole. destruct (findToolBlocks E message); eexists; reflexivity.
Qed.

(** C6 without its defect: when the final user message has no file that
    becomes a handle, and no exception is raised, the output for an
    image-enhancement model is the first compiled system message, if any,
    the compiled assistant message, and the user message with its own
    parts followed by the image parts of the assistant message. *)
Lemma enhancement_pair_without_split init a u model w sdkInit w1 userImages assistantImages :
  isImageEnhancementModel E model = true ->
  init <> [] ->
  msg_role a = assistant ->
  msg_role u = user ->
  Common.convertAll (Inline.convertMessageToSdkParam E) init (isVisionModel E model)
    model [] w = (Ok sdkInit, w1) ->
  fst (visionImageParts E (isVisionModel E model) (findImageBlocks E u) w)
  = Ok userImages ->
  Forall (fun b => nativeHandle E model b = None) (findFileBlocks E u) ->
  fst (Common.convertImageBlockToImagePart E (findImageBlocks E a) w) = Ok assistantImages ->
  exists assistantSdk,
    Inline.convertMessageToSdkParam E a (isVisionModel E model) (Some model) w1
    = (Ok (One assistantSdk), w1)
    /\ role assistantSdk = assistant
    /\ fst (Inline.convertMessagesToSdkMessages E (init ++ [a; u]) model w)
       = Ok (firstSystem sdkInit
               ++ [ Some assistantSdk;
                    Some (mkModelMessage user
                            (ContentParts
                               ((textPartOf (getMainTextContent E u) ++ userImages
                                   ++ flat_map (filePartsOf E model) (findFileBlocks E u))
                                  ++ assistantImages))) ]).
Proof.
  intros Henh Hinit Ha Hu Hcompiled Himg Hfiles Haimg.
  destruct (inline_assistant_One a (isVisionModel E model) (Some model) w1 Ha)
    as (aparts & Hasdk).
  exists (mkModelMessage assistant (ContentParts aparts)).
  split; [exact Hasdk|]. split; [reflexivity|].
  assert (exists w1', visionImageParts E (isVisionModel E model) (findImageBlocks E u) w1
                      = (Ok userImages, w1')) as (w1' & Himg').
  { revert Himg. unfold visionImageParts. destruct (isVisionModel E model).
    - apply convertImageBlockToImagePart_world.
    - cbn. intros H; inversion H; subst. eauto. }
  destruct (userFileLoop_no_handle E model (findFileBlocks E u)
              (textPartOf (getMainTextContent E u) ++ userImages) w1' Hfiles)
    as (w2 & Hloop).
  assert (Inline.convertMessageToSdkParam E u (isVisionModel E model) (Some model) w1
          = (Ok (One (mkModelMessage user
                        (ContentParts
                           (textPartOf (getMainTextContent E u) ++ userImages
                              ++ flat_map (filePartsOf E model) (findFileBlocks E u))))), w2))
    as Husdk.
  { unfold Inline.convertMessageToSdkParam. rewrite Hu.
    rewrite convertMessageToUserModelMessage_unfold, Himg', Hloop.
    now rewrite <- app_assoc. }
  destruct (convertImageBlockToImagePart_world E (findImageBlocks E a) w2 w _ Haimg)
    as (w3 & Himgs).
  unfold Inline.convertMessagesToSdkMessages, Common.convertMessagesToSdkMessages_with.
  rewrite bind_run, convertAll_app, Hcompiled.
  cbn [Common.convertAll]. rewrite bind_run, Hasdk, bind_run, Husdk. cbn [ret toArray].
  rewrite Henh, length_app. cbn [length andb].
  assert ((3 <=? length init + 2)%nat = true) as ->.
  { apply Nat.leb_le. destruct init; [congruence | cbn; lia]. }
  rewrite <- app_assoc. cbn [app].
  rewrite (enhancementOverride_pair (init ++ [a; u]) init a u sdkInit
             (mkModelMessage assistant (ContentParts aparts)) _ assistantImages w2 w3
             eq_refl Ha eq_refl Himgs).
  reflexivity.
Qed.

End Enhancement.

(** C6, the defect: for an image-enhancement model and the three messages
    user, assistant (two images), user (a text and a file that the
    provider answers with a handle), the final user message compiles to
    the two messages of the handle split, the last two compiled messages
    are then the system and the user message, and the output holds an
    undefined element where the claim (and the function's own
    documentation) has the compiled assistant message.  Without the split
    the output is as claimed ([enhancementOverride_pair],
    [enhancement_example]). *)
Theorem enhancement_loses_assistant_after_handle_split :
  let E := Fixtures.env Fixtures.conversation in
  fst (Inline.convertMessagesToSdkMessages E
         [Fixtures.msgA; Fixtures.msgB; Fixtures.msgF] Fixtures.imageEdit Fixtures.world0)
  = Ok [ Some (mkModelMessage system (ContentString "fileid://file-42"));
         None;
         Some (mkModelMessage user
                 (ContentParts [ PText EmptyString;
                                 PImage "AAAA" (Some "image/jpeg");
                                 PImage "https://example.com/cat.png" None ])) ].
Proof. reflexivity. Qed.

Example enhancement_example :
  let E := Fixtures.env Fixtures.conversation in
  fst (Inline.convertMessagesToSdkMessages E
         [Fixtures.msgA; Fixtures.msgB; Fixtures.msgE] Fixtures.imageEdit Fixtures.world0)
  = Ok [ Some (mkModelMessage assistant (ContentParts []));
         Some (mkModelMessage user
                 (ContentParts [ PText "make it blue";
                                 PImage "AAAA" (Some "image/jpeg");
                                 PImage "https://example.com/cat.png" None ])) ].
Proof. reflexivity. Qed.

(** * Further properties *)

(** ** The user path *)

Lemma withLogs_nil w : withLogs w [] = w.
Proof. destruct w. unfold withLogs. cbn. now rewrite app_nil_r. Qed.

Lemma withLogs_app w l1 l2 : withLogs (withLogs w l1) l2 = withLogs w (l1 ++ l2).
Proof. unfold withLogs. cbn. now rewrite app_assoc. Qed.

Section UserPathMore.
Context (E : Env).

(** Without a handle the loop over the file blocks returns one user
    message: each block adds its parts and writes one diagnostic. *)
Lemma userFileLoop_returns model fileBlocks : forall parts w,
  noHandle E model fileBlocks ->
  Common.userFileLoop E model fileBlocks parts w
  = (Ok (One (mkModelMessage user
                (ContentParts (parts ++ flat_map (filePartsWith E model) fileBlocks)))),
     withLogs w (List.map (userFileLog E model) fileBlocks)).
Proof.
  induction fileBlocks as [|b rest IH]; intros parts w Hno.
  - cbn. now rewrite app_nil_r, withLogs_nil.
  - cbn [Common.userFileLoop flat_map List.map].
    unfold filePartsWith at 1, userFileLog at 1, filePartsOf, textFallbackOf,
      Common.userTextFallback.
    destruct model as [m|].
    + cbn in Hno. inversion Hno as [|? ? Hb Hrest]; subst.
      unfold nativeHandle in Hb.
      destruct (convertFileBlockToFilePart E b m) as [fp|].
      * rewrite Hb, bind_run. cbn [log]. rewrite IH by exact Hrest.
        unfold withLogs. cbn. now rewrite <- !app_assoc.
      * destruct (convertFileBlockToTextPart E b) as [text|]; rewrite !bind_run;
          cbn [log ret]; rewrite IH by exact Hrest;
          unfold withLogs; cbn; now rewrite <- ?app_assoc.
    + destruct (convertFileBlockToTextPart E b) as [text|]; rewrite !bind_run;
        cbn [log ret]; rewrite IH by exact I;
        unfold withLogs; cbn; now rewrite <- ?app_assoc.
Qed.

(** The loop over the file blocks never raises and never touches the id
    cache; it returns one user message, or a handle message and a user
    message; the parts of the user message are the parts it was given
    followed by file and text parts. *)
Lemma userFileLoop_shape model fileBlocks : forall parts w,
  exists added r w',
    Common.userFileLoop E model fileBlocks parts w = (Ok r, w')
    /\ toolCallIdCache w' = toolCallIdCache w
    /\ generated w' = generated w
    /\ Forall fileOrText added
    /\ userPathResult (parts ++ added) r.
Proof.
  induction fileBlocks as [|b rest IH]; intros parts w.
  - exists [], (One (mkModelMessage user (ContentParts parts))), w.
    rewrite app_nil_r. repeat split; [constructor | now left].
  - cbn [Common.userFileLoop].
    assert (forall p w0, fileOrText p ->
              toolCallIdCache w0 = toolCallIdCache w -> generated w0 = generated w ->
              exists added r w',
                Common.userFileLoop E model rest (parts ++ [p]) w0 = (Ok r, w')
                /\ toolCallIdCache w' = toolCallIdCache w
                /\ generated w' = generated w
                /\ Forall fileOrText added
                /\ userPathResult (parts ++ added) r) as Hpush.
    { intros p w0 Hp Hc Hg.
      destruct (IH (parts ++ [p]) w0) as (added & r & w' & Hrun & Hc' & Hg' & Hall & Hr).
      exists (p :: added), r, w'. rewrite <- app_assoc in Hr.
      repeat split; [exact Hrun | congruence | congruence | constructor; assumption | exact Hr]. }
    assert (exists added r w',
              (let! parts' := Common.userTextFallback E b parts in
               Common.userFileLoop E model rest parts') w = (Ok r, w')
              /\ toolCallIdCache w' = toolCallIdCache w
              /\ generated w' = generated w
              /\ Forall fileOrText added
              /\ userPathResult (parts ++ added) r) as Hfallback.
    { unfold Common.userTextFallback.
      destruct (convertFileBlockToTextPart E b) as [text|]; rewrite !bind_run; cbn [log ret].
      - apply Hpush; [exact I | reflexivity | reflexivity].
      - destruct (IH parts (withLogs w [Warn ("File " +:+ origin_name (fb_file b)
                                                +:+ " could not be processed in any format")]))
          as (added & r & w' & Hrun & Hc' & Hg' & Hall & Hr).
        exists added, r, w'. repeat split; assumption. }
    destruct model as [m|]; [|exact Hfallback].
    destruct (convertFileBlockToFilePart E b m) as [fp|] eqn:Hfp; [|exact Hfallback].
    unfold Common.is_file_handle.
    assert (exists added r w',
              (do! log (Debug ("File " +:+ origin_name (fb_file b)
                                 +:+ " processed as native file format")) in
               Common.userFileLoop E (Some m) rest (parts ++ [PFile fp])) w = (Ok r, w')
              /\ toolCallIdCache w' = toolCallIdCache w
              /\ generated w' = generated w
              /\ Forall fileOrText added
              /\ userPathResult (parts ++ added) r) as Hnative.
    { rewrite bind_run. cbn [log]. apply Hpush; [exact I | reflexivity | reflexivity]. }
    destruct (data fp) as [s|bytes]; [|exact Hnative].
    destruct (JS.startsWith s "fileid://") eqn:Hs; [|exact Hnative].
    eexists [], _, w. split; [reflexivity|]. rewrite app_nil_r.
    repeat split; [constructor|]. right. exists s. split; [exact Hs | reflexivity].
Qed.

End UserPathMore.

(** ** The image materializer, block by block *)

Section ImageMaterializerMore.
Context (E : Env).

Lemma convertImageBlock_materializable imageBlock parts w :
  materializable imageBlock ->
  Common.convertImageBlock E imageBlock parts w
  = (Ok (parts ++ imagePartsOf E imageBlock), withLogs w (imageWarningsOf E imageBlock)).
Proof.
  unfold materializable, Common.convertImageBlock, imagePartsOf, imageWarningsOf.
  intros Hm. destruct (img_file imageBlock) as [file|].
  - destruct (File_load E (path file)) as [[base64 type]|]; cbn;
      rewrite ?app_nil_r, ?withLogs_nil; reflexivity.
  - specialize (Hm eq_refl). destruct (img_url imageBlock) as [url|];
      [|now rewrite app_nil_r, withLogs_nil].
    specialize (Hm url eq_refl).
    destruct (JS.truthy_string url); [|now rewrite app_nil_r, withLogs_nil].
    destruct (JS.startsWith url "data:"); [|now rewrite withLogs_nil].
    specialize (Hm eq_refl).
    destruct (match_base64 url); [now rewrite withLogs_nil | congruence].
Qed.

Lemma convertImageBlockToImagePart_from_materializable imageBlocks : forall parts w,
  Forall materializable imageBlocks ->
  Common.convertImageBlockToImagePart_from E imageBlocks parts w
  = (Ok (parts ++ flat_map (imagePartsOf E) imageBlocks),
     withLogs w (flat_map (imageWarningsOf E) imageBlocks)).
Proof.
  induction imageBlocks as [|b rest IH]; intros parts w Hall; cbn.
  - now rewrite app_nil_r, withLogs_nil.
  - inversion Hall as [|? ? Hb Hrest]; subst.
    rewrite bind_run, (convertImageBlock_materializable b parts w Hb), IH by exact Hrest.
    now rewrite <- app_assoc, withLogs_app.
Qed.

(** The materializer writes diagnostics and nothing else: the id cache
    and the count of generated ids are as before, also when it raises. *)
Lemma convertImageBlockToImagePart_from_frame imageBlocks : forall parts w r w',
  Common.convertImageBlockToImagePart_from E imageBlocks parts w = (r, w') ->
  toolCallIdCache w' = toolCallIdCache w /\ generated w' = generated w.
Proof.
  induction imageBlocks as [|b rest IH]; intros parts w r w'; cbn.
  - intros H; inversion H; subst. split; reflexivity.
  - rewrite bind_run.
    destruct (Common.convertImageBlock E b parts w) as [[ps|e] w1] eqn:Hb.
    + intros Hrun. apply IH in Hrun. destruct Hrun as [Hc Hg].
      revert Hb. unfold Common.convertImageBlock.
      repeat (match goal with
              | |- context [match ?x with _ => _ end] => destruct x
              end; cbn);
        intros H; inversion H; subst; cbn in *; split; congruence.
    + intros H; inversion H; subst. revert Hb. unfold Common.convertImageBlock.
      repeat (match goal with
              | |- context [match ?x with _ => _ end] => destruct x
              end; cbn);
        intros H'; inversion H'; subst; split; reflexivity.
Qed.

Lemma strip_prefix_app p s : strip_prefix p (p +:+ s) = Some s.
Proof.
  induction p as [|c p IH]; [reflexivity|].
  change (String c p +:+ s) with (String c (p +:+ s)). cbn [strip_prefix].
  now rewrite Ascii.eqb_refl.
Qed.

Lemma span_not_semicolon_app mime rest :
  no_semicolon mime = true ->
  span_not_semicolon (mime +:+ String ";" rest) = (mime, String ";" rest).
Proof.
  induction mime as [|c mime IH]; [reflexivity|].
  change (String c mime +:+ String ";" rest) with (String c (mime +:+ String ";" rest)).
  cbn [span_not_semicolon no_semicolon].
  intros H. apply andb_true_iff in H. destruct H as [Hc Hm].
  apply negb_true_iff in Hc. rewrite Hc, (IH Hm). reflexivity.
Qed.

Lemma match_base64_dataUrl mime payload :
  no_semicolon mime = true ->
  payload <> EmptyString ->
  has_line_terminator payload = false ->
  match_base64 (dataUrl mime payload) = Some payload.
Proof.
  intros Hm Hp Hl. unfold match_base64, dataUrl.
  rewrite strip_prefix_app.
  change (";base64," +:+ payload) with (String ";" ("base64," +:+ payload)).
  rewrite (span_not_semicolon_app mime _ Hm). cbn [snd].
  change (String ";" ("base64," +:+ payload)) with (";base64," +:+ payload).
  rewrite strip_prefix_app, Hl.
  destruct payload; [congruence | reflexivity].
Qed.

Lemma match_mime_dataUrl mime payload :
  no_semicolon mime = true ->
  match_mime (dataUrl mime payload)
  = if JS.truthy_string mime then Some mime else None.
Proof.
  intros Hm. unfold match_mime, dataUrl.
  rewrite strip_prefix_app.
  change (";base64," +:+ payload) with (String ";" ("base64," +:+ payload)).
  now rewrite (span_not_semicolon_app mime _ Hm).
Qed.

Lemma prefix_app p s : String.prefix p (p +:+ s) = true.
Proof.
  induction p as [|c p IH]; [destruct s; reflexivity|].
  change (String c p +:+ s) with (String c (p +:+ s)). cbn [String.prefix].
  destruct (ascii_dec c c) as [_|Hne]; [exact IH | now destruct Hne].
Qed.

Lemma startsWith_dataUrl mime payload :
  JS.startsWith (dataUrl mime payload) "data:" = true.
Proof. apply prefix_app. Qed.

End ImageMaterializerMore.

(** X1: when every image block is materializable (it has a file, or a
    URL that is no data URL, or a data URL with a base64 payload), the
    materializer returns, in block order, the part of each block that has
    one: a readable file, a data URL, any other non-empty URL; it writes
    one warning for each file that cannot be read and changes nothing
    else. *)
Theorem image_materializer_block_by_block (E : Env)
    (imageBlocks : list ImageMessageBlock) (w : World) :
  Forall materializable imageBlocks ->
  Common.convertImageBlockToImagePart E imageBlocks w
  = (Ok (flat_map (imagePartsOf E) imageBlocks),
     withLogs w (flat_map (imageWarningsOf E) imageBlocks)).
Proof.
  intros Hall. unfold Common.convertImageBlockToImagePart.
  now rewrite convertImageBlockToImagePart_from_materializable.
Qed.

Lemma image_materializer_block_by_block_witness :
  Common.convertImageBlockToImagePart (Fixtures.env Fixtures.conversation)
    [Fixtures.missingImage; Fixtures.localImage; Fixtures.remoteUrl] Fixtures.world0
  = (Ok [PImage "iVBORw0KGgo=" (Some "image/png");
         PImage "https://example.com/cat.png" None],
     withLogs Fixtures.world0 [Warn "Failed to load image:"]).
Proof.
  apply (image_materializer_block_by_block (Fixtures.env Fixtures.conversation)
           [Fixtures.missingImage; Fixtures.localImage; Fixtures.remoteUrl]
           Fixtures.world0).
  repeat constructor; intros Hf; try discriminate Hf;
    intros url Hu Hd; inversion Hu; subst; discriminate Hd.
Defined.

(** X2: a data URL built from a mime segment without [;] and a non-empty
    base64 payload without line terminator gives back exactly that
    payload as the image and that mime segment as the media type, or
    [image/png] when the mime segment is empty. *)
Theorem data_url_round_trip (E : Env) (mime payload : string) (w : World) :
  no_semicolon mime = true ->
  payload <> EmptyString ->
  has_line_terminator payload = false ->
  Common.convertImageBlockToImagePart E
    [mkImageBlock None (Some (dataUrl mime payload))] w
  = (Ok [PImage payload
           (Some (if JS.truthy_string mime then mime else "image/png"))], w).
Proof.
  intros Hm Hp Hl. unfold Common.convertImageBlockToImagePart.
  cbn [Common.convertImageBlockToImagePart_from]. rewrite bind_run.
  rewrite (convertImageBlock_data_url E
             (mkImageBlock None (Some (dataUrl mime payload)))
             (dataUrl mime payload) payload [] w
             eq_refl eq_refl (startsWith_dataUrl mime payload)
             (match_base64_dataUrl mime payload Hm Hp Hl)).
  rewrite (match_mime_dataUrl mime payload Hm).
  destruct (JS.truthy_string mime); reflexivity.
Qed.

Lemma data_url_round_trip_witness :
  Common.convertImageBlockToImagePart (Fixtures.env Fixtures.conversation)
    [mkImageBlock None (Some (dataUrl "image/webp" "UklGRg=="))] Fixtures.world0
  = (Ok [PImage "UklGRg==" (Some "image/webp")], Fixtures.world0).
Proof.
  apply (data_url_round_trip (Fixtures.env Fixtures.conversation)
           "image/webp" "UklGRg==" Fixtures.world0);
    [reflexivity | discriminate | reflexivity].
Defined.

(** ** The user path, as a whole *)

(** X3: a user-role or system-role message whose file blocks are not
    answered with a handle (always so when no model is given: the native
    conversion is then not tried at all) compiles, once its image parts
    are materialized, to exactly one user-role message.  Its parts are the
    text if not empty, the image parts, then for each file block in order
    the native file part, else the extracted text, else nothing; one
    diagnostic is written for each file block. *)
Theorem user_message_without_handle (E : Env) (message : Message) (isVision : bool)
    (model : option Model) (w w1 : World) (imageParts : list Part) :
  msg_role message = user \/ msg_role message = system ->
  visionImageParts E isVision (findImageBlocks E message) w = (Ok imageParts, w1) ->
  noHandle E model (findFileBlocks E message) ->
  Inline.convertMessageToSdkParam E message isVision model w
  = (Ok (One (mkModelMessage user
                (ContentParts
                   (textPartOf (getMainTextContent E message) ++ imageParts
                      ++ flat_map (filePartsWith E model) (findFileBlocks E message))))),
     withLogs w1 (List.map (userFileLog E model) (findFileBlocks E message))).
Proof.
  intros Hrole Himg Hno.
  assert (Inline.convertMessageToSdkParam E message isVision model w
          = Common.convertMessageToUserModelMessage E (getMainTextContent E message)
              (findFileBlocks E message) (findImageBlocks E message) isVision model w)
    as -> by (unfold Inline.convertMessageToSdkParam; destruct Hrole as [-> | ->]; reflexivity).
  rewrite convertMessageToUserModelMessage_unfold, Himg.
  rewrite (userFileLoop_returns E model _ _ w1 Hno).
  now rewrite <- app_assoc.
Qed.

Lemma user_message_without_handle_witness :
  Inline.convertMessageToSdkParam (Fixtures.env Fixtures.conversation) Fixtures.msgC
    false None Fixtures.world0
  = (Ok (One (mkModelMessage user
                (ContentParts [PText "make it blue"; PText "extracted notes"]))),
     withLogs Fixtures.world0
       [ Debug "File notes.txt processed as text content";
         Warn "File report.pdf could not be processed in any format" ]).
Proof.
  apply (user_message_without_handle (Fixtures.env Fixtures.conversation) Fixtures.msgC
           false None Fixtures.world0 Fixtures.world0 []);
    [left; reflexivity | reflexivity | exact I].
Defined.

(** X4: the user path raises only when the image materializer raises,
    with the same exception.  Otherwise it returns either one user-role
    message or a handle message (role system, content starting with
    [fileid://]) followed by one user-role message; the parts of the user
    message are the text, the image parts, then file parts and extracted
    texts only; the id cache is left as it was.  So the text of a
    system-role source message is sent in a user-role message. *)
Theorem user_path_outcome (E : Env) (message : Message) (isVision : bool)
    (model : option Model) (w : World) :
  msg_role message = user \/ msg_role message = system ->
  (exists e w1,
      visionImageParts E isVision (findImageBlocks E message) w = (Throw e, w1)
      /\ Inline.convertMessageToSdkParam E message isVision model w = (Throw e, w1))
  \/ (exists imageParts w1 added r w',
         visionImageParts E isVision (findImageBlocks E message) w = (Ok imageParts, w1)
         /\ Inline.convertMessageToSdkParam E message isVision model w = (Ok r, w')
         /\ Forall fileOrText added
         /\ userPathResult
              (textPartOf (getMainTextContent E message) ++ imageParts ++ added) r
         /\ toolCallIdCache w' = toolCallIdCache w
         /\ generated w' = generated w).
Proof.
  intros Hrole.
  assert (Inline.convertMessageToSdkParam E message isVision model w
          = Common.convertMessageToUserModelMessage E (getMainTextContent E message)
              (findFileBlocks E message) (findImageBlocks E message) isVision model w)
    as -> by (unfold Inline.convertMessageToSdkParam; destruct Hrole as [-> | ->]; reflexivity).
  rewrite convertMessageToUserModelMessage_unfold.
  destruct (visionImageParts E isVision (findImageBlocks E message) w)
    as [[imageParts|e] w1] eqn:Himg.
  - right.
    destruct (userFileLoop_shape E model (findFileBlocks E message)
                (textPartOf (getMainTextContent E message) ++ imageParts) w1)
      as (added & r & w' & Hrun & Hc & Hg & Hall & Hr).
    assert (toolCallIdCache w1 = toolCallIdCache w /\ generated w1 = generated w)
      as [Hc1 Hg1].
    { revert Himg. unfold visionImageParts, Common.convertImageBlockToImagePart.
      destruct isVision.
      - apply convertImageBlockToImagePart_from_frame.
      - intros H; inversion H; subst. split; reflexivity. }
    exists imageParts, w1, added, r, w'. rewrite <- app_assoc in Hr.
    repeat split; [exact Hrun | exact Hall | exact Hr | congruence | congruence].
  - left. exists e, w1. split; reflexivity.
Qed.

Lemma user_path_outcome_witness :
  exists r w',
    Inline.convertMessageToSdkParam (Fixtures.env Fixtures.conversation)
      (mkMessage "msg-d" system []) false (Some Fixtures.gpt4o) Fixtures.world0
    = (Ok r, w')
    /\ exists parts, userPathResult parts r.
Proof.
  destruct (user_path_outcome (Fixtures.env Fixtures.conversation)
              (mkMessage "msg-d" system []) false (Some Fixtures.gpt4o) Fixtures.world0
              (or_intror eq_refl))
    as [(e & w1 & Himg & _) | (imageParts & w1 & added & r & w' & _ & Hrun & _ & Hr & _)].
  - discriminate Himg.
  - exists r, w'. split; [exact Hrun | eexists; exact Hr].
Defined.

(** ** The assistant path *)

Lemma or_default_nonempty name fallback :
  fallback <> EmptyString -> or_default name fallback <> EmptyString.
Proof.
  intros Hf. unfold or_default. destruct name as [s|]; [|exact Hf].
  destruct s; [exact Hf | discriminate].
Qed.

Lemma resultsFollowCalls_no_result parts : forall prev,
  Forall (fun p => is_tool_result p = false) parts -> resultsFollowCalls prev parts.
Proof.
  induction parts as [|p rest IH]; intros prev Hall; cbn; [exact I|].
  inversion Hall as [|? ? Hp Hrest]; subst. split; [|apply IH, Hrest].
  destruct p; try exact I. discriminate Hp.
Qed.

Lemma resultsFollowCalls_app l1 : forall prev l2,
  resultsFollowCalls prev l1 ->
  (forall prev', resultsFollowCalls prev' l2) ->
  resultsFollowCalls prev (l1 ++ l2).
Proof.
  induction l1 as [|p rest IH]; intros prev l2 H1 H2; cbn; [apply H2|].
  destruct H1 as [Hp Hrest]. split; [exact Hp | apply IH; assumption].
Qed.

Lemma resultsFollowCalls_inline toolBlocks : forall prev,
  resultsFollowCalls prev (flat_map inlinePartsOf toolBlocks).
Proof.
  induction toolBlocks as [|b rest IH]; intros prev; cbn [flat_map]; [exact I|].
  unfold inlinePartsOf at 1. cbn [app]. split; [exact I|].
  destruct (Inline.hasToolResult b); cbn [app]; [|apply IH].
  split; [|apply IH].
  unfold Inline.convertToolBlockToToolResultPart, Inline.convertToolBlockToToolCallPart.
  eexists; reflexivity.
Qed.

Section AssistantPath.
Context (E : Env).

(** The file loop of the assistant path appends, block by block. *)
Lemma assistantFileLoop_flat model fileBlocks : forall parts,
  Common.assistantFileLoop E model fileBlocks parts
  = parts ++ flat_map (filePartsWith E model) fileBlocks.
Proof.
  induction fileBlocks as [|b rest IH]; intros parts; cbn [Common.assistantFileLoop flat_map].
  - now rewrite app_nil_r.
  - unfold filePartsWith at 1, filePartsOf, textFallbackOf.
    destruct model as [m|].
    + destruct (convertFileBlockToFilePart E b m) as [fp|];
        [|destruct (convertFileBlockToTextPart E b) as [text|]];
        rewrite IH, <- ?app_assoc; reflexivity.
    + destruct (convertFileBlockToTextPart E b) as [text|];
        rewrite IH, <- ?app_assoc; reflexivity.
Qed.

Lemma inline_toolLoop_flat toolBlocks : forall parts,
  Inline.toolLoop toolBlocks parts = parts ++ flat_map inlinePartsOf toolBlocks.
Proof.
  induction toolBlocks as [|b rest IH]; intros parts.
  - cbn. now rewrite app_nil_r.
  - rewrite inline_toolLoop_step, IH, <- app_assoc. reflexivity.
Qed.

Lemma fileParts_no_result model fileBlocks :
  Forall (fun p => is_tool_result p = false)
    (flat_map (filePartsWith E model) fileBlocks).
Proof.
  induction fileBlocks as [|b rest IH]; cbn [flat_map]; [constructor|].
  apply Forall_app. split; [|exact IH].
  unfold filePartsWith, filePartsOf, textFallbackOf.
  destruct model as [m|];
    repeat (match goal with
            | |- context [match ?x with _ => _ end] => destruct x
            end);
    repeat constructor.
Qed.

(** One-part revision: a block without content and with non-empty
    arguments gives its call part. *)
Lemma one_part_call toolBlock rest parts w :
  JS.is_nullish (content toolBlock) = true ->
  OnePart.hasArguments toolBlock = true ->
  exists i w',
    OnePart.getToolCallId E toolBlock w = (Ok i, w')
    /\ OnePart.toolPartLoop E (toolBlock :: rest) parts w
       = OnePart.toolPartLoop E rest
           (parts ++ [PToolCall (Some i)
                        (Some (or_default (toolName toolBlock) "unknown_tool"))
                        (match arguments toolBlock with
                         | Some fields => JS.Obj fields
                         | None => JS.Undefined
                         end)]) w'.
Proof.
  intros Hc Ha.
  destruct (getToolCallId_total E toolBlock w) as (i & w' & Hi).
  exists i, w'. split; [exact Hi|].
  cbn [OnePart.toolPartLoop]. unfold OnePart.convertToolBlockToToolPart.
  rewrite !bind_run, Hi, Hc, Ha. reflexivity.
Qed.

(** The loop over the tool blocks of the one-part revision returns,
    keeps what it was given, and adds the part of each block that has one,
    in block order; it writes no diagnostic. *)
Lemma toolPartLoop_spec toolBlocks : forall parts w,
  exists added w',
    OnePart.toolPartLoop E toolBlocks parts w = (Ok (parts ++ added), w')
    /\ Forall2 onePartOf (List.filter emitsPart toolBlocks) added
    /\ logs w' = logs w.
Proof.
  induction toolBlocks as [|b rest IH]; intros parts w.
  - exists [], w. cbn. rewrite app_nil_r. repeat split. constructor.
  - cbn [List.filter]. unfold emitsPart at 1.
    destruct (JS.is_nullish (content b)) eqn:Hn; cbn [negb orb].
    + destruct (OnePart.hasArguments b) eqn:Ha.
      * destruct (one_part_call b rest parts w Hn Ha) as (i & w1 & Hi & Hstep).
        destruct (IH (parts ++ [PToolCall (Some i)
                                  (Some (or_default (toolName b) "unknown_tool"))
                                  (match arguments b with
                                   | Some fields => JS.Obj fields
                                   | None => JS.Undefined
                                   end)]) w1) as (added & w' & Hrun & Hparts & Hlogs).
        eexists (_ :: added), w'. rewrite Hstep, Hrun, <- app_assoc.
        split; [reflexivity|]. split.
        -- constructor; [|exact Hparts]. exists i. now rewrite Hn.
        -- rewrite Hlogs. exact (getToolCallId_logs E _ _ _ _ Hi).
      * destruct (one_part_skips_empty_block E b rest parts w Hn Ha) as (w1 & Hp & Hstep).
        destruct (IH parts w1) as (added & w' & Hrun & Hparts & Hlogs).
        exists added, w'. rewrite Hstep. split; [exact Hrun|]. split; [exact Hparts|].
        rewrite Hlogs. revert Hp. unfold OnePart.convertToolBlockToToolPart.
        rewrite bind_run.
        destruct (OnePart.getToolCallId E b w) as [[i|e] w2] eqn:Hi; [|discriminate].
        rewrite Hn, Ha. intros H; inversion H; subst.
        exact (getToolCallId_logs E _ _ _ _ Hi).
    + destruct (one_part_result E b rest parts w Hn) as (i & w1 & Hi & _ & Hstep).
      destruct (IH (parts ++ [PToolResult (Some i)
                                (Some (or_default (toolName b) "unknown_tool"))
                                (BareOutput (OnePart.stringOrJSON (content b)))]) w1)
        as (added & w' & Hrun & Hparts & Hlogs).
      eexists (_ :: added), w'. rewrite Hstep, Hrun, <- app_assoc.
      split; [reflexivity|]. split.
      * constructor; [|exact Hparts]. exists i. now rewrite Hn.
      * rewrite Hlogs. exact (getToolCallId_logs E _ _ _ _ Hi).
Qed.

End AssistantPath.

(** X5: in [messageConverter.ts] a message whose role is assistant or
    tool compiles, without an exception and without any effect, to one
    assistant message.  Its parts are the text if not empty, one
    reasoning part for each thinking block, the parts of the file blocks
    (native first, a handle included, no split), then for each tool block
    its call part and, when the block has a content, its result part.
    Every tool-result part comes right after a tool-call part with the
    same id and name, and every tool part has a non-empty tool name. *)
Theorem inline_assistant_message (E : Env) (message : Message) (isVision : bool)
    (model : option Model) (w : World) :
  msg_role message = assistant \/ msg_role message = tool ->
  exists parts,
    Inline.convertMessageToSdkParam E message isVision model w
    = (Ok (One (mkModelMessage assistant (ContentParts parts))), w)
    /\ parts = textPartOf (getMainTextContent E message)
                 ++ List.map (fun b => PReasoning (thinking_content b))
                      (findThinkingBlocks E message)
                 ++ flat_map (filePartsWith E model) (findFileBlocks E message)
                 ++ flat_map inlinePartsOf (findToolBlocks E message)
    /\ resultsFollowCalls None parts
    /\ Forall namedToolPart (flat_map inlinePartsOf (findToolBlocks E message)).
Proof.
  intros Hrole. eexists. split; [|split; [reflexivity|split]].
  - unfold Inline.convertMessageToSdkParam, Inline.convertMessageToAssistantAndToolMessages.
    assert (Inline.toolLoop (findToolBlocks E message)
              (Common.assistantFileLoop E model (findFileBlocks E message)
                 ((if JS.truthy_string (getMainTextContent E message)
                   then [PText (getMainTextContent E message)] else [])
                    ++ Common.thinkingParts (findThinkingBlocks E message)))
            = textPartOf (getMainTextContent E message)
                ++ List.map (fun b => PReasoning (thinking_content b))
                     (findThinkingBlocks E message)
                ++ flat_map (filePartsWith E model) (findFileBlocks E message)
                ++ flat_map inlinePartsOf (findToolBlocks E message)) as Hparts.
    { rewrite inline_toolLoop_flat, assistantFileLoop_flat.
      unfold Common.thinkingParts, textPartOf. now rewrite <- !app_assoc. }
    destruct Hrole as [-> | ->]; destruct (findToolBlocks E message) eqn:Htools;
      rewrite <- ?Hparts; try reflexivity.
  - apply resultsFollowCalls_app; [|intros prev'].
    + apply resultsFollowCalls_no_result. unfold textPartOf.
      destruct (JS.truthy_string (getMainTextContent E message)); repeat constructor.
    + apply resultsFollowCalls_app; [|intros prev''].
      * apply resultsFollowCalls_no_result. apply Forall_map.
        apply List.Forall_forall. intros b _. reflexivity.
      * apply resultsFollowCalls_app; [|intros prev3; apply resultsFollowCalls_inline].
        apply resultsFollowCalls_no_result, fileParts_no_result.
  - induction (findToolBlocks E message) as [|b rest IH]; cbn [flat_map]; [constructor|].
    unfold inlinePartsOf at 1. cbn [app]. constructor.
    + eexists. split; [reflexivity | now apply or_default_nonempty].
    + destruct (Inline.hasToolResult b); cbn [app]; [constructor|]; [|exact IH|exact IH].
      eexists. split; [reflexivity | now apply or_default_nonempty].
Qed.

Lemma inline_assistant_message_witness :
  exists parts,
    Inline.convertMessageToSdkParam
      (Fixtures.env (Fixtures.toolStore
                       [ Fixtures.mockToolBlock (Some "call_1") (Some [("q", JS.Str "x")])
                           (JS.Str "found");
                         Fixtures.mockToolBlock (Some "call_2") None JS.Undefined ]))
      Fixtures.msg1 false None Fixtures.world0
    = (Ok (One (mkModelMessage assistant (ContentParts parts))), Fixtures.world0)
    /\ resultsFollowCalls None parts.
Proof.
  destruct (inline_assistant_message
              (Fixtures.env (Fixtures.toolStore
                               [ Fixtures.mockToolBlock (Some "call_1")
                                   (Some [("q", JS.Str "x")]) (JS.Str "found");
                                 Fixtures.mockToolBlock (Some "call_2") None JS.Undefined ]))
              Fixtures.msg1 false None Fixtures.world0 (or_introl eq_refl))
    as (parts & Hrun & _ & Hpairs & _).
  exists parts. split; [exact Hrun | exact Hpairs].
Defined.

(** X6: in the one-part revision an assistant message compiles, without
    an exception, to one assistant message whose parts are the text if not
    empty, one reasoning part for each thinking block, then the tool
    parts, then the parts of the file blocks.  The tool parts are, in
    block order, one part for each tool block that has a content or
    non-empty arguments (the result when it has a content, the call with
    the arguments as input otherwise) and none for the other blocks; each
    has an id and a non-empty tool name.  No diagnostic is written and no
    cache entry is lost. *)
Theorem one_part_assistant_message (E : Env) (message : Message) (isVision : bool)
    (model : option Model) (w : World) :
  msg_role message = assistant ->
  exists toolParts w',
    OnePart.convertMessageToSdkParam E message isVision model w
    = (Ok (One (mkModelMessage assistant
                  (ContentParts
                     (textPartOf (getMainTextContent E message)
                        ++ List.map (fun b => PReasoning (thinking_content b))
                             (findThinkingBlocks E message)
                        ++ toolParts
                        ++ flat_map (filePartsWith E model) (findFileBlocks E message))))),
       w')
    /\ Forall2 onePartOf (List.filter emitsPart (findToolBlocks E message)) toolParts
    /\ length toolParts <= length (findToolBlocks E message)
    /\ Forall (fun p => is_tool_part p = true /\ namedToolPart p
                        /\ exists i, partCallId p = Some i) toolParts
    /\ logs w' = logs w
    /\ cache_le w w'.
Proof.
  intros Hrole.
  destruct (toolPartLoop_spec E (findToolBlocks E message)
              (textPartOf (getMainTextContent E message)
                 ++ Common.thinkingParts (findThinkingBlocks E message)) w)
    as (toolParts & w' & Hrun & Hparts & Hlogs).
  exists toolParts, w'. split.
  { unfold OnePart.convertMessageToSdkParam, OnePart.convertMessageToAssistantModelMessage.
    rewrite Hrole, !bind_run. fold (textPartOf (getMainTextContent E message)).
    rewrite Hrun. cbn [ret]. rewrite assistantFileLoop_flat.
    unfold Common.thinkingParts. now rewrite <- !app_assoc. }
  split; [exact Hparts|]. split.
  { rewrite <- (Forall2_length _ _ _ Hparts). apply List.filter_length_le. }
  split.
  { clear Hrun Hlogs.
    induction Hparts as [|b p bs ps [i Hp] _ IH]; constructor; [|exact IH].
    subst p. destruct (negb (JS.is_nullish (content b))); cbn;
      (split; [reflexivity|]);
      (split; [eexists; split; [reflexivity | now apply or_default_nonempty] | eauto]). }
  split; [exact Hlogs|].
  exact (keeps_toolPartLoop E _ _ _ _ _ Hrun).
Qed.

Lemma one_part_assistant_message_witness :
  exists toolParts w',
    OnePart.convertMessageToSdkParam
      (Fixtures.env (Fixtures.toolStore
                       [ Fixtures.mockToolBlock None (Some [("q", JS.Str "x")]) JS.Undefined;
                         Fixtures.mockToolBlock (Some "call_2") None JS.Undefined ]))
      Fixtures.msg1 false None Fixtures.world0
    = (Ok (One (mkModelMessage assistant (ContentParts toolParts))), w')
    /\ length toolParts <= 2.
Proof.
  destruct (one_part_assistant_message
              (Fixtures.env (Fixtures.toolStore
                               [ Fixtures.mockToolBlock None (Some [("q", JS.Str "x")])
                                   JS.Undefined;
                                 Fixtures.mockToolBlock (Some "call_2") None JS.Undefined ]))
              Fixtures.msg1 false None Fixtures.world0 eq_refl)
    as (toolParts & w' & Hrun & _ & Hlen & _).
  exists toolParts, w'. split; [|exact Hlen].
  rewrite Hrun. cbn. now rewrite app_nil_r.
Defined.

Example one_part_assistant_example :
  fst (OnePart.convertMessageToSdkParam
         (Fixtures.env (Fixtures.toolStore
                          [ Fixtures.mockToolBlock None (Some [("q", JS.Str "x")])
                              JS.Undefined;
                            Fixtures.mockToolBlock (Some "call_2") None JS.Undefined ]))
         Fixtures.msg1 false None Fixtures.world0)
  = Ok (One (mkModelMessage assistant
               (ContentParts
                  [PToolCall (Some "tool_1700000000000_4fzyo82mv") (Some "test_tool")
                     (JS.Obj [("q", JS.Str "x")])]))).
Proof. reflexivity. Qed.

(** ** The three revisions on messages without tool blocks *)

(** X7: on a message without tool blocks the three revisions compile the
    same request messages with the same effects, whatever the role, except
    that the one-part revision turns a tool-role message into a tool
    message without parts where the other two build an assistant
    message. *)
Theorem revisions_agree_without_tool_blocks (E : Env) (message : Message)
    (isVision : bool) (model : option Model) (w : World) :
  findToolBlocks E message = [] ->
  Replay.convertMessageToSdkParam E message isVision model w
  = Inline.convertMessageToSdkParam E message isVision model w
  /\ (msg_role message <> tool ->
      OnePart.convertMessageToSdkParam E message isVision model w
      = Inline.convertMessageToSdkParam E message isVision model w)
  /\ (msg_role message = tool ->
      OnePart.convertMessageToSdkParam E message isVision model w
      = (Ok (One (mkModelMessage tool (ContentParts []))), w)).
Proof.
  intros Htools.
  unfold Replay.convertMessageToSdkParam, Replay.convertMessageToAssistantModelMessage,
    Inline.convertMessageToSdkParam, Inline.convertMessageToAssistantAndToolMessages,
    OnePart.convertMessageToSdkParam, OnePart.convertMessageToAssistantModelMessage,
    OnePart.convertMessageToToolModelMessage.
  rewrite Htools. cbn [Replay.buildToolHistoryMessages omap list_omap List.filter
                         OnePart.toolPartLoop OnePart.toolContentLoop].
  split; [|split].
  - destruct (msg_role message); reflexivity.
  - intros Hrole. destruct (msg_role message); try reflexivity; congruence.
  - intros ->. reflexivity.
Qed.

Lemma revisions_agree_without_tool_blocks_witness :
  Replay.convertMessageToSdkParam (Fixtures.env Fixtures.conversation) Fixtures.msgB
    true (Some Fixtures.gpt4o) Fixtures.world0
  = Inline.convertMessageToSdkParam (Fixtures.env Fixtures.conversation) Fixtures.msgB
      true (Some Fixtures.gpt4o) Fixtures.world0.
Proof.
  exact (proj1 (revisions_agree_without_tool_blocks (Fixtures.env Fixtures.conversation)
                  Fixtures.msgB true (Some Fixtures.gpt4o) Fixtures.world0 eq_refl)).
Defined.

(** ** Generated ids never collide *)

Lemma cacheInv_empty E w : toolCallIdCache w = ∅ -> cacheInv E w.
Proof.
  intros Hc. exists (fun _ => 0). split.
  - intros k v H. rewrite Hc, lookup_empty in H. discriminate H.
  - intros k1 k2 v1 v2 H. rewrite Hc, lookup_empty in H. discriminate H.
Qed.

Lemma cacheInv_frame E w w' :
  toolCallIdCache w' = toolCallIdCache w -> generated w' = generated w ->
  cacheInv E w -> cacheInv E w'.
Proof.
  intros Hc Hg (generation & Hgen & Hinj). exists generation.
  rewrite Hc, Hg. split; assumption.
Qed.

Lemma keeps_inv_ret E {A} (a : A) : keeps_inv E (ret a).
Proof. intros w r w' Hinv H. inversion H; subst. exact Hinv. Qed.

Lemma keeps_inv_throw E {A} (e : Exn) : keeps_inv E (@throw A e).
Proof. intros w r w' Hinv H. inversion H; subst. exact Hinv. Qed.

Lemma keeps_inv_log E (e : LogEntry) : keeps_inv E (log e).
Proof.
  intros w r w' Hinv H. inversion H; subst.
  eapply cacheInv_frame; [| |exact Hinv]; reflexivity.
Qed.

Lemma keeps_inv_bind E {A B} (m : M A) (k : A -> M B) :
  keeps_inv E m -> (forall a, keeps_inv E (k a)) -> keeps_inv E (bind m k).
Proof.
  intros Hm Hk w r w' Hinv. rewrite bind_run.
  destruct (m w) as [[a|e] w1] eqn:Hmw; intros H.
  - eapply Hk; [eapply Hm; eassumption | exact H].
  - inversion H; subst. eapply Hm; eassumption.
Qed.

Create HintDb inv.
#[local] Hint Resolve keeps_inv_ret keeps_inv_throw keeps_inv_log : inv.
#[local] Hint Extern 2 (keeps_inv _ (bind _ _)) => (apply keeps_inv_bind; [|intros ?]) : inv.
#[local] Hint Extern 3 (keeps_inv _ (match ?x with _ => _ end)) => (destruct x) : inv.
#[local] Hint Extern 3 (keeps_inv _ (if ?x then _ else _)) => (destruct x) : inv.

Section IdInvariant.
Context (E : Env).

(** A derivation keeps the invariant: a new id is built by the next
    generation and stored under a key that had none. *)
Lemma keeps_inv_getToolCallId toolBlock : keeps_inv E (OnePart.getToolCallId E toolBlock).
Proof.
  intros w r w' Hinv H.
  destruct (lacksToolId toolBlock) eqn:Hl.
  - rewrite getToolCallId_lookup in H by exact Hl.
    destruct (toolCallIdCache w !! id toolBlock) as [c|] eqn:Hc; cbn in H;
      inversion H; subst; [exact Hinv|].
    destruct Hinv as (generation & Hgen & Hinj).
    exists (fun k => if String.eqb k (id toolBlock) then generated w else generation k).
    cbn [toolCallIdCache generated]. split.
    + intros k v Hk. destruct (String.eqb k (id toolBlock)) eqn:Hkey.
      * apply String.eqb_eq in Hkey. subst k. rewrite lookup_insert_eq in Hk.
        inversion Hk; subst. split; [lia | reflexivity].
      * apply String.eqb_neq in Hkey. rewrite lookup_insert_ne in Hk by congruence.
        destruct (Hgen k v Hk) as [Hlt Hv]. split; [lia | exact Hv].
    + intros k1 k2 v1 v2 H1 H2.
      destruct (String.eqb k1 (id toolBlock)) eqn:Hk1;
        destruct (String.eqb k2 (id toolBlock)) eqn:Hk2.
      * apply String.eqb_eq in Hk1, Hk2. congruence.
      * apply String.eqb_neq in Hk2. rewrite lookup_insert_ne in H2 by congruence.
        destruct (Hgen k2 v2 H2) as [Hlt _]. lia.
      * apply String.eqb_neq in Hk1. rewrite lookup_insert_ne in H1 by congruence.
        destruct (Hgen k1 v1 H1) as [Hlt _]. lia.
      * apply String.eqb_neq in Hk1, Hk2.
        rewrite lookup_insert_ne in H1 by congruence.
        rewrite lookup_insert_ne in H2 by congruence.
        eauto.
  - unfold lacksToolId in Hl. destruct (toolId toolBlock) as [t|] eqn:Ht; [|discriminate].
    apply negb_false_iff in Hl.
    rewrite (getToolCallId_passthrough E _ t) in H by assumption.
    inversion H; subst. exact Hinv.
Qed.
#[local] Hint Resolve keeps_inv_getToolCallId : inv.

Lemma keeps_inv_convertImageBlock b parts :
  keeps_inv E (Common.convertImageBlock E b parts).
Proof. unfold Common.convertImageBlock. auto 20 with inv. Qed.
#[local] Hint Resolve keeps_inv_convertImageBlock : inv.

Lemma keeps_inv_convertImageBlockToImagePart_from bs : forall parts,
  keeps_inv E (Common.convertImageBlockToImagePart_from E bs parts).
Proof. induction bs; intros parts; cbn; auto with inv. Qed.
#[local] Hint Resolve keeps_inv_convertImageBlockToImagePart_from : inv.

Lemma keeps_inv_userTextFallback fb parts :
  keeps_inv E (Common.userTextFallback E fb parts).
Proof. unfold Common.userTextFallback. auto 10 with inv. Qed.
#[local] Hint Resolve keeps_inv_userTextFallback : inv.

Lemma keeps_inv_userFileLoop model fbs : forall parts,
  keeps_inv E (Common.userFileLoop E model fbs parts).
Proof. induction fbs; intros parts; cbn; auto 20 with inv. Qed.
#[local] Hint Resolve keeps_inv_userFileLoop : inv.

Lemma keeps_inv_convertMessageToUserModelMessage content fbs ibs vision model :
  keeps_inv E (Common.convertMessageToUserModelMessage E content fbs ibs vision model).
Proof.
  unfold Common.convertMessageToUserModelMessage, Common.convertImageBlockToImagePart.
  auto 20 with inv.
Qed.
#[local] Hint Resolve keeps_inv_convertMessageToUserModelMessage : inv.

Lemma keeps_inv_convertToolBlockToToolPart tb :
  keeps_inv E (OnePart.convertToolBlockToToolPart E tb).
Proof. unfold OnePart.convertToolBlockToToolPart. auto 20 with inv. Qed.
#[local] Hint Resolve keeps_inv_convertToolBlockToToolPart : inv.

Lemma keeps_inv_convertToolBlockToToolResultPart tb :
  keeps_inv E (OnePart.convertToolBlockToToolResultPart E tb).
Proof. unfold OnePart.convertToolBlockToToolResultPart. auto 20 with inv. Qed.
#[local] Hint Resolve keeps_inv_convertToolBlockToToolResultPart : inv.

Lemma keeps_inv_toolPartLoop tbs : forall parts,
  keeps_inv E (OnePart.toolPartLoop E tbs parts).
Proof. induction tbs; intros parts; cbn; auto 20 with inv. Qed.
#[local] Hint Resolve keeps_inv_toolPartLoop : inv.

Lemma keeps_inv_toolContentLoop tbs : forall parts,
  keeps_inv E (OnePart.toolContentLoop E tbs parts).
Proof. induction tbs; intros parts; cbn; auto 20 with inv. Qed.
#[local] Hint Resolve keeps_inv_toolContentLoop : inv.

Lemma keeps_inv_convertMessageToSdkParam message vision model :
  keeps_inv E (OnePart.convertMessageToSdkParam E message vision model).
Proof.
  unfold OnePart.convertMessageToSdkParam, OnePart.convertMessageToAssistantModelMessage,
    OnePart.convertMessageToToolModelMessage.
  auto 20 with inv.
Qed.

(** Two keys of the cache hold different ids, as long as the ids built
    so far are pairwise different. *)
Lemma cacheInv_distinct w k1 k2 v1 v2 :
  cacheInv E w -> noRepeatBelow E (generated w) ->
  toolCallIdCache w !! k1 = Some v1 -> toolCallIdCache w !! k2 = Some v2 ->
  k1 <> k2 -> v1 <> v2.
Proof.
  intros (generation & Hgen & Hinj) Hrep H1 H2 Hne.
  destruct (Hgen k1 v1 H1) as [Hlt1 ->]. destruct (Hgen k2 v2 H2) as [Hlt2 ->].
  apply Hrep; [exact Hlt1 | exact Hlt2|].
  intros Heq. apply Hne. eapply Hinj; eassumption.
Qed.

End IdInvariant.

(** X8: compiling a message in the one-part revision keeps the invariant
    of the id cache (it holds only ids built by [generateToolCallId], each
    by a generation of its own and under one key) and never drops or
    overwrites an entry; the invariant holds for an empty cache, so it
    holds throughout a conversation compilation and after it. *)
Theorem one_part_keeps_cache_invariant (E : Env) (message : Message) (isVision : bool)
    (model : option Model) (w w' : World) (r : outcome OneOrMany) :
  cacheInv E w ->
  OnePart.convertMessageToSdkParam E message isVision model w = (r, w') ->
  cacheInv E w' /\ cache_le w w'.
Proof.
  intros Hinv Hrun. split.
  - exact (keeps_inv_convertMessageToSdkParam E message isVision model w r w' Hinv Hrun).
  - exact (keeps_convertMessageToSdkParam E message isVision model w r w' Hrun).
Qed.

Lemma one_part_keeps_cache_invariant_witness :
  cacheInv (Fixtures.env (Fixtures.toolStore [Fixtures.mockToolBlock None None (JS.Str "ok")]))
    (snd (OnePart.convertMessageToSdkParam
            (Fixtures.env (Fixtures.toolStore [Fixtures.mockToolBlock None None (JS.Str "ok")]))
            Fixtures.msg1 false None Fixtures.world0)).
Proof.
  exact (proj1 (one_part_keeps_cache_invariant
                  (Fixtures.env
                     (Fixtures.toolStore [Fixtures.mockToolBlock None None (JS.Str "ok")]))
                  Fixtures.msg1 false None Fixtures.world0
                  (snd (OnePart.convertMessageToSdkParam
                          (Fixtures.env
                             (Fixtures.toolStore
                                [Fixtures.mockToolBlock None None (JS.Str "ok")]))
                          Fixtures.msg1 false None Fixtures.world0))
                  (fst (OnePart.convertMessageToSdkParam
                          (Fixtures.env
                             (Fixtures.toolStore
                                [Fixtures.mockToolBlock None None (JS.Str "ok")]))
                          Fixtures.msg1 false None Fixtures.world0))
                  (cacheInv_empty _ Fixtures.world0 eq_refl)
                  (surjective_pairing _))).
Defined.

(** X9: in a state that satisfies the invariant of the id cache, two tool
    blocks without usable [toolId] and with different block ids are given
    different tool-call ids, whether looked up or newly built, provided
    the clock and random source did not build the same id twice up to
    then. *)
Theorem distinct_blocks_get_distinct_ids (E : Env) (b1 b2 : ToolMessageBlock)
    (w w1 w2 : World) (i1 i2 : string) :
  cacheInv E w ->
  lacksToolId b1 = true ->
  lacksToolId b2 = true ->
  id b1 <> id b2 ->
  OnePart.getToolCallId E b1 w = (Ok i1, w1) ->
  OnePart.getToolCallId E b2 w1 = (Ok i2, w2) ->
  noRepeatBelow E (generated w2) ->
  i1 <> i2.
Proof.
  intros Hinv Hl1 Hl2 Hne H1 H2 Hrep.
  pose proof (keeps_inv_getToolCallId E b1 w _ w1 Hinv H1) as Hinv1.
  pose proof (keeps_inv_getToolCallId E b2 w1 _ w2 Hinv1 H2) as Hinv2.
  pose proof (getToolCallId_cached E b1 w i1 w1 Hl1 H1) as Hc1.
  pose proof (getToolCallId_cached E b2 w1 i2 w2 Hl2 H2) as Hc2.
  pose proof (keeps_getToolCallId E b2 w1 _ w2 H2 _ _ Hc1) as Hc1'.
  exact (cacheInv_distinct E w2 (id b1) (id b2) i1 i2 Hinv2 Hrep Hc1' Hc2 Hne).
Qed.

Lemma distinct_blocks_get_distinct_ids_witness :
  let E := Fixtures.env (Fixtures.toolStore []) in
  let b1 := mkToolBlock "tool-1" None None None JS.Undefined None in
  let b2 := mkToolBlock "tool-2" None None None JS.Undefined None in
  let first := OnePart.getToolCallId E b1 Fixtures.world0 in
  let second := OnePart.getToolCallId E b2 (snd first) in
  fst first = Ok "tool_1700000000000_4fzyo82mv"
  /\ fst second = Ok "tool_1700000000001_9k2j5h7d1"
  /\ "tool_1700000000000_4fzyo82mv" <> "tool_1700000000001_9k2j5h7d1".
Proof.
  intros E b1 b2 first second.
  split; [reflexivity|]. split; [reflexivity|].
  apply (distinct_blocks_get_distinct_ids E b1 b2 Fixtures.world0 (snd first) (snd second)
           "tool_1700000000000_4fzyo82mv" "tool_1700000000001_9k2j5h7d1"
           (cacheInv_empty _ Fixtures.world0 eq_refl) eq_refl eq_refl);
    [discriminate | reflexivity | reflexivity |].
  change (generated (snd second)) with 2.
  intros n m Hn Hm Hnm.
  assert (n = 0 /\ m = 1 \/ n = 1 /\ m = 0) as [[-> ->] | [-> ->]] by lia;
    vm_compute; discriminate.
Defined.

(** ** The conversation compiler *)

Lemma noOverride_leb E model messages :
  noOverride E model messages ->
  isImageEnhancementModel E model && (3 <=? length messages)%nat = false.
Proof.
  intros [-> | Hlen]; [reflexivity|].
  apply andb_false_iff. right. apply Nat.leb_gt. exact Hlen.
Qed.

(** X10: when the image-enhancement override does not apply (the model
    is no image-enhancement model, or there are fewer than three
    messages), the conversation compiler compiles message by message:
    nothing for no message, the request messages of a single message, and
    for two lists in a row the output of the first followed by the output
    of the second, compiled in the state the first left; an exception of
    either is the exception of the whole. *)
Theorem conversation_compiles_message_by_message (E : Env) (xs ys : list Message)
    (message : Message) (model : Model) (w : World) :
  noOverride E model (xs ++ ys) ->
  Inline.convertMessagesToSdkMessages E [] model w = (Ok [], w)
  /\ Inline.convertMessagesToSdkMessages E [message] model w
     = match Inline.convertMessageToSdkParam E message (isVisionModel E model)
               (Some model) w with
       | (Ok r, w') => (Ok (List.map Some (toArray r)), w')
       | (Throw e, w') => (Throw e, w')
       end
  /\ Inline.convertMessagesToSdkMessages E (xs ++ ys) model w
     = match Inline.convertMessagesToSdkMessages E xs model w with
       | (Ok first, w1) =>
           match Inline.convertMessagesToSdkMessages E ys model w1 with
           | (Ok second, w2) => (Ok (first ++ second), w2)
           | (Throw e, w2) => (Throw e, w2)
           end
       | (Throw e, w1) => (Throw e, w1)
       end.
Proof.
  intros Hno. split; [|split].
  - unfold Inline.convertMessagesToSdkMessages, Common.convertMessagesToSdkMessages_with.
    cbn. now rewrite andb_false_r.
  - unfold Inline.convertMessagesToSdkMessages, Common.convertMessagesToSdkMessages_with.
    cbn [Common.convertAll length]. rewrite !bind_run.
    destruct (Inline.convertMessageToSdkParam E message (isVisionModel E model)
                (Some model) w) as [[r|e] w']; [|reflexivity].
    cbn. now rewrite andb_false_r.
  - assert (noOverride E model xs /\ noOverride E model ys) as [Hx Hy].
    { destruct Hno as [Hm | Hlen]; [split; left; exact Hm|].
      rewrite length_app in Hlen. split; right; lia. }
    unfold Inline.convertMessagesToSdkMessages, Common.convertMessagesToSdkMessages_with.
    rewrite !bind_run, (noOverride_leb _ _ _ Hno), (noOverride_leb _ _ _ Hx).
    rewrite convertAll_app.
    destruct (Common.convertAll (Inline.convertMessageToSdkParam E) xs
                (isVisionModel E model) model [] w) as [[first|e] w1]; [|reflexivity].
    cbn [ret]. rewrite bind_run, convertAll_acc, (noOverride_leb _ _ _ Hy).
    destruct (Common.convertAll (Inline.convertMessageToSdkParam E) ys
                (isVisionModel E model) model [] w1) as [[second|e] w2]; [|reflexivity].
    cbn [ret]. now rewrite List.map_app.
Qed.

Lemma conversation_compiles_message_by_message_witness :
  Inline.convertMessagesToSdkMessages (Fixtures.env Fixtures.conversation)
    ([Fixtures.msgA; Fixtures.msgB] ++ [Fixtures.msgC]) Fixtures.gpt4o Fixtures.world0
  = match Inline.convertMessagesToSdkMessages (Fixtures.env Fixtures.conversation)
            [Fixtures.msgA; Fixtures.msgB] Fixtures.gpt4o Fixtures.world0 with
    | (Ok first, w1) =>
        match Inline.convertMessagesToSdkMessages (Fixtures.env Fixtures.conversation)
                [Fixtures.msgC] Fixtures.gpt4o w1 with
        | (Ok second, w2) => (Ok (first ++ second), w2)
        | (Throw e, w2) => (Throw e, w2)
        end
    | (Throw e, w1) => (Throw e, w1)
    end.
Proof.
  exact (proj2 (proj2 (conversation_compiles_message_by_message
                         (Fixtures.env Fixtures.conversation)
                         [Fixtures.msgA; Fixtures.msgB] [Fixtures.msgC] Fixtures.msgA
                         Fixtures.gpt4o Fixtures.world0 (or_introl eq_refl)))).
Defined.

(** X11: for an image-enhancement model and at least three messages, a
    conversation that ends with two assistant messages makes the
    conversation compiler raise a [TypeError]: no user message is among
    the last two compiled messages, and the override reads the content of
    an undefined message. *)
Theorem override_raises_without_user_message (E : Env) (init : list Message)
    (a1 a2 : Message) (model : Model) (w w1 : World) (sdkInit : list ModelMessage)
    (images : list Part) :
  isImageEnhancementModel E model = true ->
  init <> [] ->
  msg_role a1 = assistant ->
  msg_role a2 = assistant ->
  Common.convertAll (Inline.convertMessageToSdkParam E) init (isVisionModel E model)
    model [] w = (Ok sdkInit, w1) ->
  fst (Common.convertImageBlockToImagePart E (findImageBlocks E a1) w) = Ok images ->
  fst (Inline.convertMessagesToSdkMessages E (init ++ [a1; a2]) model w)
  = Throw (TypeError "Cannot read properties of undefined (reading 'content')").
Proof.
  intros Henh Hinit Ha1 Ha2 Hcompiled Himg.
  destruct (inline_assistant_One E a1 (isVisionModel E model) (Some model) w1 Ha1)
    as (parts1 & Hsdk1).
  destruct (inline_assistant_One E a2 (isVisionModel E model) (Some model) w1 Ha2)
    as (parts2 & Hsdk2).
  destruct (convertImageBlockToImagePart_world E (findImageBlocks E a1) w1 w _ Himg)
    as (w2 & Himgs).
  unfold Inline.convertMessagesToSdkMessages, Common.convertMessagesToSdkMessages_with.
  rewrite bind_run, convertAll_app, Hcompiled.
  cbn [Common.convertAll]. rewrite bind_run, Hsdk1, bind_run, Hsdk2. cbn [ret toArray].
  rewrite Henh, length_app. cbn [length andb].
  assert ((3 <=? length init + 2)%nat = true) as ->.
  { apply Nat.leb_le. destruct init; [congruence | cbn; lia]. }
  rewrite <- app_assoc. cbn [app].
  unfold Common.enhancementOverride, Common.lastTwo.
  rewrite !length_app. cbn [length].
  replace (length init + 2 - 2) with (length init) by lia.
  replace (length sdkInit + 2 - 2) with (length sdkInit) by lia.
  rewrite !List.skipn_app, !Nat.sub_diag, !List.skipn_all. cbn [app List.skipn].
  cbn [List.find Common.firstWithRole]. rewrite Ha1. cbn [Role_eqb role].
  rewrite bind_run. cbn [ret]. rewrite bind_run, Himgs. reflexivity.
Qed.

Lemma override_raises_without_user_message_witness :
  fst (Inline.convertMessagesToSdkMessages (Fixtures.env Fixtures.conversation)
         ([Fixtures.msgA] ++ [Fixtures.msgB; Fixtures.msgB]) Fixtures.imageEdit
         Fixtures.world0)
  = Throw (TypeError "Cannot read properties of undefined (reading 'content')").
Proof.
  apply (override_raises_without_user_message (Fixtures.env Fixtures.conversation)
           [Fixtures.msgA] Fixtures.msgB Fixtures.msgB Fixtures.imageEdit
           Fixtures.world0 Fixtures.world0
           [mkModelMessage user (ContentParts [PText "draw a cat"])]
           [PImage "AAAA" (Some "image/jpeg"); PImage "https://example.com/cat.png" None]);
    [reflexivity | discriminate | reflexivity | reflexivity | reflexivity | reflexivity].
Defined.

(** X12: whenever the image-enhancement override returns, its output has
    two or three elements and everything else that was compiled is left
    out: an optional first element that is a system message, then the
    assistant message found among the last two compiled messages (or an
    undefined element when there is none), then a user-role message in
    part-list form. *)
Theorem enhancement_output_shape (E : Env) (messages : list Message)
    (sdkMessages : list ModelMessage) (w w' : World) (out : list (option ModelMessage)) :
  Common.enhancementOverride E messages sdkMessages w = (Ok out, w') ->
  exists slot u parts,
    role u = user
    /\ mcontent u = ContentParts parts
    /\ (forall a, slot = Some a -> role a = assistant /\ In a (Common.lastTwo sdkMessages))
    /\ (out = [slot; Some u]
        \/ exists s, role s = system /\ In s sdkMessages /\ out = [Some s; slot; Some u]).
Proof.
  unfold Common.enhancementOverride. rewrite bind_run.
  match goal with
  | |- context [match ?m w with _ => _ end] => destruct (m w) as [[imageBlocks|e] w0]
  end; [|discriminate].
  rewrite bind_run.
  destruct (Common.convertImageBlockToImagePart E imageBlocks w0) as [[imageParts|e] w1];
    [|discriminate].
  unfold Common.firstWithRole.
  destruct (List.find (fun m => Role_eqb (role m) user) (Common.lastTwo sdkMessages))
    as [userSdk|] eqn:Hu; [|discriminate].
  apply List.find_some in Hu. destruct Hu as [_ Hu].
  assert (role userSdk = user) as Hrole by (destruct (role userSdk); try discriminate; reflexivity).
  assert (forall a,
             List.find (fun m => Role_eqb (role m) assistant) (Common.lastTwo sdkMessages)
             = Some a -> role a = assistant /\ In a (Common.lastTwo sdkMessages)) as Hslot.
  { intros a Ha. apply List.find_some in Ha. destruct Ha as [Hin Hr].
    split; [destruct (role a); try discriminate; reflexivity | exact Hin]. }
  assert (forall s, List.head (List.filter (fun m => Role_eqb (role m) system) sdkMessages)
                    = Some s -> role s = system /\ In s sdkMessages) as Hsystem.
  { intros s Hs.
    assert (In s (List.filter (fun m => Role_eqb (role m) system) sdkMessages)) as Hin
        by (destruct (List.filter _ sdkMessages); inversion Hs; subst; left; reflexivity).
    apply List.filter_In in Hin. destruct Hin as [Hin Hr].
    split; [destruct (role s); try discriminate; reflexivity | exact Hin]. }
  destruct (mcontent userSdk) as [text|ps];
    destruct (List.filter (fun m => Role_eqb (role m) system) sdkMessages) as [|s ss];
    cbn [ret]; intros H; inversion H; subst;
    eexists _, (mkModelMessage (role userSdk) (ContentParts _)), _;
    (split; [exact Hrole|]); (split; [reflexivity|]); (split; [exact Hslot|]);
    try (left; reflexivity);
    right; exists s; destruct (Hsystem s eq_refl) as [Hr Hin];
    (split; [exact Hr | split; [exact Hin | reflexivity]]).
Qed.

Lemma enhancement_output_shape_witness :
  exists slot u parts,
    role u = user
    /\ mcontent u = ContentParts parts
    /\ fst (Common.enhancementOverride (Fixtures.env Fixtures.conversation)
              [Fixtures.msgA; Fixtures.msgB; Fixtures.msgE]
              [ mkModelMessage user (ContentParts [PText "draw a cat"]);
                mkModelMessage assistant (ContentParts []);
                mkModelMessage user (ContentParts [PText "make it blue"]) ]
              Fixtures.world0)
       = Ok [slot; Some u].
Proof.
  destruct (enhancement_output_shape (Fixtures.env Fixtures.conversation)
              [Fixtures.msgA; Fixtures.msgB; Fixtures.msgE]
              [ mkModelMessage user (ContentParts [PText "draw a cat"]);
                mkModelMessage assistant (ContentParts []);
                mkModelMessage user (ContentParts [PText "make it blue"]) ]
              Fixtures.world0 Fixtures.world0
              [ Some (mkModelMessage assistant (ContentParts []));
                Some (mkModelMessage user
                        (ContentParts [ PText "make it blue";
                                        PImage "AAAA" (Some "image/jpeg");
                                        PImage "https://example.com/cat.png" None ])) ]
              eq_refl)
    as (slot & u & parts & Hr & Hc & _ & [Hout | (s & _ & _ & Hout)]).
  - exists slot, u, parts. split; [exact Hr|]. split; [exact Hc|].
    rewrite <- Hout. reflexivity.
  - discriminate Hout.
Defined.

(** ** Calls and results of the replay revision *)

Lemma sublist_map_filter {A B} (f : A -> bool) (g : A -> B) (l : list A) :
  sublist (List.map g (List.filter f l)) (List.map g l).
Proof.
  induction l as [|x l IH]; cbn; [constructor|].
  destruct (f x); cbn; constructor; exact IH.
Qed.

(** X13: in the tool history of the replay revision every part of the
    assistant message is a tool-call with an id, every part of the
    tool-role message is a tool-result, and the ids of the results, in
    order, are a subsequence of the ids of the calls: each result answers
    a call of the message before it, and the results keep the order of
    their calls. *)
Theorem replay_results_answer_calls (E : Env) (toolBlocks : list ToolMessageBlock) :
  exists calls results,
    Replay.buildToolHistoryMessages E toolBlocks
    = messageIfAny assistant calls ++ messageIfAny tool results
    /\ Forall (fun p => is_tool_call p = true /\ exists i, partCallId p = Some i) calls
    /\ Forall (fun p => is_tool_result p = true) results
    /\ sublist (List.map partCallId results) (List.map partCallId calls)
    /\ length results <= length calls.
Proof.
  exists (List.map (Replay.toolCallPartOf E) (clientResponses toolBlocks)),
         (List.map Replay.toolResultPartOf
            (List.filter Replay.isTerminal (clientResponses toolBlocks))).
  split; [apply buildToolHistoryMessages_shape|].
  split.
  { apply Forall_map, List.Forall_forall. intros tr _. split; [reflexivity|].
    unfold Replay.toolCallPartOf, Replay.responseCallId. cbn.
    destruct (tr_toolCallId tr); eauto. }
  split.
  { apply Forall_map, List.Forall_forall. intros tr _. reflexivity. }
  split.
  { rewrite !List.map_map.
    exact (sublist_map_filter Replay.isTerminal Replay.responseCallId
             (clientResponses toolBlocks)). }
  rewrite !length_map. apply List.filter_length_le.
Qed.

(** ** Topic names *)

Lemma isStripped_not_whiteSpace c : Api.isStripped c = true -> Api.isWhiteSpace c = false.
Proof.
  unfold Api.isStripped, Api.strippedChars. cbn [List.existsb].
  rewrite !orb_true_iff, !N.eqb_eq.
  intros H; repeat (destruct H as [H|H]; [subst c; reflexivity|]); discriminate H.
Qed.

Lemma whiteSpace_not_stripped c : Api.isWhiteSpace c = true -> Api.isStripped c = false.
Proof.
  intros Hw. destruct (Api.isStripped c) eqn:Hs; [|reflexivity].
  apply isStripped_not_whiteSpace in Hs. congruence.
Qed.

Lemma trimStart_all_whiteSpace s :
  Forall (fun c => Api.isWhiteSpace c = true) s -> Api.trimStart s = [].
Proof.
  induction 1 as [|c rest Hc _ IH]; cbn; [reflexivity|]. now rewrite Hc.
Qed.

Lemma trimStart_no_whiteSpace s :
  Forall (fun c => Api.isWhiteSpace c = false) s -> Api.trimStart s = s.
Proof. destruct 1 as [|c rest Hc _]; cbn; [reflexivity|]. now rewrite Hc. Qed.

(** What [replace(/\s+/g, ' ')] returns: the characters that are no white
    space, and single spaces that are not in a row; after white space it
    does not start with a space. *)
Lemma collapseFrom_spec s : forall inRun,
  Forall (fun c => Api.isWhiteSpace c = true -> c = 32%N) (Api.collapseFrom inRun s)
  /\ noAdjacentSpaces (Api.collapseFrom inRun s)
  /\ (inRun = true -> forall rest, Api.collapseFrom inRun s <> 32%N :: rest)
  /\ (forall P : N -> Prop, P 32%N -> Forall P s -> Forall P (Api.collapseFrom inRun s))
  /\ length (Api.collapseFrom inRun s) <= length s.
Proof.
  induction s as [|c s IH]; intros inRun; cbn [Api.collapseFrom].
  - repeat split; [constructor | discriminate | constructor | lia].
  - destruct (Api.isWhiteSpace c) eqn:Hc.
    + destruct inRun.
      * destruct (IH true) as (Hws & Hadj & Hhead & Hall & Hlen).
        repeat split; [exact Hws | exact Hadj | intros _; apply Hhead; reflexivity
                      | intros P HP HF; inversion HF; subst; apply Hall; assumption
                      | cbn; lia].
      * destruct (IH true) as (Hws & Hadj & Hhead & Hall & Hlen).
        repeat split.
        -- constructor; [reflexivity | exact Hws].
        -- cbn [noAdjacentSpaces].
           destruct (Api.collapseFrom true s) as [|b rest] eqn:Hrun; [exact I|].
           split; [|exact Hadj]. intros [_ ->]. exact (Hhead eq_refl rest eq_refl).
        -- discriminate.
        -- intros P HP HF; inversion HF; subst. constructor; [exact HP | now apply Hall].
        -- cbn; lia.
    + destruct (IH false) as (Hws & Hadj & _ & Hall & Hlen).
      assert (c <> 32%N) as Hne by (intros ->; discriminate Hc).
      repeat split.
      * constructor; [congruence | exact Hws].
      * cbn [noAdjacentSpaces].
        destruct (Api.collapseFrom false s) as [|b rest]; [exact I|].
        split; [|exact Hadj]. intros [-> _]. congruence.
      * intros _ rest H; inversion H; congruence.
      * intros P HP HF; inversion HF; subst. constructor; [assumption | now apply Hall].
      * cbn; lia.
Qed.

(** X14: a name that [validateTopicName] accepts has at most 30 UTF-16
    code units, and at most 20 when it holds a character between U+4E00
    and U+9FA5; it holds none of the punctuation characters the function
    strips; its only white space is the plain space, never two in a row;
    and it does not depend on the current name. *)
Theorem validated_topic_name (name : option Api.ustring) (currentName cleaned : Api.ustring) :
  Api.validateTopicName name currentName = Some cleaned ->
  length cleaned <= 30
  /\ (Api.isChinese cleaned = true -> length cleaned <= 20)
  /\ Forall (fun c => Api.isStripped c = false) cleaned
  /\ Forall (fun c => Api.isWhiteSpace c = true -> c = 32%N) cleaned
  /\ noAdjacentSpaces cleaned
  /\ (forall other, Api.validateTopicName name other = Some cleaned).
Proof.
  assert (forall other, Api.validateTopicName name other
                        = Api.validateTopicName name currentName) as Hother
    by (intros other; destruct name as [[|c0 name]|]; reflexivity).
  intros Hrun. split; [|split; [|split; [|split; [|split]]]];
    try (intros other; rewrite Hother; exact Hrun);
    revert Hrun; unfold Api.validateTopicName;
    destruct name as [[|c0 name]|]; try discriminate;
    destruct (length (Api.trim (c0 :: name)) =? 0)%nat; try discriminate;
    set (kept := List.filter (fun c => negb (Api.isStripped c)) (Api.trim (c0 :: name)));
    destruct (collapseFrom_spec kept false) as (Hws & Hadj & _ & Hall & _);
    destruct (Api.isChinese (Api.collapseFrom false kept)) eqn:Hch;
    match goal with
    | |- context [(?n <? ?m)%nat] => destruct (Nat.ltb_spec n m) as [Hlen|Hlen]
    end; try discriminate;
    intros H; inversion H; subst cleaned; clear H.
  all: try lia.
  all: try (intros; first [lia | congruence]).
  all: try exact Hws.
  all: try exact Hadj.
  all: apply Hall; [reflexivity|]; subst kept; apply List.Forall_forall;
    intros c Hin; apply List.filter_In in Hin; destruct Hin as [_ Hin];
    now apply negb_true_iff in Hin.
Qed.

Lemma validated_topic_name_witness :
  length [72; 101; 108; 108; 111; 32; 119; 111; 114; 108; 100]%N <= 30
  /\ Api.validateTopicName
       (Some [32; 72; 101; 108; 108; 111; 44; 32; 32; 119; 111; 114; 108; 100; 33; 10]%N) []
     = Some [72; 101; 108; 108; 111; 32; 119; 111; 114; 108; 100]%N.
Proof.
  split; [|reflexivity].
  exact (proj1 (validated_topic_name
                  (Some [32; 72; 101; 108; 108; 111; 44; 32; 32; 119; 111; 114; 108; 100;
                         33; 10]%N) []
                  [72; 101; 108; 108; 111; 32; 119; 111; 114; 108; 100]%N eq_refl)).
Defined.

(** X15: [validateTopicName] rejects a missing name, the empty string and
    a name of white space only with [null]; a non-empty name made of
    stripped punctuation only is accepted, as the empty string. *)
Theorem topic_name_edge_cases (name currentName : Api.ustring) :
  Api.validateTopicName None currentName = None
  /\ (Forall (fun c => Api.isWhiteSpace c = true) name ->
      Api.validateTopicName (Some name) currentName = None)
  /\ (name <> [] -> Forall (fun c => Api.isStripped c = true) name ->
      Api.validateTopicName (Some name) currentName = Some []).
Proof.
  split; [reflexivity|]. split.
  - intros Hall. unfold Api.validateTopicName. destruct name as [|c name]; [reflexivity|].
    unfold Api.trim. rewrite (trimStart_all_whiteSpace _ Hall). reflexivity.
  - intros Hne Hall. unfold Api.validateTopicName.
    destruct name as [|c name]; [congruence|].
    assert (Forall (fun c => Api.isWhiteSpace c = false) (c :: name)) as Hnw.
    { eapply List.Forall_impl; [|exact Hall]. apply isStripped_not_whiteSpace. }
    unfold Api.trim. rewrite (trimStart_no_whiteSpace _ Hnw).
    rewrite trimStart_no_whiteSpace, List.rev_involutive
      by (apply List.Forall_rev; exact Hnw).
    cbn [length Nat.eqb].
    assert (List.filter (fun c => negb (Api.isStripped c)) (c :: name) = []) as ->.
    { clear Hne Hnw. induction Hall as [|x xs Hx _ IH]; [reflexivity|].
      cbn [List.filter]. rewrite Hx. exact IH. }
    reflexivity.
Qed.

Lemma topic_name_edge_cases_witness :
  Api.validateTopicName (Some [32; 9; 12288]%N) [] = None
  /\ Api.validateTopicName (Some [33; 65292; 46]%N) [] = Some [].
Proof.
  destruct (topic_name_edge_cases [32; 9; 12288]%N []) as (_ & Hws & _).
  destruct (topic_name_edge_cases [33; 65292; 46]%N []) as (_ & _ & Hp).
  split.
  - apply Hws. repeat constructor.
  - apply Hp; [discriminate | repeat constructor].
Defined.

(** ** The tools of an assistant *)

Lemma assignedTo_spec assistantMcpServers server :
  Api.assignedTo assistantMcpServers server = true
  <-> exists assigned, In assigned assistantMcpServers
                       /\ Api.server_id assigned = Api.server_id server.
Proof.
  unfold Api.assignedTo. rewrite List.existsb_exists.
  split; intros (s & Hin & Hid); exists s; (split; [exact Hin|]).
  - now apply String.eqb_eq in Hid.
  - now apply String.eqb_eq.
Qed.

Lemma in_toolsOrNone service server tool :
  In tool (Api.toolsOrNone service server)
  <-> exists tools, Api.getMcpTools service (Api.server_id server) = Api.Returns tools
                    /\ In tool tools.
Proof.
  unfold Api.toolsOrNone.
  destruct (Api.getMcpTools service (Api.server_id server)) as [tools|message].
  - split; [intros Hin; now exists tools | intros (ts & Heq & Hin); congruence].
  - split; [intros [] | intros (ts & Heq & _); discriminate].
Qed.

(** X16: once the list of active servers is there, [fetchAssistantMcpTools]
    returns, whatever the tool fetches of the single servers do.  A tool is
    in the answer exactly when an active server whose id is among the
    assistant's servers returned it; a server whose fetch fails gives no
    tool and one logged error; an assistant without servers gets no tool and
    no error. *)
Theorem assistant_tools_come_from_enabled_servers
    (service : Api.McpService) (mcpServers : option (list Api.MCPServer))
    (activedMcpServers : list Api.MCPServer) :
  Api.getActiveMcpServers service = Api.Returns activedMcpServers ->
  exists tools,
    fst (Api.fetchAssistantMcpTools service mcpServers) = Api.Returns tools
    /\ (forall tool,
          In tool tools
          <-> exists server assigned fetched,
                In server activedMcpServers
                /\ In assigned (default [] mcpServers)
                /\ Api.server_id assigned = Api.server_id server
                /\ Api.getMcpTools service (Api.server_id server) = Api.Returns fetched
                /\ In tool fetched)
    /\ length (snd (Api.fetchAssistantMcpTools service mcpServers))
       = length (List.filter
                   (fun server =>
                      Api.assignedTo (default [] mcpServers) server
                      && match Api.getMcpTools service (Api.server_id server) with
                         | Api.Returns _ => false
                         | Api.Throws _ => true
                         end)
                   activedMcpServers)
    /\ (default [] mcpServers = [] ->
        Api.fetchAssistantMcpTools service mcpServers = (Api.Returns [], [])).
Proof.
  intros Hactive. unfold Api.fetchAssistantMcpTools. rewrite Hactive.
  change (match mcpServers with Some servers => servers | None => [] end)
    with (default [] mcpServers).
  set (assistantMcpServers := default [] mcpServers).
  set (enabledMCPs := List.filter (Api.assignedTo assistantMcpServers) activedMcpServers).
  exists (List.concat (List.map (Api.toolsOrNone service) enabledMCPs)).
  split; [destruct enabledMCPs; reflexivity|]. split; [|split].
  - intros tool. rewrite <- List.flat_map_concat_map, List.in_flat_map. split.
    + intros (server & Hin & Htool). apply List.filter_In in Hin as [Hin Hassigned].
      apply assignedTo_spec in Hassigned as (assigned & Hassigned & Hid).
      apply in_toolsOrNone in Htool as (fetched & Hfetch & Htool).
      now exists server, assigned, fetched.
    + intros (server & assigned & fetched & Hin & Hassigned & Hid & Hfetch & Htool).
      exists server. split.
      * apply List.filter_In. split; [exact Hin|]. apply assignedTo_spec. now exists assigned.
      * apply in_toolsOrNone. now exists fetched.
  - transitivity
      (length (flat_map (fun server =>
                           match Api.getMcpTools service (Api.server_id server) with
                           | Api.Returns _ => []
                           | Api.Throws _ =>
                               ["Error fetching tools from MCP server "
                                  +:+ Api.server_name server +:+ ":"]
                           end) enabledMCPs));
      [destruct enabledMCPs; reflexivity|].
    subst enabledMCPs. clear Hactive.
    induction activedMcpServers as [|server rest IH]; [reflexivity|].
    cbn [List.filter]. destruct (Api.assignedTo assistantMcpServers server); cbn [andb].
    + cbn [flat_map]. rewrite List.length_app, IH.
      destruct (Api.getMcpTools service (Api.server_id server)); reflexivity.
    + exact IH.
  - intros Hnone. subst enabledMCPs assistantMcpServers. rewrite Hnone.
    assert (List.filter (Api.assignedTo []) activedMcpServers = []) as ->; [|reflexivity].
    clear. induction activedMcpServers as [|server rest IH]; [reflexivity | exact IH].
Qed.

Lemma assistant_tools_come_from_enabled_servers_witness :
  fst (Api.fetchAssistantMcpTools ApiFixtures.service
         (Some [ApiFixtures.searchServer; ApiFixtures.filesServer]))
  = Api.Returns [ApiFixtures.readFile; ApiFixtures.writeFile]
  /\ length (snd (Api.fetchAssistantMcpTools ApiFixtures.service
                    (Some [ApiFixtures.searchServer; ApiFixtures.filesServer]))) = 1.
Proof.
  destruct (assistant_tools_come_from_enabled_servers ApiFixtures.service
              (Some [ApiFixtures.searchServer; ApiFixtures.filesServer])
              [ApiFixtures.filesServer; ApiFixtures.searchServer; ApiFixtures.mapsServer]
              eq_refl) as (tools & Htools & _ & Hlogs & _).
  split; [reflexivity | exact Hlogs].
Defined.
